(** * VulkanPrintf: a headless Vulkan compute harness with debug-printf sinks

    Shallow embedding of [src/main.cpp].  Every Vulkan entry point the program
    calls is an event of type [Call]; the answers of the loader and of the
    driver come from an oracle ([Driver]) that sees the history of calls, and
    the host environment (files, allocation, byte order) is a [Host].  The
    program's functions are written in a small state-and-exit monad that
    threads the trace of calls, so that the order of creation and teardown
    calls can be stated and proved. *)

From Stdlib Require Import ZArith NArith List String Ascii Bool Lia.
From Stdlib Require Import Permutation Strings.Byte DecimalString.
Import ListNotations.

Local Open Scope Z_scope.

(** ** Constants of [vulkan_core.h] used by the program *)

Module Vk.

(** [VkResult] is a C enumeration; the driver may return any code. *)
Definition VkResult := Z.

Definition VK_SUCCESS : VkResult := 0.
Definition VK_ERROR_OUT_OF_DEVICE_MEMORY : VkResult := -2.
Definition VK_ERROR_INITIALIZATION_FAILED : VkResult := -3.
Definition VK_ERROR_EXTENSION_NOT_PRESENT : VkResult := -7.
Definition VK_ERROR_UNKNOWN : VkResult := -13.

(** [VkBool32] *)
Definition VK_FALSE : Z := 0.
Definition VK_TRUE : Z := 1.

(** [VkQueueFlagBits] *)
Definition VK_QUEUE_GRAPHICS_BIT : Z := 1.
Definition VK_QUEUE_COMPUTE_BIT : Z := 2.
Definition VK_QUEUE_TRANSFER_BIT : Z := 4.
Definition VK_QUEUE_SPARSE_BINDING_BIT : Z := 8.

(** [VkDebugUtilsMessageSeverityFlagBitsEXT] *)
Definition VK_DEBUG_UTILS_MESSAGE_SEVERITY_VERBOSE_BIT_EXT : Z := 1.
Definition VK_DEBUG_UTILS_MESSAGE_SEVERITY_INFO_BIT_EXT : Z := 16.
Definition VK_DEBUG_UTILS_MESSAGE_SEVERITY_WARNING_BIT_EXT : Z := 256.
Definition VK_DEBUG_UTILS_MESSAGE_SEVERITY_ERROR_BIT_EXT : Z := 4096.

(** [VkDebugUtilsMessageTypeFlagBitsEXT] *)
Definition VK_DEBUG_UTILS_MESSAGE_TYPE_GENERAL_BIT_EXT : Z := 1.
Definition VK_DEBUG_UTILS_MESSAGE_TYPE_VALIDATION_BIT_EXT : Z := 2.
Definition VK_DEBUG_UTILS_MESSAGE_TYPE_PERFORMANCE_BIT_EXT : Z := 4.

(** [VkDebugReportFlagBitsEXT] *)
Definition VK_DEBUG_REPORT_INFORMATION_BIT_EXT : Z := 1.
Definition VK_DEBUG_REPORT_WARNING_BIT_EXT : Z := 2.
Definition VK_DEBUG_REPORT_PERFORMANCE_WARNING_BIT_EXT : Z := 4.
Definition VK_DEBUG_REPORT_ERROR_BIT_EXT : Z := 8.
Definition VK_DEBUG_REPORT_DEBUG_BIT_EXT : Z := 16.

(** [VkValidationFeatureEnableEXT] *)
Definition VK_VALIDATION_FEATURE_ENABLE_DEBUG_PRINTF_EXT : Z := 3.

Definition VK_EXT_DEBUG_UTILS_EXTENSION_NAME : string := "VK_EXT_debug_utils".
Definition VK_EXT_DEBUG_REPORT_EXTENSION_NAME : string := "VK_EXT_debug_report".

(** Handles and function pointers are opaque addresses; [0] is [nullptr]
    and [VK_NULL_HANDLE]. *)
Definition Handle := Z.
Definition nullptr : Handle := 0.

(** The one field of [VkQueueFamilyProperties] the program reads, and the
    queue count next to it. *)
Record VkQueueFamilyProperties : Type := {
  queueFlags : Z;
  queueCount : Z
}.

(** On the 64-bit targets of the program. *)
Definition sizeof_VkPhysicalDevice : Z := 8.
Definition sizeof_VkQueueFamilyProperties : Z := 24.

End Vk.
Import Vk.

Definition EXIT_FAILURE : Z := 1.

(** 32-bit unsigned arithmetic ([uint32_t], [VkFlags]). *)
Definition wrap32 (x : Z) : Z := x mod 2 ^ 32.
Definition lnot32 (x : Z) : Z := Z.lxor x 4294967295.

(** ** The trace of calls *)

Inductive Call : Type :=
| vkEnumerateInstanceLayerProperties (count_only : bool)
| vkEnumerateInstanceExtensionProperties (count_only : bool)
| vkCreateInstance (ppEnabledLayerNames ppEnabledExtensionNames : list string)
                   (pEnabledValidationFeatures : list Z)
| vkGetInstanceProcAddr (instance : Handle) (pName : string)
| PFN_vkCreateDebugUtilsMessengerEXT (instance : Handle)
                   (messageSeverity messageType : Z) (pMessenger_is_null : bool)
| PFN_vkDestroyDebugUtilsMessengerEXT (instance messenger : Handle)
| PFN_vkCreateDebugReportCallbackEXT (instance : Handle) (flags : Z)
                   (pCallback_is_null : bool)
| PFN_vkDestroyDebugReportCallbackEXT (instance callback : Handle)
| vkEnumeratePhysicalDevices (instance : Handle) (count_only : bool)
| vkGetPhysicalDeviceQueueFamilyProperties (physicalDevice : Handle) (count_only : bool)
| vkCreateDevice (physicalDevice : Handle) (queueFamilyIndex : Z)
| vkCreateShaderModule (device : Handle) (codeSize : Z) (pCode : list Z)
| vkCreatePipelineLayout (device : Handle)
| vkCreateComputePipelines (device shaderModule layout : Handle) (pName : string)
| vkCreateCommandPool (device : Handle) (queueFamilyIndex : Z)
| vkAllocateCommandBuffers (device commandPool : Handle)
| vkBeginCommandBuffer (commandBuffer : Handle)
| vkCmdBindPipeline (commandBuffer pipeline : Handle)
| vkCmdDispatch (commandBuffer : Handle) (groupCountX groupCountY groupCountZ : Z)
| vkEndCommandBuffer (commandBuffer : Handle)
| vkGetDeviceQueue (device : Handle) (queueFamilyIndex queueIndex : Z)
| vkQueueSubmit (queue commandBuffer : Handle)
| vkQueueWaitIdle (queue : Handle)
| vkFreeCommandBuffers (device commandPool commandBuffer : Handle)
| vkDestroyCommandPool (device commandPool : Handle)
| vkDestroyPipeline (device pipeline : Handle)
| vkDestroyPipelineLayout (device layout : Handle)
| vkDestroyShaderModule (device shaderModule : Handle)
| vkDestroyDevice (device : Handle)
| vkDestroyInstance (instance : Handle)
| fprintf_stderr_Failure_at (line : Z).

(** Calls are recorded oldest first. *)
Definition Trace := list Call.

(** ** The environment *)

(** What the loader and the driver answer.  [drv_result] is the [VkResult]
    of a call and [drv_handle] the handle it writes through its out pointer
    (for [vkGetInstanceProcAddr], the function pointer it returns); both may
    depend on everything that was called before. *)
Record Driver : Type := {
  drv_result : Trace -> Call -> VkResult;
  drv_handle : Trace -> Call -> Handle;
  drv_layers : list string;
  drv_extensions : list string;
  drv_physical_devices : Handle -> list Handle;
  drv_queue_families : Handle -> list VkQueueFamilyProperties
}.

Inductive Endianness : Type := LittleEndian | BigEndian.

(** The host: the files that can be opened and what they hold, whether
    [malloc] and [_malloca] return a block for a size, what a read of
    allocated memory that was never written yields, and the byte order. *)
Record Host : Type := {
  host_files : string -> option (list byte);
  host_malloc : Z -> bool;
  host_malloca : Z -> bool;
  host_uninitialized : Handle;
  host_endianness : Endianness
}.

(** ** Outcomes and the monad of the program *)

Inductive Fault : Type :=
| NullFunctionCall
| InvalidRead
| UncaughtException (what : string).

Inductive Outcome (A : Type) : Type :=
| Ret (a : A)
| Exit (code : Z)
| Crash (f : Fault).
Arguments Ret {A} a.
Arguments Exit {A} code.
Arguments Crash {A} f.

Module Run.

Definition M (A : Type) : Type := Trace -> Outcome A * Trace.

Definition ret {A} (a : A) : M A := fun t => (Ret a, t).

Definition bind {A B} (m : M A) (k : A -> M B) : M B :=
  fun t =>
    match m t with
    | (Ret a, t') => k a t'
    | (Exit c, t') => (Exit c, t')
    | (Crash f, t') => (Crash f, t')
    end.

Definition emit (c : Call) : M unit := fun t => (Ret tt, t ++ [c]).
Definition exit {A} (code : Z) : M A := fun t => (Exit code, t).
Definition crash {A} (f : Fault) : M A := fun t => (Crash f, t).

End Run.
Import Run.

Declare Scope run_scope.
Delimit Scope run_scope with run.
Notation "x <- m ;; k" := (bind m (fun x => k))
  (at level 61, m at next level, right associativity) : run_scope.
Notation "' p <- m ;; k" := (bind m (fun x => let p := x in k))
  (at level 61, p pattern, m at next level, right associativity) : run_scope.
Notation "m ;;; k" := (bind m (fun _ => k))
  (at level 61, right associativity) : run_scope.

Local Open Scope string_scope.
Local Open Scope Z_scope.

(** ** File-scope constants of the program *)

(** [static const size_t shader_local_size_x = 512;] *)
Definition shader_local_size_x : Z := 512.

Definition requiredInstanceLayers : list string :=
  [ "VK_LAYER_KHRONOS_validation" ].

Definition requiredInstanceExtensions : list string :=
  [ VK_EXT_DEBUG_UTILS_EXTENSION_NAME; VK_EXT_DEBUG_REPORT_EXTENSION_NAME ].

(** ** Text written to [std::cout] *)

Definition tab : string := String (ascii_of_nat 9) EmptyString.
Definition endl : string := String (ascii_of_nat 10) EmptyString.

(** [std::cout << x] for an unsigned integer [x]: its decimal digits. *)
Definition print_unsigned (x : Z) : string :=
  NilZero.string_of_uint (N.to_uint (Z.to_N x)).

(** [std::string::find] with a C-string pattern, from position 0: the first
    position at which the pattern occurs, [None] for [npos]. *)
Fixpoint starts_with (pattern s : string) : bool :=
  match pattern with
  | EmptyString => true
  | String c pattern' =>
      match s with
      | EmptyString => false
      | String d s' => if Ascii.eqb c d then starts_with pattern' s' else false
      end
  end.

Fixpoint find_from (pos : nat) (s pattern : string) : option nat :=
  if starts_with pattern s then Some pos
  else match s with
       | EmptyString => None
       | String _ s' => find_from (S pos) s' pattern
       end.

Definition find (s pattern : string) : option nat := find_from 0 s pattern.

(** ** The two diagnostic sinks

    The preprocessor switch [SHOW_ONLY_DEBUG_PRINTF_EXT_MESSAGES] is the first
    argument ([true] in the source as it stands).  A sink returns the text it
    wrote to [std::cout] and its [VkBool32] result. *)

Definition severity_label (messageSeverity : Z) : string :=
  if messageSeverity =? VK_DEBUG_UTILS_MESSAGE_SEVERITY_VERBOSE_BIT_EXT then "[VERBOSE]"
  else if messageSeverity =? VK_DEBUG_UTILS_MESSAGE_SEVERITY_INFO_BIT_EXT then "[INFO]   "
  else if messageSeverity =? VK_DEBUG_UTILS_MESSAGE_SEVERITY_WARNING_BIT_EXT then "[WARNING]"
  else if messageSeverity =? VK_DEBUG_UTILS_MESSAGE_SEVERITY_ERROR_BIT_EXT then "[ERROR]  "
  else "[UNKNOWN]".

Definition VulkanDebugCallback (SHOW_ONLY_DEBUG_PRINTF_EXT_MESSAGES : bool)
    (messageSeverity messageType : Z) (pMessage : string) : string * Z :=
  if SHOW_ONLY_DEBUG_PRINTF_EXT_MESSAGES
     && negb (VK_DEBUG_UTILS_MESSAGE_TYPE_VALIDATION_BIT_EXT =? messageType)
  then (EmptyString, VK_FALSE)
  else
    ("[VULKAN DEBUG] : " ++ severity_label messageSeverity
       ++ " : [FLAGS]: " ++ print_unsigned messageType ++ tab ++ pMessage ++ endl,
     VK_FALSE).

Definition VulkanReportCallback (SHOW_ONLY_DEBUG_PRINTF_EXT_MESSAGES : bool)
    (flags objectType object location messageCode : Z)
    (pLayerPrefix pMessage : string) : string * Z :=
  if SHOW_ONLY_DEBUG_PRINTF_EXT_MESSAGES
     && negb (VK_DEBUG_REPORT_INFORMATION_BIT_EXT =? flags)
  then (EmptyString, VK_FALSE)
  else if SHOW_ONLY_DEBUG_PRINTF_EXT_MESSAGES
          && (let prefix := pMessage in
              match find prefix "Validation" with None => true | Some _ => false end)
  then (EmptyString, VK_FALSE)
  else
    ("[VULKAN REPORT]: [FLAGS]: " ++ print_unsigned flags
       ++ " [LAYER]: " ++ pLayerPrefix ++ " [MESSAGE]: " ++ pMessage ++ endl,
     VK_FALSE).

(** ** Words and their bytes in memory *)

Definition byte_value (b : byte) : Z := Z.of_N (Byte.to_N b).

Definition byte_of_Z (z : Z) : byte :=
  match Byte.of_N (Z.to_N (z mod 256)) with
  | Some b => b
  | None => x00
  end.

Definition word_of_bytes (e : Endianness) (b0 b1 b2 b3 : byte) : Z :=
  match e with
  | LittleEndian =>
      byte_value b0 + 256 * byte_value b1 + 65536 * byte_value b2 + 16777216 * byte_value b3
  | BigEndian =>
      byte_value b3 + 256 * byte_value b2 + 65536 * byte_value b1 + 16777216 * byte_value b0
  end.

Definition bytes_of_word (e : Endianness) (w : Z) : list byte :=
  let b k := byte_of_Z (w / 256 ^ k) in
  match e with
  | LittleEndian => [b 0; b 1; b 2; b 3]
  | BigEndian => [b 3; b 2; b 1; b 0]
  end.

(** The storage of a [std::vector<uint32_t>], byte by byte. *)
Definition storage_bytes (e : Endianness) (words : list Z) : list byte :=
  flat_map (bytes_of_word e) words.

(** The [uint32_t] objects that a run of bytes holds. *)
Fixpoint words_of_bytes (e : Endianness) (bs : list byte) : list Z :=
  match bs with
  | b0 :: b1 :: b2 :: b3 :: rest => word_of_bytes e b0 b1 b2 b3 :: words_of_bytes e rest
  | _ => []
  end.

(** ** [strcmp] and the two membership loops *)

Definition char_value (c : ascii) : Z := Z.of_N (N_of_ascii c).

(** [strcmp] on the characters before the terminating NUL: a string that
    ends is read as the character 0. *)
Fixpoint strcmp (s1 s2 : string) : Z :=
  match s1, s2 with
  | EmptyString, EmptyString => 0
  | EmptyString, String c2 _ => 0 - char_value c2
  | String c1 _, EmptyString => char_value c1 - 0
  | String c1 s1', String c2 s2' =>
      if char_value c1 =? char_value c2
      then (if char_value c1 =? 0 then 0 else strcmp s1' s2')
      else char_value c1 - char_value c2
  end.

(** The inner loop: [layerFound] after scanning the available names. *)
Fixpoint layerFound_in (name : string) (available : list string) : bool :=
  match available with
  | [] => false
  | properties_name :: rest =>
      if strcmp name properties_name =? 0 then true
      else layerFound_in name rest
  end.

(** The outer loop: [false] at the first required name that is not found. *)
Fixpoint all_required_found (required available : list string) : bool :=
  match required with
  | [] => true
  | name :: rest =>
      if negb (layerFound_in name available) then false
      else all_required_found rest available
  end.

(** ** The two scans of [GetBestComputeQueue] *)

Definition maskedFlags (queueFlags : Z) : Z :=
  Z.land (lnot32 (Z.lor VK_QUEUE_TRANSFER_BIT VK_QUEUE_SPARSE_BINDING_BIT)) queueFlags.

Definition compute_only (masked : Z) : bool :=
  negb (negb (Z.land VK_QUEUE_GRAPHICS_BIT masked =? 0))
  && negb (Z.land VK_QUEUE_COMPUTE_BIT masked =? 0).

Definition any_compute (masked : Z) : bool :=
  negb (Z.land VK_QUEUE_COMPUTE_BIT masked =? 0).

(** [for (uint32_t i = ...; i < count; i++)] over the families from index
    [i] on: the first index whose masked flags pass the test.  The index
    stays below the 32-bit count, so it never wraps. *)
Fixpoint scan_families (test : Z -> bool) (i : Z)
    (families : list VkQueueFamilyProperties) : option Z :=
  match families with
  | [] => None
  | properties :: rest =>
      if test (maskedFlags (queueFlags properties)) then Some i
      else scan_families test (i + 1) rest
  end.

(** ** The program *)

Local Open Scope run_scope.

(** An out parameter of pointer type: [None] is a null pointer, [Some v] a
    pointer to a variable that holds [v]. *)
Definition is_null {A} (p : option A) : bool :=
  match p with None => true | Some _ => false end.

Definition store {A} (p : option A) (v : A) : option A :=
  match p with None => None | Some _ => Some v end.

Definition pointee (p : option Handle) (old : Handle) : Handle :=
  match p with None => old | Some v => v end.

Section Program.

Variable drv : Driver.
Variable host : Host.

(** A call into the loader or the driver: its result code and the handle
    it hands back. *)
Definition call (c : Call) : M (VkResult * Handle) :=
  fun t => (Ret (drv_result drv t c, drv_handle drv t c), (t ++ [c])%list).

(** A call through a function pointer obtained from
    [vkGetInstanceProcAddr]; calling a null pointer is a fault. *)
Definition call_through (function : Handle) (c : Call) : M (VkResult * Handle) :=
  if function =? nullptr then crash NullFunctionCall else call c.

(** The macro [EXIT_ON_BAD_RESULT], with the value of [__LINE__]. *)
Definition EXIT_ON_BAD_RESULT (line : Z) (result : VkResult) : M unit :=
  if negb (VK_SUCCESS =? result)
  then emit (fprintf_stderr_Failure_at line) ;;; exit EXIT_FAILURE
  else ret tt.

Definition readFile (filename : string) : M (list Z) :=
  match host_files host filename with
  | None => crash (UncaughtException "Failed to open file!")
  | Some contents =>
      let fileSize := List.length contents in
      let buffer := repeat 0 fileSize in
      let storage := storage_bytes (host_endianness host) buffer in
      let storage := (contents ++ skipn fileSize storage)%list in
      ret (words_of_bytes (host_endianness host) storage)
  end.

(** The list of required names is the file-scope constant in the source;
    it is an argument here. *)
Definition VerifyInstanceLayers (required : list string) : M bool :=
  if (List.length required =? 0)%nat then ret true
  else
    emit (vkEnumerateInstanceLayerProperties true) ;;;
    let availableLayers := drv_layers drv in
    emit (vkEnumerateInstanceLayerProperties false) ;;;
    ret (all_required_found required availableLayers).

Definition VerifyInstanceExtensions (required : list string) : M bool :=
  if (List.length required =? 0)%nat then ret true
  else
    emit (vkEnumerateInstanceExtensionProperties true) ;;;
    let availableExtensions := drv_extensions drv in
    emit (vkEnumerateInstanceExtensionProperties false) ;;;
    ret (all_required_found required availableExtensions).

Definition CreateHeadlessVulkanInstance (instance : Handle) : M (VkResult * Handle) :=
  let enabled := VK_VALIDATION_FEATURE_ENABLE_DEBUG_PRINTF_EXT in
  call (vkCreateInstance requiredInstanceLayers requiredInstanceExtensions [enabled]).

Definition CreateDebugMessenger (instance : Handle) (debugMessenger : option Handle)
    : M (VkResult * option Handle) :=
  if (nullptr =? instance) || is_null debugMessenger
  then ret (VK_ERROR_UNKNOWN, debugMessenger)
  else
    let messageSeverity :=
      Z.lor (Z.lor (Z.lor VK_DEBUG_UTILS_MESSAGE_SEVERITY_VERBOSE_BIT_EXT
                          VK_DEBUG_UTILS_MESSAGE_SEVERITY_INFO_BIT_EXT)
                   VK_DEBUG_UTILS_MESSAGE_SEVERITY_WARNING_BIT_EXT)
            VK_DEBUG_UTILS_MESSAGE_SEVERITY_ERROR_BIT_EXT in
    let messageType :=
      Z.lor (Z.lor VK_DEBUG_UTILS_MESSAGE_TYPE_GENERAL_BIT_EXT
                   VK_DEBUG_UTILS_MESSAGE_TYPE_VALIDATION_BIT_EXT)
            VK_DEBUG_UTILS_MESSAGE_TYPE_PERFORMANCE_BIT_EXT in
    '(_, function) <- call (vkGetInstanceProcAddr instance "vkCreateDebugUtilsMessengerEXT") ;;
    if negb (function =? nullptr)
    then
      '(result, messenger) <-
         call_through function
           (PFN_vkCreateDebugUtilsMessengerEXT instance messageSeverity messageType
              (is_null debugMessenger)) ;;
      ret (result, store debugMessenger messenger)
    else ret (VK_ERROR_EXTENSION_NOT_PRESENT, debugMessenger).

Definition DestroyDebugMessenger (instance debugMessenger : Handle) : M unit :=
  if (nullptr =? instance) || (nullptr =? debugMessenger)
  then ret tt
  else
    '(_, function) <- call (vkGetInstanceProcAddr instance "vkDestroyDebugUtilsMessengerEXT") ;;
    _ <- call_through function (PFN_vkDestroyDebugUtilsMessengerEXT instance debugMessenger) ;;
    ret tt.

Definition CreateReportCallback (instance : Handle) (reportCallback : option Handle)
    : M (VkResult * option Handle) :=
  let flags :=
    Z.lor (Z.lor (Z.lor (Z.lor VK_DEBUG_REPORT_DEBUG_BIT_EXT VK_DEBUG_REPORT_ERROR_BIT_EXT)
                        VK_DEBUG_REPORT_PERFORMANCE_WARNING_BIT_EXT)
                 VK_DEBUG_REPORT_WARNING_BIT_EXT)
          VK_DEBUG_REPORT_INFORMATION_BIT_EXT in
  '(_, function) <- call (vkGetInstanceProcAddr instance "vkCreateDebugReportCallbackEXT") ;;
  if negb (function =? nullptr)
  then
    '(result, callback) <-
       call_through function
         (PFN_vkCreateDebugReportCallbackEXT instance flags (is_null reportCallback)) ;;
    ret (result, store reportCallback callback)
  else ret (VK_ERROR_EXTENSION_NOT_PRESENT, reportCallback).

Definition DestroyReportCallback (instance reportCallback : Handle) : M unit :=
  if (nullptr =? instance) || (nullptr =? reportCallback)
  then ret tt
  else
    '(_, function) <- call (vkGetInstanceProcAddr instance "vkDestroyDebugReportCallbackEXT") ;;
    _ <- call_through function (PFN_vkDestroyDebugReportCallbackEXT instance reportCallback) ;;
    ret tt.

(** [devices] is [None] for a null pointer; [device_count] is left as it
    was when the first query fails.  The array that [malloc] returns is
    filled by the second query; when [malloc] returns null the second query
    is one more count query. *)
Definition EnumerateDevices (instance : Handle) (devices : option (list Handle))
    (device_count : Z) : M (VkResult * option (list Handle) * Z) :=
  '(result, _) <- call (vkEnumeratePhysicalDevices instance true) ;;
  if negb (VK_SUCCESS =? result)
  then ret (result, devices, device_count)
  else
    let device_count := Z.of_nat (List.length (drv_physical_devices drv instance)) in
    let devices : option (list Handle) :=
      if host_malloc host (sizeof_VkPhysicalDevice * device_count)
      then Some [] else None in
    '(result, _) <- call (vkEnumeratePhysicalDevices instance (is_null devices)) ;;
    ret (result, store devices (drv_physical_devices drv instance), device_count).

Definition GetBestComputeQueue (physicalDevice : Handle) (queueFamilyIndex : Z)
    : M (VkResult * Z) :=
  emit (vkGetPhysicalDeviceQueueFamilyProperties physicalDevice true) ;;;
  let queueFamilyProperties := drv_queue_families drv physicalDevice in
  let queueFamilyPropertiesCount := Z.of_nat (List.length queueFamilyProperties) in
  if negb (host_malloca host (sizeof_VkQueueFamilyProperties * queueFamilyPropertiesCount))
  then ret (VK_ERROR_OUT_OF_DEVICE_MEMORY, queueFamilyIndex)
  else
    emit (vkGetPhysicalDeviceQueueFamilyProperties physicalDevice false) ;;;
    match scan_families compute_only 0 queueFamilyProperties with
    | Some i => ret (VK_SUCCESS, i)
    | None =>
        match scan_families any_compute 0 queueFamilyProperties with
        | Some i => ret (VK_SUCCESS, i)
        | None => ret (VK_ERROR_INITIALIZATION_FAILED, queueFamilyIndex)
        end
    end.

Definition CreateDevice (physicalDevice : Handle) (queueFamilyIndex : Z)
    (device : Handle) : M (VkResult * Handle) :=
  call (vkCreateDevice physicalDevice queueFamilyIndex).

Definition RunComputeShader (device : Handle) (queueFamilyIndex : Z)
    (shaderCode : list Z) : M VkResult :=
  let codeSize := Z.of_nat (List.length shaderCode) in
  let pCode := shaderCode in
  '(result, glslShaderModule) <- call (vkCreateShaderModule device codeSize pCode) ;;
  if negb (result =? VK_SUCCESS) then ret result else
  '(result, glslPipelineLayout) <- call (vkCreatePipelineLayout device) ;;
  if negb (result =? VK_SUCCESS) then ret result else
  '(result, pipeline) <-
     call (vkCreateComputePipelines device glslShaderModule glslPipelineLayout "main") ;;
  if negb (result =? VK_SUCCESS) then ret result else
  '(result, commandPool) <- call (vkCreateCommandPool device queueFamilyIndex) ;;
  if negb (result =? VK_SUCCESS) then ret result else
  '(result, commandBuffer) <- call (vkAllocateCommandBuffers device commandPool) ;;
  if negb (result =? VK_SUCCESS) then ret result else
  '(result, _) <- call (vkBeginCommandBuffer commandBuffer) ;;
  if negb (result =? VK_SUCCESS) then ret result else
  emit (vkCmdBindPipeline commandBuffer pipeline) ;;;
  emit (vkCmdDispatch commandBuffer (wrap32 shader_local_size_x) 1 1) ;;;
  '(result, _) <- call (vkEndCommandBuffer commandBuffer) ;;
  if negb (result =? VK_SUCCESS) then ret result else
  '(_, queue) <- call (vkGetDeviceQueue device queueFamilyIndex 0) ;;
  '(result, _) <- call (vkQueueSubmit queue commandBuffer) ;;
  if negb (result =? VK_SUCCESS) then ret result else
  '(result, _) <- call (vkQueueWaitIdle queue) ;;
  if negb (result =? VK_SUCCESS) then ret result else
  emit (vkFreeCommandBuffers device commandPool commandBuffer) ;;;
  emit (vkDestroyCommandPool device commandPool) ;;;
  emit (vkDestroyPipeline device pipeline) ;;;
  emit (vkDestroyPipelineLayout device glslPipelineLayout) ;;;
  emit (vkDestroyShaderModule device glslShaderModule) ;;;
  ret result.

(** Element 0 of the array that [EnumerateDevices] allocated.  When the
    driver listed no device nothing was written into the block, and the read
    yields what the memory happens to hold. *)
Definition element_0 (array : list Handle) : Handle :=
  match array with
  | first :: _ => first
  | [] => host_uninitialized host
  end.

(** [main] returns its exit status; the numbers are the source lines of
    the [EXIT_ON_BAD_RESULT] uses.  The array of devices is read at line
    562: through a null pointer when [malloc] failed. *)
Definition main : M Z :=
  instanceLayersPresent <- VerifyInstanceLayers requiredInstanceLayers ;;
  instanceExtensionsPresent <- VerifyInstanceExtensions requiredInstanceExtensions ;;
  if negb instanceLayersPresent || negb instanceExtensionsPresent then ret 1 else
  let instance := nullptr in
  '(result, instance) <- CreateHeadlessVulkanInstance instance ;;
  EXIT_ON_BAD_RESULT 549 result ;;;
  let debugMessenger := nullptr in
  '(result, written) <- CreateDebugMessenger instance (Some debugMessenger) ;;
  let debugMessenger := pointee written debugMessenger in
  EXIT_ON_BAD_RESULT 552 result ;;;
  let reportCallback := nullptr in
  '(result, written) <- CreateReportCallback instance (Some reportCallback) ;;
  let reportCallback := pointee written reportCallback in
  EXIT_ON_BAD_RESULT 555 result ;;;
  let physicalDevices : option (list Handle) := None in
  let physicalDeviceCount := 0 in
  '(result, physicalDevices, physicalDeviceCount) <-
     EnumerateDevices instance physicalDevices physicalDeviceCount ;;
  EXIT_ON_BAD_RESULT 559 result ;;;
  let queueFamilyIndex := 0 in
  match physicalDevices with
  | Some physicalDevices =>
      let physicalDevices_0 := element_0 physicalDevices in
      '(result, queueFamilyIndex) <- GetBestComputeQueue physicalDevices_0 queueFamilyIndex ;;
      EXIT_ON_BAD_RESULT 562 result ;;;
      let device := nullptr in
      '(result, device) <- CreateDevice physicalDevices_0 queueFamilyIndex device ;;
      EXIT_ON_BAD_RESULT 565 result ;;;
      glslShaderCode <- readFile "GLSLComputeShader.comp.spv" ;;
      result <- RunComputeShader device queueFamilyIndex glslShaderCode ;;
      EXIT_ON_BAD_RESULT 569 result ;;;
      hlslShaderCode <- readFile "HLSLComputeShader.comp.spv" ;;
      result <- RunComputeShader device queueFamilyIndex hlslShaderCode ;;
      EXIT_ON_BAD_RESULT 573 result ;;;
      emit (vkDestroyDevice device) ;;;
      DestroyDebugMessenger instance debugMessenger ;;;
      DestroyReportCallback instance reportCallback ;;;
      emit (vkDestroyInstance instance) ;;;
      ret 0
  | None => crash InvalidRead
  end.

End Program.

(** ** Vocabulary of the specification *)

(** Bit 0 of the queue flags is GRAPHICS, bit 1 is COMPUTE. *)
Definition exposes_graphics (p : VkQueueFamilyProperties) : Prop :=
  Z.testbit (queueFlags p) 0 = true.

Definition exposes_compute (p : VkQueueFamilyProperties) : Prop :=
  Z.testbit (queueFlags p) 1 = true.

(** Tier 1: COMPUTE without GRAPHICS.  Tier 2: COMPUTE. *)
Definition tier1 (p : VkQueueFamilyProperties) : Prop :=
  exposes_compute p /\ ~ exposes_graphics p.

Definition tier2 (p : VkQueueFamilyProperties) : Prop :=
  exposes_compute p.

(** [i] is the index of the first family, in enumeration order, that
    satisfies [P]. *)
Definition first_family (P : VkQueueFamilyProperties -> Prop)
    (families : list VkQueueFamilyProperties) (i : Z) : Prop :=
  0 <= i /\
  (exists p, nth_error families (Z.to_nat i) = Some p /\ P p) /\
  (forall j q, (j < Z.to_nat i)%nat -> nth_error families j = Some q -> ~ P q).

Definition no_family (P : VkQueueFamilyProperties -> Prop)
    (families : list VkQueueFamilyProperties) : Prop :=
  forall p, In p families -> ~ P p.

(** A text contains a pattern when the pattern occurs somewhere in it. *)
Definition contains (s pattern : string) : Prop :=
  exists before after, s = before ++ pattern ++ after.

(** A sink logged when it wrote something to [std::cout]. *)
Definition logged (written : string) : Prop := written <> EmptyString.

(** The characters of a C string: none of them is NUL. *)
Fixpoint c_string (s : string) : bool :=
  match s with
  | EmptyString => true
  | String c s' => negb (char_value c =? 0) && c_string s'
  end.

Definition c_strings (names : list string) : Prop :=
  Forall (fun s => c_string s = true) names.

(** The answer of a verification run. *)
Definition verdict (run : Outcome bool * Trace) : option bool :=
  match fst run with
  | Ret b => Some b
  | _ => None
  end.

(** The calls of one pipeline run, in program order, for given handles:
    creation, recording, submission; and then the teardown. *)
Definition pipeline_script (device : Handle) (queueFamilyIndex : Z) (shaderCode : list Z)
    (shaderModule layout pipeline commandPool commandBuffer queue : Handle) : list Call :=
  [ vkCreateShaderModule device (Z.of_nat (List.length shaderCode)) shaderCode;
    vkCreatePipelineLayout device;
    vkCreateComputePipelines device shaderModule layout "main";
    vkCreateCommandPool device queueFamilyIndex;
    vkAllocateCommandBuffers device commandPool;
    vkBeginCommandBuffer commandBuffer;
    vkCmdBindPipeline commandBuffer pipeline;
    vkCmdDispatch commandBuffer 512 1 1;
    vkEndCommandBuffer commandBuffer;
    vkGetDeviceQueue device queueFamilyIndex 0;
    vkQueueSubmit queue commandBuffer;
    vkQueueWaitIdle queue ].

Definition pipeline_teardown (device : Handle)
    (shaderModule layout pipeline commandPool commandBuffer : Handle) : list Call :=
  [ vkFreeCommandBuffers device commandPool commandBuffer;
    vkDestroyCommandPool device commandPool;
    vkDestroyPipeline device pipeline;
    vkDestroyPipelineLayout device layout;
    vkDestroyShaderModule device shaderModule ].

(** The calls whose [VkResult] the program checks. *)
Definition returns_result (c : Call) : bool :=
  match c with
  | vkCreateInstance _ _ _
  | PFN_vkCreateDebugUtilsMessengerEXT _ _ _ _
  | PFN_vkCreateDebugReportCallbackEXT _ _ _
  | vkEnumeratePhysicalDevices _ _
  | vkCreateDevice _ _
  | vkCreateShaderModule _ _ _
  | vkCreatePipelineLayout _
  | vkCreateComputePipelines _ _ _ _
  | vkCreateCommandPool _ _
  | vkAllocateCommandBuffers _ _
  | vkBeginCommandBuffer _
  | vkEndCommandBuffer _
  | vkQueueSubmit _ _
  | vkQueueWaitIdle _ => true
  | _ => false
  end.

(** The calls that release a resource of a pipeline run. *)
Definition is_pipeline_teardown (c : Call) : bool :=
  match c with
  | vkFreeCommandBuffers _ _ _
  | vkDestroyCommandPool _ _
  | vkDestroyPipeline _ _
  | vkDestroyPipelineLayout _ _
  | vkDestroyShaderModule _ _ => true
  | _ => false
  end.

(** The calls by which [main] releases what it created. *)
Definition is_caller_cleanup (c : Call) : bool :=
  match c with
  | vkDestroyDevice _
  | PFN_vkDestroyDebugUtilsMessengerEXT _ _
  | PFN_vkDestroyDebugReportCallbackEXT _ _
  | vkDestroyInstance _ => true
  | _ => false
  end.

(** The resources of one pipeline run. *)
Inductive Resource : Type :=
| ShaderModule
| PipelineLayout
| Pipeline
| CommandPool
| CommandBuffer.

Definition creates (c : Call) : option Resource :=
  match c with
  | vkCreateShaderModule _ _ _ => Some ShaderModule
  | vkCreatePipelineLayout _ => Some PipelineLayout
  | vkCreateComputePipelines _ _ _ _ => Some Pipeline
  | vkCreateCommandPool _ _ => Some CommandPool
  | vkAllocateCommandBuffers _ _ => Some CommandBuffer
  | _ => None
  end.

Definition releases (c : Call) : option Resource :=
  match c with
  | vkFreeCommandBuffers _ _ _ => Some CommandBuffer
  | vkDestroyCommandPool _ _ => Some CommandPool
  | vkDestroyPipeline _ _ => Some Pipeline
  | vkDestroyPipelineLayout _ _ => Some PipelineLayout
  | vkDestroyShaderModule _ _ => Some ShaderModule
  | _ => None
  end.

Fixpoint collect {A B} (f : A -> option B) (l : list A) : list B :=
  match l with
  | [] => []
  | a :: l' =>
      match f a with
      | Some b => b :: collect f l'
      | None => collect f l'
      end
  end.

(** The resources a trace creates, and those it releases, in order. *)
Definition created (calls : list Call) : list Resource := collect creates calls.
Definition released (calls : list Call) : list Resource := collect releases calls.

(** The commands recorded into a command buffer. *)
Definition is_recorded_command (c : Call) : bool :=
  match c with
  | vkCmdBindPipeline _ _ | vkCmdDispatch _ _ _ _ => true
  | _ => false
  end.

(** Every checked call of [calls], made after the trace [t], succeeded. *)
Fixpoint checks_passed (drv : Driver) (t : Trace) (calls : list Call) : Prop :=
  match calls with
  | [] => True
  | c :: calls' =>
      (returns_result c = true -> drv_result drv t c = VK_SUCCESS) /\
      checks_passed drv (t ++ [c])%list calls'
  end.

(** The line printed by [EXIT_ON_BAD_RESULT]. *)
Definition is_failure_report (c : Call) : bool :=
  match c with
  | fprintf_stderr_Failure_at _ => true
  | _ => false
  end.

(** ** What each part of the program does, as [main] sees it *)

(** The last call of [calls] is a checked call that returned [r]; the
    checked calls before it succeeded. *)
Definition failed_last (drv : Driver) (t : Trace) (calls : list Call)
    (r : VkResult) : Prop :=
  exists before c,
    calls = (before ++ [c])%list /\
    checks_passed drv t before /\
    returns_result c = true /\
    drv_result drv (t ++ before)%list c = r.

(** Neither a cleanup call of [main] nor a failure report. *)
Definition quiet (calls : list Call) : Prop :=
  filter is_caller_cleanup calls = [] /\ filter is_failure_report calls = [].

(** A function called by [main] before its cleanup: it never exits by
    itself, it makes quiet calls only, and either all its checked calls
    succeeded or its last call failed and it returns the code of that call
    ([res] reads the [VkResult] off the returned value). *)
Definition function_spec (drv : Driver) {A} (res : A -> VkResult) (m : M A) : Prop :=
  forall t, exists out calls,
    m t = (out, (t ++ calls)%list) /\
    quiet calls /\
    match out with
    | Ret a =>
        checks_passed drv t calls
        \/ (res a <> VK_SUCCESS /\ failed_last drv t calls (res a))
    | Exit _ => False
    | Crash _ => checks_passed drv t calls
    end.

(** The harness: when it exits, it does so with [EXIT_FAILURE], right after
    the failure report, without any cleanup call, and at most the last call
    before the report failed; otherwise every checked call succeeded. *)
Definition harness_spec (drv : Driver) (m : M Z) : Prop :=
  forall t, exists out calls,
    m t = (out, (t ++ calls)%list) /\
    match out with
    | Exit code =>
        code = EXIT_FAILURE /\
        filter is_caller_cleanup calls = [] /\
        exists before line,
          calls = (before ++ [fprintf_stderr_Failure_at line])%list /\
          filter is_failure_report before = [] /\
          (checks_passed drv t before
           \/ exists r, r <> VK_SUCCESS /\ failed_last drv t before r)
    | _ => checks_passed drv t calls /\ filter is_failure_report calls = []
    end.

(** The rest of [main] from a use of [EXIT_ON_BAD_RESULT] on the code [r]. *)
Definition after_check (drv : Driver) (r : VkResult) (m : M Z) : Prop :=
  (r = VK_SUCCESS -> harness_spec drv m) /\
  (r <> VK_SUCCESS ->
   forall t, exists line,
     m t = (Exit EXIT_FAILURE, (t ++ [fprintf_stderr_Failure_at line])%list)).

(** The cleanup of [main]: no checked call, no report, no exit. *)
Definition cleanup_spec {A} (m : M A) : Prop :=
  forall t, exists out calls,
    m t = (out, (t ++ calls)%list) /\
    Forall (fun c => returns_result c = false /\ is_failure_report c = false) calls /\
    match out with
    | Exit _ => False
    | _ => True
    end.

(** Two families agree on the GRAPHICS and COMPUTE bits. *)
Definition same_low_bits (p q : VkQueueFamilyProperties) : Prop :=
  Z.testbit (queueFlags p) 0 = Z.testbit (queueFlags q) 0 /\
  Z.testbit (queueFlags p) 1 = Z.testbit (queueFlags q) 1.

(** The handle that the driver handed back at call number [n] of [calls],
    made after the trace [t]. *)
Definition handed_back (drv : Driver) (t : Trace) (calls : list Call) (n : nat)
    : Handle :=
  drv_handle drv (t ++ firstn n calls)%list (nth n calls (vkDestroyDevice nullptr)).

(** ** Postconditions of runs *)

(** Whatever the trace so far, the computation extends it by calls that,
    with the outcome, satisfy [Q]. *)
Definition run_post {A} (m : M A) (Q : Outcome A -> list Call -> Prop) : Prop :=
  forall t, exists out calls, m t = (out, (t ++ calls)%list) /\ Q out calls.

(** The computation returns to its caller, with a value and calls that
    satisfy [R]. *)
Definition returns {A} (m : M A) (R : A -> list Call -> Prop) : Prop :=
  run_post m (fun out calls => exists a, out = Ret a /\ R a calls).

(** The same for a run that starts after the trace [t]. *)
Definition post_at {A} (m : M A) (t : Trace) (Q : Outcome A -> list Call -> Prop)
    : Prop :=
  exists out calls, m t = (out, (t ++ calls)%list) /\ Q out calls.

Definition returns_at {A} (m : M A) (t : Trace) (R : A -> list Call -> Prop) : Prop :=
  post_at m t (fun out calls => exists a, out = Ret a /\ R a calls).

(** ** The stages of the harness *)

(** The four enumeration calls of the capability check. *)
Definition preflight_calls : list Call :=
  [ vkEnumerateInstanceLayerProperties true;
    vkEnumerateInstanceLayerProperties false;
    vkEnumerateInstanceExtensionProperties true;
    vkEnumerateInstanceExtensionProperties false ].

(** The calls from the creation of the instance to the creation of the
    device, when every one of them succeeds. *)
Definition setup_calls (instance physicalDevice : Handle) (queueFamilyIndex : Z)
    : list Call :=
  [ vkCreateInstance requiredInstanceLayers requiredInstanceExtensions
      [ VK_VALIDATION_FEATURE_ENABLE_DEBUG_PRINTF_EXT ];
    vkGetInstanceProcAddr instance "vkCreateDebugUtilsMessengerEXT";
    PFN_vkCreateDebugUtilsMessengerEXT instance 4369 7 false;
    vkGetInstanceProcAddr instance "vkCreateDebugReportCallbackEXT";
    PFN_vkCreateDebugReportCallbackEXT instance 31 false;
    vkEnumeratePhysicalDevices instance true;
    vkEnumeratePhysicalDevices instance false;
    vkGetPhysicalDeviceQueueFamilyProperties physicalDevice true;
    vkGetPhysicalDeviceQueueFamilyProperties physicalDevice false;
    vkCreateDevice physicalDevice queueFamilyIndex ].

(** What unregistering a sink calls: nothing for a null instance or a null
    handle, else the lookup by name and the destroy entry point. *)
Definition messenger_release (instance debugMessenger : Handle) : list Call :=
  if (nullptr =? instance) || (nullptr =? debugMessenger) then []
  else [ vkGetInstanceProcAddr instance "vkDestroyDebugUtilsMessengerEXT";
         PFN_vkDestroyDebugUtilsMessengerEXT instance debugMessenger ].

Definition report_release (instance reportCallback : Handle) : list Call :=
  if (nullptr =? instance) || (nullptr =? reportCallback) then []
  else [ vkGetInstanceProcAddr instance "vkDestroyDebugReportCallbackEXT";
         PFN_vkDestroyDebugReportCallbackEXT instance reportCallback ].


(** ** Sample environments *)

Definition family (flags : Z) : VkQueueFamilyProperties :=
  {| queueFlags := flags; queueCount := 1 |}.

(** A driver on which every call succeeds and every handle is fresh and
    non-null. *)
Definition willing_driver (families : list VkQueueFamilyProperties) : Driver :=
  {| drv_result := fun _ _ => VK_SUCCESS;
     drv_handle := fun t _ => Z.of_nat (List.length t) + 1;
     drv_layers := [ "VK_LAYER_KHRONOS_validation" ];
     drv_extensions := [ "VK_KHR_surface"; "VK_EXT_debug_report"; "VK_EXT_debug_utils" ];
     drv_physical_devices := fun _ => [ 4096 ];
     drv_queue_families := fun _ => families |}.

Definition sample_file : list byte := [ x03; x02; x23; x07; x00; x00; x01; x00 ].

Definition sample_host : Host :=
  {| host_files := fun _ => Some sample_file;
     host_malloc := fun _ => true;
     host_malloca := fun _ => true;
     host_uninitialized := 0;
     host_endianness := LittleEndian |}.

(** A host whose heap is exhausted: [malloc] fails, and [_malloca] serves
    only the requests small enough for the stack (1024 bytes at most). *)
Definition exhausted_host : Host :=
  {| host_files := fun _ => Some sample_file;
     host_malloc := fun _ => false;
     host_malloca := fun size => size <=? 1024;
     host_uninitialized := 0;
     host_endianness := LittleEndian |}.

(** The same available names in another order. *)
Definition shuffled_driver : Driver :=
  {| drv_result := fun _ _ => VK_SUCCESS;
     drv_handle := fun _ _ => 1;
     drv_layers := rev (drv_layers (willing_driver []));
     drv_extensions := rev (drv_extensions (willing_driver []));
     drv_physical_devices := fun _ => [];
     drv_queue_families := fun _ => [] |}.

(** A driver that reports no physical device; every call succeeds. *)
Definition driver_without_devices : Driver :=
  {| drv_result := fun _ _ => VK_SUCCESS;
     drv_handle := fun t _ => Z.of_nat (List.length t) + 1;
     drv_layers := [ "VK_LAYER_KHRONOS_validation" ];
     drv_extensions := [ "VK_EXT_debug_report"; "VK_EXT_debug_utils" ];
     drv_physical_devices := fun _ => [];
     drv_queue_families := fun _ => [] |}.

(** A host on which no file can be opened. *)
Definition host_without_files : Host :=
  {| host_files := fun _ => None;
     host_malloc := fun _ => true;
     host_malloca := fun _ => true;
     host_uninitialized := 0;
     host_endianness := LittleEndian |}.

(** A host that has the GLSL binary only. *)
Definition host_with_one_file : Host :=
  {| host_files := fun filename =>
       if String.eqb filename "GLSLComputeShader.comp.spv"
       then Some sample_file else None;
     host_malloc := fun _ => true;
     host_malloca := fun _ => true;
     host_uninitialized := 0;
     host_endianness := LittleEndian |}.

(** A loader that resolves none of the debug entry points; every other
    call succeeds. *)
Definition loader_without_entry_points : Driver :=
  {| drv_result := fun _ _ => VK_SUCCESS;
     drv_handle := fun t c =>
       match c with
       | vkGetInstanceProcAddr _ _ => nullptr
       | _ => Z.of_nat (List.length t) + 1
       end;
     drv_layers := [ "VK_LAYER_KHRONOS_validation" ];
     drv_extensions := [ "VK_EXT_debug_report"; "VK_EXT_debug_utils" ];
     drv_physical_devices := fun _ => [ 4096 ];
     drv_queue_families := fun _ => [ family 2 ] |}.

(** A loader that resolves an entry point of an instance only for an
    instance that exists: for a null instance it returns null. *)
Definition strict_loader : Driver :=
  {| drv_result := fun _ _ => VK_SUCCESS;
     drv_handle := fun t c =>
       match c with
       | vkGetInstanceProcAddr instance _ =>
           if instance =? nullptr then nullptr else 1001
       | _ => Z.of_nat (List.length t) + 1
       end;
     drv_layers := [ "VK_LAYER_KHRONOS_validation" ];
     drv_extensions := [ "VK_EXT_debug_report"; "VK_EXT_debug_utils" ];
     drv_physical_devices := fun _ => [ 4096 ];
     drv_queue_families := fun _ => [ family 2 ] |}.

(** A loader that resolves the messenger entry points only. *)
Definition loader_without_report_entry_points : Driver :=
  {| drv_result := fun _ _ => VK_SUCCESS;
     drv_handle := fun t c =>
       match c with
       | vkGetInstanceProcAddr _ name =>
           if String.eqb name "vkCreateDebugUtilsMessengerEXT" then 1001
           else if String.eqb name "vkDestroyDebugUtilsMessengerEXT" then 1003
           else nullptr
       | _ => Z.of_nat (List.length t) + 1
       end;
     drv_layers := [ "VK_LAYER_KHRONOS_validation" ];
     drv_extensions := [ "VK_EXT_debug_report"; "VK_EXT_debug_utils" ];
     drv_physical_devices := fun _ => [ 4096 ];
     drv_queue_families := fun _ => [ family 2 ] |}.

(** A loader that resolves the two creation entry points and neither of the
    destroy entry points. *)
Definition loader_without_destroy : Driver :=
  {| drv_result := fun _ _ => VK_SUCCESS;
     drv_handle := fun t c =>
       match c with
       | vkGetInstanceProcAddr _ name =>
           if String.eqb name "vkCreateDebugUtilsMessengerEXT" then 1001
           else if String.eqb name "vkCreateDebugReportCallbackEXT" then 1002
           else nullptr
       | _ => Z.of_nat (List.length t) + 1
       end;
     drv_layers := [ "VK_LAYER_KHRONOS_validation" ];
     drv_extensions := [ "VK_EXT_debug_report"; "VK_EXT_debug_utils" ];
     drv_physical_devices := fun _ => [ 4096 ];
     drv_queue_families := fun _ => [ family 2 ] |}.

(** A driver that rejects every shader binary, here with
    [VK_ERROR_INVALID_SHADER_NV]; every other call succeeds. *)
Definition VK_ERROR_INVALID_SHADER_NV : VkResult := -1000012000.

Definition driver_rejecting_shaders : Driver :=
  {| drv_result := fun _ c =>
       match c with
       | vkCreateShaderModule _ _ _ => VK_ERROR_INVALID_SHADER_NV
       | _ => VK_SUCCESS
       end;
     drv_handle := fun t _ => Z.of_nat (List.length t) + 1;
     drv_layers := [ "VK_LAYER_KHRONOS_validation" ];
     drv_extensions := [ "VK_EXT_debug_report"; "VK_EXT_debug_utils" ];
     drv_physical_devices := fun _ => [ 4096 ];
     drv_queue_families := fun _ => [ family 2 ] |}.

(** A driver on which recording cannot be ended, here with
    [VK_ERROR_OUT_OF_DEVICE_MEMORY]; every other call succeeds. *)
Definition driver_failing_end : Driver :=
  {| drv_result := fun _ c =>
       match c with
       | vkEndCommandBuffer _ => VK_ERROR_OUT_OF_DEVICE_MEMORY
       | _ => VK_SUCCESS
       end;
     drv_handle := fun t _ => Z.of_nat (List.length t) + 1;
     drv_layers := [ "VK_LAYER_KHRONOS_validation" ];
     drv_extensions := [ "VK_EXT_debug_report"; "VK_EXT_debug_utils" ];
     drv_physical_devices := fun _ => [ 4096 ];
     drv_queue_families := fun _ => [ family 2 ] |}.

(** * Properties *)

(** ** Queue-family selection *)

Lemma land_bit_eqb_0 (k x : Z) :
  0 <= k -> (Z.land (2 ^ k) x =? 0) = negb (Z.testbit x k).
Proof.
  intros Hk. destruct (Z.testbit x k) eqn:Hb; simpl.
  - apply Z.eqb_neq. intros H0.
    assert (Hk' : Z.testbit (Z.land (2 ^ k) x) k = true).
    { rewrite Z.land_spec, Z.pow2_bits_true, Hb; auto. }
    rewrite H0, Z.bits_0 in Hk'. discriminate.
  - apply Z.eqb_eq. apply Z.bits_inj'. intros n Hn.
    rewrite Z.land_spec, Z.bits_0, Z.pow2_bits_eqb by assumption.
    destruct (Z.eqb_spec k n) as [->|]; [rewrite Hb|]; reflexivity.
Qed.

Lemma maskedFlags_low_bits (f k : Z) :
  k = 0 \/ k = 1 -> Z.testbit (maskedFlags f) k = Z.testbit f k.
Proof.
  unfold maskedFlags. intros [-> | ->]; rewrite Z.land_spec; reflexivity.
Qed.

Lemma compute_only_spec (p : VkQueueFamilyProperties) :
  compute_only (maskedFlags (queueFlags p)) = true <-> tier1 p.
Proof.
  unfold compute_only, tier1, exposes_compute, exposes_graphics.
  change VK_QUEUE_GRAPHICS_BIT with (2 ^ 0).
  change VK_QUEUE_COMPUTE_BIT with (2 ^ 1).
  rewrite !land_bit_eqb_0 by lia.
  rewrite !maskedFlags_low_bits by auto.
  destruct (Z.testbit (queueFlags p) 0), (Z.testbit (queueFlags p) 1);
    simpl; intuition congruence.
Qed.

Lemma any_compute_spec (p : VkQueueFamilyProperties) :
  any_compute (maskedFlags (queueFlags p)) = true <-> tier2 p.
Proof.
  unfold any_compute, tier2, exposes_compute.
  change VK_QUEUE_COMPUTE_BIT with (2 ^ 1).
  rewrite land_bit_eqb_0 by lia.
  rewrite maskedFlags_low_bits by auto.
  destruct (Z.testbit (queueFlags p) 1); simpl; intuition congruence.
Qed.

Section Scan.

Variable test : Z -> bool.
Variable P : VkQueueFamilyProperties -> Prop.
Hypothesis test_spec : forall p, test (maskedFlags (queueFlags p)) = true <-> P p.

Lemma scan_families_none families i :
  scan_families test i families = None -> no_family P families.
Proof.
  revert i. induction families as [|p rest IH]; intros i H q Hq.
  - destruct Hq.
  - simpl in H. destruct (test (maskedFlags (queueFlags p))) eqn:Hp; [discriminate|].
    destruct Hq as [<- | Hq].
    + rewrite <- test_spec. congruence.
    + eapply IH; eauto.
Qed.

Lemma scan_families_some families i k :
  0 <= i ->
  scan_families test i families = Some k ->
  i <= k /\
  (exists p, nth_error families (Z.to_nat (k - i)) = Some p /\ P p) /\
  (forall j q, (j < Z.to_nat (k - i))%nat -> nth_error families j = Some q -> ~ P q).
Proof.
  revert i. induction families as [|p rest IH]; intros i Hi H; simpl in H.
  - discriminate.
  - destruct (test (maskedFlags (queueFlags p))) eqn:Hp.
    + injection H as <-. rewrite Z.sub_diag. split; [lia|]. split.
      * exists p. split; [reflexivity|]. now apply test_spec.
      * intros j q Hj. simpl in Hj. lia.
    + apply IH in H; [|lia]. destruct H as (Hle & (q & Hq & HP) & Hmin).
      assert (Hk : Z.to_nat (k - i) = S (Z.to_nat (k - (i + 1)))) by lia.
      rewrite Hk. split; [lia|]. split.
      * exists q. auto.
      * intros [|j] r Hj Hr.
        -- simpl in Hr. injection Hr as <-. rewrite <- test_spec. congruence.
        -- simpl in Hr. eapply Hmin; eauto. lia.
Qed.

Lemma scan_families_first families k :
  scan_families test 0 families = Some k -> first_family P families k.
Proof.
  intros H. apply scan_families_some in H; [|lia].
  rewrite Z.sub_0_r in H. destruct H as (H0 & H1 & H2).
  split; [assumption|]. split; assumption.
Qed.

End Scan.

(** C1, as the code has it.  Queue-family selection first allocates the
    property array on the stack.  When that allocation fails the result is
    VK_ERROR_OUT_OF_DEVICE_MEMORY, whatever the families are, and the index
    is left untouched.  When it succeeds, the result is the index of the
    first family, in enumeration order, that exposes COMPUTE and not GRAPHICS
    (the TRANSFER and SPARSE_BINDING bits play no part); when there is none,
    the index of the first family that exposes COMPUTE; when there is none
    either, the error VK_ERROR_INITIALIZATION_FAILED with the index left
    untouched.  Whenever the selection succeeds the COMPUTE bit of the
    selected family is set. *)
Theorem GetBestComputeQueue_two_tiers (drv : Driver) (host : Host)
    (physicalDevice : Handle) (queueFamilyIndex : Z) (t : Trace) :
  let families := drv_queue_families drv physicalDevice in
  let allocated :=
    host_malloca host
      (sizeof_VkQueueFamilyProperties * Z.of_nat (List.length families)) in
  exists result selected t',
    GetBestComputeQueue drv host physicalDevice queueFamilyIndex t
      = (Ret (result, selected), t') /\
    (allocated = false ->
     result = VK_ERROR_OUT_OF_DEVICE_MEMORY /\ selected = queueFamilyIndex) /\
    (allocated = true ->
     (result = VK_SUCCESS /\ first_family tier1 families selected)
     \/ (result = VK_SUCCESS /\ no_family tier1 families
         /\ first_family tier2 families selected)
     \/ (result = VK_ERROR_INITIALIZATION_FAILED /\ selected = queueFamilyIndex
         /\ no_family tier1 families /\ no_family tier2 families)) /\
    (result = VK_SUCCESS ->
     exists p, nth_error families (Z.to_nat selected) = Some p /\ exposes_compute p).
Proof.
  intros families allocated.
  unfold GetBestComputeQueue, bind, emit, ret. fold families. fold allocated.
  destruct allocated; cbn [negb].
  - destruct (scan_families compute_only 0 families) as [i|] eqn:H1.
    + apply (scan_families_first _ _ compute_only_spec) in H1.
      exists VK_SUCCESS, i. eexists. split; [reflexivity|].
      split; [discriminate|]. split; [auto|].
      intros _. destruct H1 as (_ & (p & Hp & Hc & _) & _). eauto.
    + apply (scan_families_none _ _ compute_only_spec) in H1.
      destruct (scan_families any_compute 0 families) as [i|] eqn:H2.
      * apply (scan_families_first _ _ any_compute_spec) in H2.
        exists VK_SUCCESS, i. eexists. split; [reflexivity|].
        split; [discriminate|]. split; [auto|].
        intros _. destruct H2 as (_ & (p & Hp & Hc) & _). eauto.
      * apply (scan_families_none _ _ any_compute_spec) in H2.
        exists VK_ERROR_INITIALIZATION_FAILED, queueFamilyIndex. eexists.
        split; [reflexivity|]. split; [discriminate|].
        split; [auto 6 | discriminate].
  - exists VK_ERROR_OUT_OF_DEVICE_MEMORY, queueFamilyIndex. eexists.
    split; [reflexivity|]. split; [auto|]. split; discriminate.
Qed.

(** A device with 64 pure compute families on a host whose heap is
    exhausted: family 0 is a Tier-1 family, and the selection returns
    VK_ERROR_OUT_OF_DEVICE_MEMORY instead of its index. *)
Lemma GetBestComputeQueue_allocation_failure :
  first_family tier1 (repeat (family 2) 64) 0 /\
  GetBestComputeQueue (willing_driver (repeat (family 2) 64)) exhausted_host 4096 7 []
  = (Ret (VK_ERROR_OUT_OF_DEVICE_MEMORY, 7),
     [ vkGetPhysicalDeviceQueueFamilyProperties 4096 true ]).
Proof.
  split; [|reflexivity].
  split; [lia|]. split.
  - exists (family 2). repeat split. discriminate.
  - intros j q Hj. simpl in Hj. lia.
Qed.

(** On the same host a device with few families is served from the stack. *)
Example select_on_exhausted_host :
  fst (GetBestComputeQueue (willing_driver [ family 3; family 2 ])
         exhausted_host 4096 7 []) = Ret (VK_SUCCESS, 1).
Proof. reflexivity. Qed.

(** The three selections listed among the testable properties. *)
Example select_pure_compute :
  fst (GetBestComputeQueue (willing_driver [ family 1; family 2; family 3 ])
         sample_host 4096 0 []) = Ret (VK_SUCCESS, 1).
Proof. reflexivity. Qed.

Example select_combined_queue :
  fst (GetBestComputeQueue (willing_driver [ family 1; family 3 ])
         sample_host 4096 0 []) = Ret (VK_SUCCESS, 1).
Proof. reflexivity. Qed.

Example select_none :
  fst (GetBestComputeQueue (willing_driver [ family 1; family 4 ])
         sample_host 4096 7 []) = Ret (VK_ERROR_INITIALIZATION_FAILED, 7).
Proof. reflexivity. Qed.

(** A pure-compute family behind a combined one is still preferred, and the
    TRANSFER and SPARSE_BINDING bits do not disqualify it. *)
Example select_skips_combined :
  fst (GetBestComputeQueue (willing_driver [ family 3; family 12; family 14 ])
         sample_host 4096 0 []) = Ret (VK_SUCCESS, 2).
Proof. reflexivity. Qed.

(** ** The diagnostic sinks *)

Lemma starts_with_spec (pattern s : string) :
  starts_with pattern s = true <-> exists after, s = pattern ++ after.
Proof.
  revert s. induction pattern as [|c pattern IH]; intros s; simpl.
  - split; [intros _; now exists s | reflexivity].
  - destruct s as [|d s].
    + split; [discriminate | intros [after H]; discriminate].
    + destruct (Ascii.eqb_spec c d) as [<- | Hcd].
      * rewrite IH. split; intros [after H]; exists after; congruence.
      * split; [discriminate | intros [after H]; congruence].
Qed.

Lemma find_from_some (s pattern : string) (pos n : nat) :
  find_from pos s pattern = Some n -> contains s pattern.
Proof.
  revert pos. induction s as [|c s IH]; intros pos; simpl.
  - destruct (starts_with pattern EmptyString) eqn:Hp; [|discriminate].
    intros _. apply starts_with_spec in Hp as [after H].
    exists EmptyString, after. exact H.
  - destruct (starts_with pattern (String c s)) eqn:Hp.
    + intros _. apply starts_with_spec in Hp as [after H].
      exists EmptyString, after. exact H.
    + intros H. apply IH in H as (before & after & ->).
      exists (String c before), after. reflexivity.
Qed.

Lemma find_from_none (s pattern : string) (pos : nat) :
  find_from pos s pattern = None -> ~ contains s pattern.
Proof.
  revert pos. induction s as [|c s IH]; intros pos; simpl.
  - destruct (starts_with pattern EmptyString) eqn:Hp; [discriminate|].
    intros _ (before & after & H).
    destruct before; [|discriminate]. simpl in H.
    assert (Ht : starts_with pattern EmptyString = true)
      by (apply starts_with_spec; eauto).
    congruence.
  - destruct (starts_with pattern (String c s)) eqn:Hp; [discriminate|].
    intros H (before & after & Hs). destruct before as [|d before].
    + simpl in Hs.
      assert (Ht : starts_with pattern (String c s) = true)
        by (apply starts_with_spec; eauto).
      congruence.
    + simpl in Hs. injection Hs as _ Hs.
      apply (IH _ H). exists before, after. exact Hs.
Qed.

Lemma find_npos_iff (s pattern : string) :
  find s pattern = None <-> ~ contains s pattern.
Proof.
  unfold find. split.
  - apply find_from_none.
  - intros H. destruct (find_from 0 s pattern) eqn:E; [|reflexivity].
    apply find_from_some in E. contradiction.
Qed.

(** C2.  With the filter on, the severity-channel sink writes a log line
    exactly when the type flags are equal to the validation bit; every other
    value (general, performance, any combination) writes nothing; and the
    sink returns VK_FALSE in all cases. *)
Theorem VulkanDebugCallback_filtered (messageSeverity messageType : Z)
    (pMessage : string) :
  let (written, handled) :=
    VulkanDebugCallback true messageSeverity messageType pMessage in
  (logged written <-> messageType = VK_DEBUG_UTILS_MESSAGE_TYPE_VALIDATION_BIT_EXT) /\
  (messageType = VK_DEBUG_UTILS_MESSAGE_TYPE_VALIDATION_BIT_EXT ->
   written = "[VULKAN DEBUG] : " ++ severity_label messageSeverity
               ++ " : [FLAGS]: 2" ++ tab ++ pMessage ++ endl) /\
  (messageType <> VK_DEBUG_UTILS_MESSAGE_TYPE_VALIDATION_BIT_EXT ->
   written = EmptyString) /\
  handled = VK_FALSE.
Proof.
  unfold VulkanDebugCallback, logged.
  destruct (Z.eqb_spec VK_DEBUG_UTILS_MESSAGE_TYPE_VALIDATION_BIT_EXT messageType)
    as [<- | Hne]; cbn [andb negb].
  - split; [split; [reflexivity | discriminate]|].
    split; [reflexivity|]. split; [congruence | reflexivity].
  - split; [split; congruence|].
    split; [congruence|]. split; reflexivity.
Qed.

Example VulkanDebugCallback_drops_general :
  VulkanDebugCallback true VK_DEBUG_UTILS_MESSAGE_SEVERITY_INFO_BIT_EXT
    VK_DEBUG_UTILS_MESSAGE_TYPE_GENERAL_BIT_EXT "hello" = (EmptyString, VK_FALSE).
Proof. reflexivity. Qed.

Example VulkanDebugCallback_drops_performance :
  VulkanDebugCallback true VK_DEBUG_UTILS_MESSAGE_SEVERITY_INFO_BIT_EXT
    VK_DEBUG_UTILS_MESSAGE_TYPE_PERFORMANCE_BIT_EXT "hello" = (EmptyString, VK_FALSE).
Proof. reflexivity. Qed.

Example VulkanDebugCallback_drops_combination :
  VulkanDebugCallback true VK_DEBUG_UTILS_MESSAGE_SEVERITY_INFO_BIT_EXT
    (Z.lor VK_DEBUG_UTILS_MESSAGE_TYPE_GENERAL_BIT_EXT
           VK_DEBUG_UTILS_MESSAGE_TYPE_VALIDATION_BIT_EXT) "hello"
  = (EmptyString, VK_FALSE).
Proof. reflexivity. Qed.

Example VulkanDebugCallback_logs_validation :
  VulkanDebugCallback true VK_DEBUG_UTILS_MESSAGE_SEVERITY_INFO_BIT_EXT
    VK_DEBUG_UTILS_MESSAGE_TYPE_VALIDATION_BIT_EXT "hello"
  = ("[VULKAN DEBUG] : [INFO]    : [FLAGS]: 2" ++ tab ++ "hello" ++ endl, VK_FALSE).
Proof. reflexivity. Qed.

(** With the filter off every message is logged. *)
Lemma VulkanDebugCallback_show_all (messageSeverity messageType : Z)
    (pMessage : string) :
  logged (fst (VulkanDebugCallback false messageSeverity messageType pMessage)) /\
  snd (VulkanDebugCallback false messageSeverity messageType pMessage) = VK_FALSE.
Proof. split; [discriminate | reflexivity]. Qed.

(** C3.  With the filter on, the flag-channel sink writes a log line exactly
    when the flags are equal to the informational bit and the text contains
    the substring Validation; when either condition fails it writes nothing;
    and the sink returns VK_FALSE in all cases. *)
Theorem VulkanReportCallback_filtered
    (flags objectType object location messageCode : Z)
    (pLayerPrefix pMessage : string) :
  let (written, handled) :=
    VulkanReportCallback true flags objectType object location messageCode
      pLayerPrefix pMessage in
  (logged written <->
   flags = VK_DEBUG_REPORT_INFORMATION_BIT_EXT /\ contains pMessage "Validation") /\
  (flags = VK_DEBUG_REPORT_INFORMATION_BIT_EXT -> contains pMessage "Validation" ->
   written = "[VULKAN REPORT]: [FLAGS]: 1 [LAYER]: " ++ pLayerPrefix
               ++ " [MESSAGE]: " ++ pMessage ++ endl) /\
  (flags <> VK_DEBUG_REPORT_INFORMATION_BIT_EXT \/ ~ contains pMessage "Validation" ->
   written = EmptyString) /\
  handled = VK_FALSE.
Proof.
  unfold VulkanReportCallback, logged.
  destruct (Z.eqb_spec VK_DEBUG_REPORT_INFORMATION_BIT_EXT flags) as [<- | Hne];
    cbn [andb negb].
  - destruct (find pMessage "Validation") as [n|] eqn:Hfind.
    + assert (Hc : contains pMessage "Validation")
        by (unfold find in Hfind; eapply find_from_some; eauto).
      split; [split; [auto | discriminate]|].
      split; [reflexivity|]. split; [tauto | reflexivity].
    + apply find_npos_iff in Hfind.
      split; [split; [congruence | tauto]|].
      split; [tauto|]. split; reflexivity.
  - split; [split; [congruence | intros [H _]; congruence]|].
    split; [congruence|]. split; reflexivity.
Qed.

Example VulkanReportCallback_logs :
  VulkanReportCallback true VK_DEBUG_REPORT_INFORMATION_BIT_EXT 0 0 0 0
    "Validation" "UNASSIGNED-DEBUG-PRINTF ] Validation Information: x = 1"
  = ("[VULKAN REPORT]: [FLAGS]: 1 [LAYER]: Validation [MESSAGE]: "
       ++ "UNASSIGNED-DEBUG-PRINTF ] Validation Information: x = 1" ++ endl,
     VK_FALSE).
Proof. reflexivity. Qed.

Example VulkanReportCallback_drops_other_text :
  VulkanReportCallback true VK_DEBUG_REPORT_INFORMATION_BIT_EXT 0 0 0 0
    "Loader" "validation layer loaded" = (EmptyString, VK_FALSE).
Proof. reflexivity. Qed.

Example VulkanReportCallback_drops_other_flags :
  VulkanReportCallback true
    (Z.lor VK_DEBUG_REPORT_INFORMATION_BIT_EXT VK_DEBUG_REPORT_DEBUG_BIT_EXT) 0 0 0 0
    "Validation" "Validation Information" = (EmptyString, VK_FALSE).
Proof. reflexivity. Qed.

(** ** Capability verification *)

Lemma char_value_inj (c d : ascii) : char_value c = char_value d -> c = d.
Proof.
  unfold char_value. intros H. apply N2Z.inj in H.
  rewrite <- (ascii_N_embedding c), <- (ascii_N_embedding d). now rewrite H.
Qed.

Lemma strcmp_refl (s : string) : strcmp s s = 0.
Proof.
  induction s as [|c s IH]; simpl; [reflexivity|].
  rewrite Z.eqb_refl. destruct (char_value c =? 0); auto.
Qed.

Lemma strcmp_zero_eq (s1 s2 : string) :
  c_string s1 = true -> c_string s2 = true -> strcmp s1 s2 = 0 -> s1 = s2.
Proof.
  revert s2. induction s1 as [|c1 s1 IH]; intros [|c2 s2]; simpl; intros H1 H2 H.
  - reflexivity.
  - apply andb_prop in H2 as [H2 _]. apply negb_true_iff, Z.eqb_neq in H2. lia.
  - apply andb_prop in H1 as [H1 _]. apply negb_true_iff, Z.eqb_neq in H1. lia.
  - apply andb_prop in H1 as [Hc1 H1]. apply andb_prop in H2 as [_ H2].
    destruct (Z.eqb_spec (char_value c1) (char_value c2)) as [Heq | Hne]; [|lia].
    apply negb_true_iff in Hc1. rewrite Hc1 in H.
    apply char_value_inj in Heq. f_equal; auto.
Qed.

Lemma layerFound_in_spec (name : string) (available : list string) :
  c_string name = true -> c_strings available ->
  (layerFound_in name available = true <-> In name available).
Proof.
  intros Hn Ha. induction Ha as [|a available Hc Ha IH]; simpl.
  - split; [discriminate | tauto].
  - destruct (Z.eqb_spec (strcmp name a) 0) as [H0 | Hne].
    + apply strcmp_zero_eq in H0; auto. subst. tauto.
    + rewrite IH. split; [tauto|]. intros [<- | H]; [|assumption].
      rewrite strcmp_refl in Hne. contradiction.
Qed.

Lemma all_required_found_spec (required available : list string) :
  c_strings required -> c_strings available ->
  (all_required_found required available = true <-> incl required available).
Proof.
  intros Hr Ha. induction Hr as [|name required Hc Hr IH]; simpl.
  - split; [intros _ n [] | reflexivity].
  - destruct (layerFound_in name available) eqn:Hf; simpl.
    + apply layerFound_in_spec in Hf; auto. rewrite IH. split.
      * intros H n [<- | Hn]; auto.
      * intros H n Hn. apply H. now right.
    + split; [discriminate|]. intros H.
      assert (Hin : In name available) by (apply H; now left).
      apply layerFound_in_spec in Hin; auto. congruence.
Qed.

Lemma VerifyInstanceLayers_verdict (drv : Driver) (required : list string) (t : Trace) :
  verdict (VerifyInstanceLayers drv required t)
  = Some (all_required_found required (drv_layers drv)).
Proof.
  unfold VerifyInstanceLayers. destruct required; reflexivity.
Qed.

Lemma VerifyInstanceExtensions_verdict (drv : Driver) (required : list string) (t : Trace) :
  verdict (VerifyInstanceExtensions drv required t)
  = Some (all_required_found required (drv_extensions drv)).
Proof.
  unfold VerifyInstanceExtensions. destruct required; reflexivity.
Qed.

Lemma all_required_found_permutation (required required' available available' : list string) :
  c_strings required -> c_strings available ->
  Permutation required required' -> Permutation available available' ->
  all_required_found required' available' = all_required_found required available.
Proof.
  intros Hr Ha Pr Pa.
  assert (Hr' : c_strings required') by (eapply Permutation_Forall; eauto).
  assert (Ha' : c_strings available') by (eapply Permutation_Forall; eauto).
  apply eq_true_iff_eq. rewrite !all_required_found_spec by assumption.
  split; intros H n Hn.
  - eapply Permutation_in; [symmetry; exact Pa|]. apply H.
    eapply Permutation_in; [exact Pr | exact Hn].
  - eapply Permutation_in; [exact Pa|]. apply H.
    eapply Permutation_in; [symmetry; exact Pr | exact Hn].
Qed.

(** C4.  For every list of requested layer names and every list of
    requested extension names, layer verification and extension verification
    answer true exactly when every requested name is equal, character for
    character, to one of the enumerated available names; the answer is the
    same when a requested list or an available list is reordered; and an
    empty request is answered true. *)
Theorem capability_verification (drv drv' : Driver)
    (layers layers' extensions extensions' : list string) (t : Trace) :
  c_strings layers ->
  c_strings extensions ->
  c_strings (drv_layers drv) ->
  c_strings (drv_extensions drv) ->
  Permutation layers layers' ->
  Permutation extensions extensions' ->
  Permutation (drv_layers drv) (drv_layers drv') ->
  Permutation (drv_extensions drv) (drv_extensions drv') ->
  exists layersPresent extensionsPresent,
    verdict (VerifyInstanceLayers drv layers t) = Some layersPresent /\
    verdict (VerifyInstanceExtensions drv extensions t) = Some extensionsPresent /\
    (layersPresent = true <-> incl layers (drv_layers drv)) /\
    (extensionsPresent = true <-> incl extensions (drv_extensions drv)) /\
    verdict (VerifyInstanceLayers drv' layers' t) = Some layersPresent /\
    verdict (VerifyInstanceExtensions drv' extensions' t) = Some extensionsPresent /\
    (layers = [] -> layersPresent = true) /\
    (extensions = [] -> extensionsPresent = true).
Proof.
  intros Hl He Hal Hae Pl Pe Pal Pae.
  exists (all_required_found layers (drv_layers drv)),
         (all_required_found extensions (drv_extensions drv)).
  rewrite !VerifyInstanceLayers_verdict, !VerifyInstanceExtensions_verdict.
  split; [reflexivity|]. split; [reflexivity|].
  split; [now apply all_required_found_spec|].
  split; [now apply all_required_found_spec|].
  split; [f_equal; now apply all_required_found_permutation|].
  split; [f_equal; now apply all_required_found_permutation|].
  split; intros ->; reflexivity.
Qed.

Lemma capability_verification_witness :
  exists layersPresent extensionsPresent,
    verdict (VerifyInstanceLayers (willing_driver []) requiredInstanceLayers [])
      = Some layersPresent /\
    verdict (VerifyInstanceExtensions (willing_driver []) requiredInstanceExtensions [])
      = Some extensionsPresent /\
    (layersPresent = true <->
     incl requiredInstanceLayers (drv_layers (willing_driver []))) /\
    (extensionsPresent = true <->
     incl requiredInstanceExtensions (drv_extensions (willing_driver []))) /\
    verdict (VerifyInstanceLayers shuffled_driver (rev requiredInstanceLayers) [])
      = Some layersPresent /\
    verdict (VerifyInstanceExtensions shuffled_driver (rev requiredInstanceExtensions) [])
      = Some extensionsPresent /\
    (requiredInstanceLayers = [] -> layersPresent = true) /\
    (requiredInstanceExtensions = [] -> extensionsPresent = true).
Proof.
  apply (capability_verification (willing_driver []) shuffled_driver
           requiredInstanceLayers (rev requiredInstanceLayers)
           requiredInstanceExtensions (rev requiredInstanceExtensions) []).
  - repeat constructor.
  - repeat constructor.
  - repeat constructor.
  - repeat constructor.
  - apply Permutation_rev.
  - apply Permutation_rev.
  - apply Permutation_rev.
  - apply Permutation_rev.
Defined.

(** The match is case sensitive, and a prefix is not a match. *)
Example verification_is_case_sensitive :
  all_required_found [ "vk_layer_khronos_validation" ]
    [ "VK_LAYER_KHRONOS_validation" ] = false.
Proof. reflexivity. Qed.

Example verification_rejects_prefix :
  all_required_found [ "VK_EXT_debug" ] [ "VK_EXT_debug_utils" ] = false.
Proof. reflexivity. Qed.

Example verification_of_the_source_lists :
  verdict (VerifyInstanceLayers (willing_driver []) requiredInstanceLayers []) = Some true /\
  verdict (VerifyInstanceExtensions (willing_driver []) requiredInstanceExtensions [])
    = Some true.
Proof. split; reflexivity. Qed.

(** ** One pipeline run *)

Section PipelineRun.

Variable drv : Driver.

Lemma bind_call {A} (c : Call) (k : VkResult * Handle -> M A) (t : Trace) :
  bind (call drv c) k t = k (drv_result drv t c, drv_handle drv t c) (t ++ [c])%list.
Proof. reflexivity. Qed.

Lemma bind_emit {A} (c : Call) (k : unit -> M A) (t : Trace) :
  bind (emit c) k t = k tt (t ++ [c])%list.
Proof. reflexivity. Qed.

(** Symbolic execution of one call: its result and its handle get names. *)
Ltac exec_call E r h :=
  rewrite bind_call in E;
  try set (r := drv_result _ _ _) in E; try set (h := drv_handle _ _ _) in E;
  cbv beta iota in E.

Ltac exec_emit E := rewrite bind_emit in E.

(** The run stopped at call number [k] of the script. *)
Ltac stopped_at E r k m l p cp cb qu :=
  unfold ret in E; injection E as <- <-;
  exists r; eexists; exists m, l, p, cp, cb, qu;
  split; [reflexivity|]; cbv zeta; right; split; [assumption|];
  match goal with
  | |- exists _ _ _, ?script = _ /\ _ =>
      exists (firstn k script), (nth k script (vkDestroyDevice 0)),
             (skipn (S k) script)
  end;
  cbv [pipeline_script firstn nth skipn];
  split; [reflexivity|];
  split; [rewrite <- ?app_assoc; reflexivity|];
  split; [subst r; rewrite <- ?app_assoc, ?app_nil_r; reflexivity|];
  split; [reflexivity|];
  cbn [checks_passed returns_result]; repeat split; intros;
    first [ assumption | discriminate ].

Lemma RunComputeShader_runs (device : Handle) (queueFamilyIndex : Z)
    (shaderCode : list Z) (t : Trace) :
  exists result t' shaderModule layout pipeline commandPool commandBuffer queue,
    RunComputeShader drv device queueFamilyIndex shaderCode t = (Ret result, t') /\
    let script :=
      pipeline_script device queueFamilyIndex shaderCode
        shaderModule layout pipeline commandPool commandBuffer queue in
    ((result = VK_SUCCESS /\
      t' = (t ++ script
              ++ pipeline_teardown device shaderModule layout pipeline
                   commandPool commandBuffer)%list /\
      checks_passed drv t
        (script ++ pipeline_teardown device shaderModule layout pipeline
                     commandPool commandBuffer))
     \/ (result <> VK_SUCCESS /\
         exists before c after,
           script = (before ++ c :: after)%list /\
           t' = (t ++ before ++ [c])%list /\
           result = drv_result drv (t ++ before)%list c /\
           returns_result c = true /\
           checks_passed drv t before)).
Proof.
  destruct (RunComputeShader drv device queueFamilyIndex shaderCode t) as [out t'] eqn:E.
  unfold RunComputeShader in E.
  exec_call E r1 m.
  destruct (Z.eqb_spec r1 VK_SUCCESS) as [H1|H1]; cbn [negb] in E;
    [|stopped_at E r1 0%nat 0 0 0 0 0 0].
  exec_call E r2 l.
  destruct (Z.eqb_spec r2 VK_SUCCESS) as [H2|H2]; cbn [negb] in E;
    [|stopped_at E r2 1%nat m 0 0 0 0 0].
  exec_call E r3 p.
  destruct (Z.eqb_spec r3 VK_SUCCESS) as [H3|H3]; cbn [negb] in E;
    [|stopped_at E r3 2%nat m l 0 0 0 0].
  exec_call E r4 cp.
  destruct (Z.eqb_spec r4 VK_SUCCESS) as [H4|H4]; cbn [negb] in E;
    [|stopped_at E r4 3%nat m l p 0 0 0].
  exec_call E r5 cb.
  destruct (Z.eqb_spec r5 VK_SUCCESS) as [H5|H5]; cbn [negb] in E;
    [|stopped_at E r5 4%nat m l p cp 0 0].
  exec_call E r6 h6.
  destruct (Z.eqb_spec r6 VK_SUCCESS) as [H6|H6]; cbn [negb] in E;
    [|stopped_at E r6 5%nat m l p cp cb 0].
  exec_emit E. exec_emit E.
  exec_call E r7 h7.
  destruct (Z.eqb_spec r7 VK_SUCCESS) as [H7|H7]; cbn [negb] in E;
    [|stopped_at E r7 8%nat m l p cp cb 0].
  exec_call E r8 qu.
  exec_call E r9 h9.
  destruct (Z.eqb_spec r9 VK_SUCCESS) as [H9|H9]; cbn [negb] in E;
    [|stopped_at E r9 10%nat m l p cp cb qu].
  exec_call E r10 h10.
  destruct (Z.eqb_spec r10 VK_SUCCESS) as [H10|H10]; cbn [negb] in E;
    [|stopped_at E r10 11%nat m l p cp cb qu].
  do 5 exec_emit E.
  unfold ret in E. injection E as <- <-.
  exists r10. eexists. exists m, l, p, cp, cb, qu.
  split; [reflexivity|]. cbv zeta. left. split; [exact H10|].
  cbv [pipeline_script pipeline_teardown]. split.
  - rewrite <- ?app_assoc. reflexivity.
  - cbn [app checks_passed returns_result]. repeat split; intros;
      first [ assumption | discriminate ].
Qed.

End PipelineRun.

(** Where a list splits around one of its elements. *)
Lemma split_at {A} (d : A) (l before after : list A) (c : A) :
  l = (before ++ c :: after)%list ->
  (List.length before < List.length l)%nat /\
  (before ++ [c])%list = firstn (S (List.length before)) l /\
  c = nth (List.length before) l d.
Proof.
  intros ->. split; [|split].
  - rewrite length_app. simpl. lia.
  - rewrite firstn_app, firstn_all2 by lia.
    replace (S (List.length before) - List.length before)%nat with 1%nat by lia.
    reflexivity.
  - now rewrite nth_middle.
Qed.

(** Case analysis on the call at which a run stopped: [H] says that the
    script splits around the call [c], whose result is checked. *)
Ltac each_index k tac :=
  first [ exfalso; lia
        | destruct k as [|k]; [ tac | each_index k tac ] ].

Ltac stopped_cases H Hc :=
  match type of H with
  | ?script = (?before ++ ?c :: _)%list =>
      let Hk := fresh "Hk" in
      let Hpre := fresh "Hpre" in
      let Hnth := fresh "Hnth" in
      let k := fresh "k" in
      destruct (split_at (vkDestroyDevice 0) _ _ _ _ H) as (Hk & Hpre & Hnth);
      remember (List.length before) as k;
      cbv [pipeline_script List.length] in Hk;
      each_index k
        ltac:(cbv [pipeline_script nth] in Hnth; subst c;
              cbv [pipeline_script firstn] in Hpre;
              try discriminate Hc)
  end.

(** No call of the script releases anything. *)
Lemma pipeline_script_releases_nothing (device : Handle) (q : Z) (code : list Z)
    (m l p cp cb qu : Handle) (before after : list Call) (c : Call) :
  pipeline_script device q code m l p cp cb qu = (before ++ c :: after)%list ->
  filter is_pipeline_teardown (before ++ [c]) = [].
Proof.
  intros H.
  assert (Hall : filter is_pipeline_teardown (pipeline_script device q code m l p cp cb qu) = [])
    by reflexivity.
  rewrite H in Hall.
  rewrite filter_app in Hall. apply app_eq_nil in Hall as [Hb Hc].
  rewrite filter_app, Hb. simpl in *.
  destruct (is_pipeline_teardown c); [discriminate | reflexivity].
Qed.

(** The last call of a list of calls that all passed their checks. *)
Lemma checks_passed_last (drv : Driver) (t : Trace) (before : list Call) (c : Call) :
  checks_passed drv t (before ++ [c]) ->
  returns_result c = true ->
  drv_result drv (t ++ before)%list c = VK_SUCCESS.
Proof.
  revert t. induction before as [|b before IH]; intros t H Hc; simpl in H.
  - rewrite app_nil_r. tauto.
  - destruct H as [_ H]. specialize (IH _ H Hc).
    rewrite <- app_assoc in IH. exact IH.
Qed.



(** C7.  The commands a run records.  A run whose checked calls all
    succeed records one pipeline bind immediately followed by one dispatch
    with group counts 512, 1, 1, and nothing else.  In general the recorded
    commands are either these two or none; none only when the run stopped at
    one of the six calls before recording, for which the driver returned the
    code the run returns.  The counts are the same for every binary. *)
Theorem RunComputeShader_dispatch (drv : Driver) (device : Handle)
    (queueFamilyIndex : Z) (shaderCode : list Z) (t : Trace) :
  exists result calls,
    RunComputeShader drv device queueFamilyIndex shaderCode t
      = (Ret result, (t ++ calls)%list) /\
    (filter is_recorded_command calls = []
     \/ exists commandBuffer pipeline before after,
          calls = (before ++ vkCmdBindPipeline commandBuffer pipeline
                     :: vkCmdDispatch commandBuffer 512 1 1 :: after)%list /\
          filter is_recorded_command before = [] /\
          filter is_recorded_command after = []) /\
    (result = VK_SUCCESS -> filter is_recorded_command calls <> []) /\
    (checks_passed drv t calls ->
     result = VK_SUCCESS /\
     exists commandBuffer pipeline,
       filter is_recorded_command calls
       = [ vkCmdBindPipeline commandBuffer pipeline;
           vkCmdDispatch commandBuffer 512 1 1 ]) /\
    (filter is_recorded_command calls = [] ->
     exists before c,
       calls = (before ++ [c])%list /\
       (List.length before < 6)%nat /\
       returns_result c = true /\
       drv_result drv (t ++ before)%list c = result /\
       result <> VK_SUCCESS) /\
    (forall commandBuffer x y z,
       In (vkCmdDispatch commandBuffer x y z) calls -> x = 512 /\ y = 1 /\ z = 1) /\
    wrap32 shader_local_size_x = 512.
Proof.
  destruct (RunComputeShader_runs drv device queueFamilyIndex shaderCode t)
    as (result & t' & m & l & p & cp & cb & qu & Hrun & Hshape).
  cbv zeta in Hshape.
  destruct Hshape as [(Hok & -> & _)
                     | (Hbad & before & c & after & Hsplit & -> & Hr & Hc & _)].
  - exists result. eexists. split; [exact Hrun|].
    split; [|split; [|split; [|split; [|split; [|reflexivity]]]]].
    + right. exists cb, p.
      exists (firstn 6 (pipeline_script device queueFamilyIndex shaderCode m l p cp cb qu)).
      eexists. cbv [pipeline_script firstn app]. split; [reflexivity|].
      split; reflexivity.
    + intros _. discriminate.
    + intros _. split; [exact Hok|]. exists cb, p. reflexivity.
    + intros Hnone. discriminate Hnone.
    + intros cb' x y z Hin. cbv [pipeline_script pipeline_teardown app] in Hin.
      simpl in Hin.
      repeat (destruct Hin as [Hin | Hin]; [try discriminate Hin|]);
        [injection Hin as _ <- <- <-; auto | contradiction].
  - exists result. eexists. split; [exact Hrun|].
    split; [|split; [congruence|split; [|split; [|split; [|reflexivity]]]]].
    + stopped_cases Hsplit Hc; rewrite Hpre;
        first [ left; reflexivity
              | right; exists cb, p;
                exists (firstn 6 (pipeline_script device queueFamilyIndex shaderCode
                                    m l p cp cb qu));
                eexists; cbv [pipeline_script firstn app];
                split; [reflexivity|]; split; reflexivity ].
    + intros Hall. pose proof (checks_passed_last _ _ _ _ Hall Hc) as Hlast.
      congruence.
    + intros Hnone. exists before, c.
      split; [reflexivity|]. split; [|auto].
      stopped_cases Hsplit Hc; rewrite Hpre in Hnone;
        first [ discriminate Hnone | lia ].
    + intros cb' x y z Hin.
      stopped_cases Hsplit Hc; rewrite Hpre in Hin; simpl in Hin;
        repeat (destruct Hin as [Hin | Hin]; [try discriminate Hin|]);
        first [ contradiction | injection Hin as _ <- <- <-; auto ].
Qed.

(** Two runs on a buffer of two words: one that succeeds, and one that
    stops when recording cannot be ended, with five resources created and
    none released. *)
Example RunComputeShader_succeeds :
  RunComputeShader (willing_driver []) 14 0 [ 119734787; 65536 ] []
  = (Ret VK_SUCCESS,
     [ vkCreateShaderModule 14 2 [ 119734787; 65536 ];
       vkCreatePipelineLayout 14;
       vkCreateComputePipelines 14 1 2 "main";
       vkCreateCommandPool 14 0;
       vkAllocateCommandBuffers 14 4;
       vkBeginCommandBuffer 5;
       vkCmdBindPipeline 5 3;
       vkCmdDispatch 5 512 1 1;
       vkEndCommandBuffer 5;
       vkGetDeviceQueue 14 0 0;
       vkQueueSubmit 10 5;
       vkQueueWaitIdle 10;
       vkFreeCommandBuffers 14 4 5;
       vkDestroyCommandPool 14 4;
       vkDestroyPipeline 14 3;
       vkDestroyPipelineLayout 14 2;
       vkDestroyShaderModule 14 1 ]).
Proof. reflexivity. Qed.

Example RunComputeShader_stops :
  RunComputeShader driver_failing_end 14 0 [ 119734787; 65536 ] []
  = (Ret VK_ERROR_OUT_OF_DEVICE_MEMORY,
     [ vkCreateShaderModule 14 2 [ 119734787; 65536 ];
       vkCreatePipelineLayout 14;
       vkCreateComputePipelines 14 1 2 "main";
       vkCreateCommandPool 14 0;
       vkAllocateCommandBuffers 14 4;
       vkBeginCommandBuffer 5;
       vkCmdBindPipeline 5 3;
       vkCmdDispatch 5 512 1 1;
       vkEndCommandBuffer 5 ]).
Proof. reflexivity. Qed.

(** ** Reading a program binary *)

Lemma byte_value_range (b : byte) : 0 <= byte_value b < 256.
Proof.
  unfold byte_value. pose proof (Byte.to_N_bounded b). lia.
Qed.

Lemma byte_of_Z_value (z : Z) (b : byte) :
  z mod 256 = byte_value b -> byte_of_Z z = b.
Proof.
  intros H. unfold byte_of_Z. rewrite H. unfold byte_value.
  now rewrite N2Z.id, Byte.of_to_N.
Qed.

Lemma bytes_of_word_of_bytes (e : Endianness) (b0 b1 b2 b3 : byte) :
  bytes_of_word e (word_of_bytes e b0 b1 b2 b3) = [b0; b1; b2; b3].
Proof.
  pose proof (byte_value_range b0). pose proof (byte_value_range b1).
  pose proof (byte_value_range b2). pose proof (byte_value_range b3).
  unfold bytes_of_word, word_of_bytes.
  change (256 ^ 0) with 1. change (256 ^ 1) with 256.
  change (256 ^ 2) with 65536. change (256 ^ 3) with 16777216.
  destruct e; repeat f_equal; apply byte_of_Z_value;
    Z.div_mod_to_equations; lia.
Qed.

Lemma word_of_bytes_range (e : Endianness) (b0 b1 b2 b3 : byte) :
  0 <= word_of_bytes e b0 b1 b2 b3 < 2 ^ 32.
Proof.
  pose proof (byte_value_range b0). pose proof (byte_value_range b1).
  pose proof (byte_value_range b2). pose proof (byte_value_range b3).
  unfold word_of_bytes. destruct e; lia.
Qed.

Lemma storage_bytes_zero (e : Endianness) (n : nat) :
  storage_bytes e (repeat 0 n) = repeat x00 (4 * n).
Proof.
  induction n as [|n IH]; [reflexivity|].
  replace (4 * S n)%nat with (4 + 4 * n)%nat by lia.
  simpl repeat. unfold storage_bytes in *. simpl flat_map. rewrite IH.
  destruct e; reflexivity.
Qed.

Lemma skipn_zero_fill (n : nat) :
  skipn n (repeat x00 (4 * n)) = repeat x00 (3 * n).
Proof.
  replace (4 * n)%nat with (n + 3 * n)%nat by lia.
  rewrite repeat_app, skipn_app, repeat_length, Nat.sub_diag.
  rewrite skipn_all2 by (rewrite repeat_length; lia). reflexivity.
Qed.

Lemma words_of_bytes_storage (e : Endianness) (n : nat) (bs : list byte) :
  List.length bs = (4 * n)%nat ->
  List.length (words_of_bytes e bs) = n /\
  storage_bytes e (words_of_bytes e bs) = bs.
Proof.
  revert bs. induction n as [|n IH]; intros bs Hlen.
  - destruct bs; [split; reflexivity | discriminate].
  - destruct bs as [|b0 [|b1 [|b2 [|b3 rest]]]]; simpl in Hlen; try lia.
    destruct (IH rest) as [Hl Hs]; [lia|].
    cbn [words_of_bytes]. split.
    + simpl. now rewrite Hl.
    + unfold storage_bytes in *. cbn [flat_map].
      rewrite bytes_of_word_of_bytes, Hs. reflexivity.
Qed.

Lemma readFile_opened (host : Host) (filename : string) (contents : list byte)
    (t : Trace) :
  host_files host filename = Some contents ->
  readFile host filename t
  = (Ret (words_of_bytes (host_endianness host)
            (contents ++ repeat x00 (3 * List.length contents))), t).
Proof.
  intros H. unfold readFile. rewrite H.
  now rewrite storage_bytes_zero, skipn_zero_fill.
Qed.

(** The first call of a pipeline run hands the whole buffer to the driver,
    with the element count of the buffer as the code size. *)
Lemma RunComputeShader_first_call (drv : Driver) (device : Handle)
    (queueFamilyIndex : Z) (shaderCode : list Z) (t : Trace) :
  exists rest,
    snd (RunComputeShader drv device queueFamilyIndex shaderCode t)
    = (t ++ vkCreateShaderModule device (Z.of_nat (List.length shaderCode)) shaderCode
         :: rest)%list.
Proof.
  destruct (RunComputeShader_runs drv device queueFamilyIndex shaderCode t)
    as (result & t' & m & l & p & cp & cb & qu & Hrun & Hshape).
  cbv zeta in Hshape. rewrite Hrun. simpl snd.
  destruct Hshape as [(_ & -> & _) | (_ & before & c & after & Hsplit & -> & _ & _ & _)].
  - eexists. reflexivity.
  - destruct before as [|c0 before]; simpl in Hsplit; injection Hsplit as <- _.
    + exists []. reflexivity.
    + eexists. reflexivity.
Qed.

(** C8, as the code has it.  For a file of N bytes that opens, [readFile]
    returns a buffer of N 32-bit words (not N/4): the first N bytes of its
    storage are the bytes of the file and the remaining 3N bytes are zero;
    module creation receives this buffer with a declared code size of N. *)
Theorem readFile_buffer (drv : Driver) (host : Host) (filename : string)
    (contents : list byte) (device : Handle) (queueFamilyIndex : Z) (t : Trace) :
  host_files host filename = Some contents ->
  exists buffer,
    readFile host filename t = (Ret buffer, t) /\
    List.length buffer = List.length contents /\
    storage_bytes (host_endianness host) buffer
      = (contents ++ repeat x00 (3 * List.length contents))%list /\
    exists rest,
      snd (RunComputeShader drv device queueFamilyIndex buffer t)
      = (t ++ vkCreateShaderModule device (Z.of_nat (List.length contents)) buffer
           :: rest)%list.
Proof.
  intros Hopen. eexists. split; [exact (readFile_opened _ _ _ _ Hopen)|].
  destruct (words_of_bytes_storage (host_endianness host) (List.length contents)
              (contents ++ repeat x00 (3 * List.length contents))) as [Hlen Hbytes].
  { rewrite length_app, repeat_length. lia. }
  split; [exact Hlen|]. split; [exact Hbytes|].
  pose proof (RunComputeShader_first_call drv device queueFamilyIndex
                (words_of_bytes (host_endianness host)
                   (contents ++ repeat x00 (3 * List.length contents))) t) as Hfirst.
  rewrite Hlen in Hfirst. exact Hfirst.
Qed.

Lemma readFile_buffer_witness :
  exists buffer,
    readFile sample_host "GLSLComputeShader.comp.spv" [] = (Ret buffer, []) /\
    List.length buffer = List.length sample_file /\
    storage_bytes (host_endianness sample_host) buffer
      = (sample_file ++ repeat x00 (3 * List.length sample_file))%list /\
    exists rest,
      snd (RunComputeShader (willing_driver []) 7 0 buffer [])
      = ([] ++ vkCreateShaderModule 7 (Z.of_nat (List.length sample_file)) buffer
           :: rest)%list.
Proof.
  apply (readFile_buffer (willing_driver []) sample_host
           "GLSLComputeShader.comp.spv" sample_file 7 0 []).
  reflexivity.
Defined.

(** The file of 8 bytes is read into 8 words, not into 2, and the storage of
    the buffer is 32 bytes long, not the 8 bytes of the file. *)
Lemma readFile_is_not_packed :
  exists buffer,
    readFile sample_host "GLSLComputeShader.comp.spv" [] = (Ret buffer, []) /\
    List.length sample_file = 8%nat /\
    List.length buffer <> ((8 + 3) / 4)%nat /\
    storage_bytes (host_endianness sample_host) buffer <> sample_file.
Proof.
  eexists. split; [reflexivity|]. split; [reflexivity|].
  split; vm_compute; discriminate.
Qed.

Example readFile_sample :
  fst (readFile sample_host "GLSLComputeShader.comp.spv" [])
  = Ret [ 119734787; 65536; 0; 0; 0; 0; 0; 0 ].
Proof. reflexivity. Qed.

(** ** Registering and unregistering the sinks *)

Lemma CreateDebugMessenger_unresolved (drv : Driver) (instance messenger : Handle)
    (t : Trace) :
  instance <> nullptr ->
  drv_handle drv t (vkGetInstanceProcAddr instance "vkCreateDebugUtilsMessengerEXT")
    = nullptr ->
  CreateDebugMessenger drv instance (Some messenger) t
  = (Ret (VK_ERROR_EXTENSION_NOT_PRESENT, Some messenger),
     (t ++ [vkGetInstanceProcAddr instance "vkCreateDebugUtilsMessengerEXT"])%list).
Proof.
  intros Hi Hf. unfold CreateDebugMessenger.
  destruct (Z.eqb_spec nullptr instance) as [Heq|_]; [congruence|].
  cbn [orb is_null]. rewrite bind_call, Hf. reflexivity.
Qed.

Lemma CreateReportCallback_unresolved (drv : Driver) (instance : Handle)
    (reportCallback : option Handle) (t : Trace) :
  drv_handle drv t (vkGetInstanceProcAddr instance "vkCreateDebugReportCallbackEXT")
    = nullptr ->
  CreateReportCallback drv instance reportCallback t
  = (Ret (VK_ERROR_EXTENSION_NOT_PRESENT, reportCallback),
     (t ++ [vkGetInstanceProcAddr instance "vkCreateDebugReportCallbackEXT"])%list).
Proof.
  intros Hf. unfold CreateReportCallback. rewrite bind_call, Hf. reflexivity.
Qed.

Lemma CreateReportCallback_resolved (drv : Driver) (instance : Handle)
    (reportCallback : option Handle) (t : Trace) :
  let resolve := vkGetInstanceProcAddr instance "vkCreateDebugReportCallbackEXT" in
  let create :=
    PFN_vkCreateDebugReportCallbackEXT instance 31 (is_null reportCallback) in
  drv_handle drv t resolve <> nullptr ->
  CreateReportCallback drv instance reportCallback t
  = (Ret (drv_result drv (t ++ [resolve])%list create,
          store reportCallback (drv_handle drv (t ++ [resolve])%list create)),
     (t ++ [resolve; create])%list).
Proof.
  intros resolve create Hf. unfold CreateReportCallback.
  rewrite bind_call. fold resolve.
  destruct (Z.eqb_spec (drv_handle drv t resolve) nullptr) as [Heq|_]; [contradiction|].
  cbn [negb]. unfold call_through.
  destruct (Z.eqb_spec (drv_handle drv t resolve) nullptr) as [Heq|_]; [contradiction|].
  rewrite bind_call. unfold ret. rewrite <- app_assoc. reflexivity.
Qed.

(** A failure to resolve a creation entry point stops [main] at once. *)
Example main_without_entry_points :
  main loader_without_entry_points sample_host []
  = (Exit EXIT_FAILURE,
     [ vkEnumerateInstanceLayerProperties true;
       vkEnumerateInstanceLayerProperties false;
       vkEnumerateInstanceExtensionProperties true;
       vkEnumerateInstanceExtensionProperties false;
       vkCreateInstance requiredInstanceLayers requiredInstanceExtensions [3];
       vkGetInstanceProcAddr 5 "vkCreateDebugUtilsMessengerEXT";
       fprintf_stderr_Failure_at 552 ]).
Proof. reflexivity. Qed.

Example main_without_report_entry_points :
  main loader_without_report_entry_points sample_host []
  = (Exit EXIT_FAILURE,
     [ vkEnumerateInstanceLayerProperties true;
       vkEnumerateInstanceLayerProperties false;
       vkEnumerateInstanceExtensionProperties true;
       vkEnumerateInstanceExtensionProperties false;
       vkCreateInstance requiredInstanceLayers requiredInstanceExtensions [3];
       vkGetInstanceProcAddr 5 "vkCreateDebugUtilsMessengerEXT";
       PFN_vkCreateDebugUtilsMessengerEXT 5 4369 7 false;
       vkGetInstanceProcAddr 5 "vkCreateDebugReportCallbackEXT";
       fprintf_stderr_Failure_at 555 ]).
Proof. reflexivity. Qed.

(** With a null instance or a null sink handle the destroy functions do
    nothing. *)
Lemma DestroyDebugMessenger_null (drv : Driver) (instance debugMessenger : Handle)
    (t : Trace) :
  instance = nullptr \/ debugMessenger = nullptr ->
  DestroyDebugMessenger drv instance debugMessenger t = (Ret tt, t).
Proof.
  intros H. unfold DestroyDebugMessenger.
  destruct (Z.eqb_spec nullptr instance), (Z.eqb_spec nullptr debugMessenger);
    try reflexivity.
  destruct H; congruence.
Qed.

Lemma DestroyReportCallback_null (drv : Driver) (instance reportCallback : Handle)
    (t : Trace) :
  instance = nullptr \/ reportCallback = nullptr ->
  DestroyReportCallback drv instance reportCallback t = (Ret tt, t).
Proof.
  intros H. unfold DestroyReportCallback.
  destruct (Z.eqb_spec nullptr instance), (Z.eqb_spec nullptr reportCallback);
    try reflexivity.
  destruct H; congruence.
Qed.

(** With both handles set, the destroy functions call whatever the loader
    returned, null or not. *)
Lemma DestroyDebugMessenger_unresolved (drv : Driver) (instance debugMessenger : Handle)
    (t : Trace) :
  instance <> nullptr -> debugMessenger <> nullptr ->
  drv_handle drv t (vkGetInstanceProcAddr instance "vkDestroyDebugUtilsMessengerEXT")
    = nullptr ->
  DestroyDebugMessenger drv instance debugMessenger t
  = (Crash NullFunctionCall,
     (t ++ [vkGetInstanceProcAddr instance "vkDestroyDebugUtilsMessengerEXT"])%list).
Proof.
  intros Hi Hm Hf. unfold DestroyDebugMessenger.
  destruct (Z.eqb_spec nullptr instance); [congruence|].
  destruct (Z.eqb_spec nullptr debugMessenger); [congruence|].
  cbn [orb]. rewrite bind_call, Hf. reflexivity.
Qed.

Lemma DestroyReportCallback_unresolved (drv : Driver) (instance reportCallback : Handle)
    (t : Trace) :
  instance <> nullptr -> reportCallback <> nullptr ->
  drv_handle drv t (vkGetInstanceProcAddr instance "vkDestroyDebugReportCallbackEXT")
    = nullptr ->
  DestroyReportCallback drv instance reportCallback t
  = (Crash NullFunctionCall,
     (t ++ [vkGetInstanceProcAddr instance "vkDestroyDebugReportCallbackEXT"])%list).
Proof.
  intros Hi Hm Hf. unfold DestroyReportCallback.
  destruct (Z.eqb_spec nullptr instance); [congruence|].
  destruct (Z.eqb_spec nullptr reportCallback); [congruence|].
  cbn [orb]. rewrite bind_call, Hf. reflexivity.
Qed.

(** C9, at the failing input.  When the loader does not resolve the destroy
    entry point and the instance and the sink handle are both set, neither
    destroy function is a silent no-op: each one calls the null function
    pointer it was handed.  (The creation functions do test the pointer and
    return VK_ERROR_EXTENSION_NOT_PRESENT, and null handles are a no-op.) *)
Theorem Destroy_calls_unresolved_entry_point :
  DestroyDebugMessenger loader_without_destroy 5 8 []
    = (Crash NullFunctionCall,
       [ vkGetInstanceProcAddr 5 "vkDestroyDebugUtilsMessengerEXT" ]) /\
  DestroyReportCallback loader_without_destroy 5 11 []
    = (Crash NullFunctionCall,
       [ vkGetInstanceProcAddr 5 "vkDestroyDebugReportCallbackEXT" ]) /\
  fst (CreateDebugMessenger loader_without_entry_points 5 (Some 0) [])
    = Ret (VK_ERROR_EXTENSION_NOT_PRESENT, Some 0) /\
  fst (CreateReportCallback loader_without_entry_points 5 (Some 0) [])
    = Ret (VK_ERROR_EXTENSION_NOT_PRESENT, Some 0).
Proof. repeat split; reflexivity. Qed.

(** The same fault at the end of a run of [main] in which everything else
    succeeded. *)
Example main_without_destroy :
  fst (main loader_without_destroy sample_host []) = Crash NullFunctionCall.
Proof. vm_compute. reflexivity. Qed.

(** C10.  With a null instance or a null pointer to the messenger,
    [CreateDebugMessenger] returns VK_ERROR_UNKNOWN, makes no call at all
    and leaves the messenger as it was; [CreateReportCallback], given the
    same arguments, has no such test: it asks the loader for the creation
    entry point and, when the loader resolves it, invokes it with these
    arguments and returns its result. *)
Theorem CreateDebugMessenger_checks_null_CreateReportCallback_does_not
    (drv : Driver) (instance : Handle) (pointer : option Handle) (t : Trace) :
  instance = nullptr \/ pointer = None ->
  let resolve := vkGetInstanceProcAddr instance "vkCreateDebugReportCallbackEXT" in
  let create := PFN_vkCreateDebugReportCallbackEXT instance 31 (is_null pointer) in
  CreateDebugMessenger drv instance pointer t = (Ret (VK_ERROR_UNKNOWN, pointer), t) /\
  (exists rest,
     snd (CreateReportCallback drv instance pointer t) = (t ++ resolve :: rest)%list) /\
  (drv_handle drv t resolve <> nullptr ->
   CreateReportCallback drv instance pointer t
   = (Ret (drv_result drv (t ++ [resolve])%list create,
           store pointer (drv_handle drv (t ++ [resolve])%list create)),
      (t ++ [resolve; create])%list)) /\
  (drv_handle drv t resolve = nullptr ->
   CreateReportCallback drv instance pointer t
   = (Ret (VK_ERROR_EXTENSION_NOT_PRESENT, pointer), (t ++ [resolve])%list)).
Proof.
  intros Hnull resolve create. split; [|split; [|split]].
  - unfold CreateDebugMessenger.
    destruct Hnull as [-> | ->]; [reflexivity|].
    destruct (nullptr =? instance); reflexivity.
  - destruct (Z.eq_dec (drv_handle drv t resolve) nullptr) as [Hf | Hf].
    + rewrite (CreateReportCallback_unresolved _ _ _ _ Hf). exists []. reflexivity.
    + rewrite (CreateReportCallback_resolved _ _ _ _ Hf). eexists. reflexivity.
  - apply CreateReportCallback_resolved.
  - apply CreateReportCallback_unresolved.
Qed.

Lemma CreateDebugMessenger_checks_null_CreateReportCallback_does_not_witness :
  CreateDebugMessenger (willing_driver []) nullptr None []
    = (Ret (VK_ERROR_UNKNOWN, None), []) /\
  CreateReportCallback (willing_driver []) nullptr None []
    = (Ret (VK_SUCCESS, None),
       [ vkGetInstanceProcAddr nullptr "vkCreateDebugReportCallbackEXT";
         PFN_vkCreateDebugReportCallbackEXT nullptr 31 true ]).
Proof.
  destruct (CreateDebugMessenger_checks_null_CreateReportCallback_does_not
              (willing_driver []) nullptr None [] (or_introl eq_refl))
    as (Hmessenger & _ & Hresolved & _).
  split; [exact Hmessenger|]. apply Hresolved. discriminate.
Defined.

(** A null instance on a loader that resolves nothing for it: the creation
    entry point of the report callback is looked up and is not invoked, and
    the function returns VK_ERROR_EXTENSION_NOT_PRESENT. *)
Lemma CreateReportCallback_null_instance_not_invoked :
  CreateDebugMessenger strict_loader nullptr (Some nullptr) []
  = (Ret (VK_ERROR_UNKNOWN, Some nullptr), []) /\
  CreateReportCallback strict_loader nullptr (Some nullptr) []
  = (Ret (VK_ERROR_EXTENSION_NOT_PRESENT, Some nullptr),
     [ vkGetInstanceProcAddr nullptr "vkCreateDebugReportCallbackEXT" ]) /\
  (forall flags null_pointer,
     ~ In (PFN_vkCreateDebugReportCallbackEXT nullptr flags null_pointer)
          (snd (CreateReportCallback strict_loader nullptr (Some nullptr) []))).
Proof.
  split; [reflexivity|]. split; [reflexivity|].
  intros flags null_pointer [H | []]. discriminate H.
Qed.

(** ** The harness and its failure paths *)

Section Harness.

Variable drv : Driver.

Lemma checks_passed_app (t : Trace) (a b : list Call) :
  checks_passed drv t (a ++ b) <->
  checks_passed drv t a /\ checks_passed drv (t ++ a)%list b.
Proof.
  revert t. induction a as [|c a IH]; intros t; simpl.
  - rewrite app_nil_r. tauto.
  - rewrite IH, <- app_assoc. simpl. tauto.
Qed.

Lemma checks_passed_split (t : Trace) (before after : list Call) (c : Call) :
  checks_passed drv t (before ++ c :: after) ->
  returns_result c = true ->
  drv_result drv (t ++ before)%list c = VK_SUCCESS.
Proof.
  intros H Hc. apply checks_passed_app in H as [_ H]. simpl in H. tauto.
Qed.

Lemma checks_passed_unchecked (t : Trace) (calls : list Call) :
  Forall (fun c => returns_result c = false) calls -> checks_passed drv t calls.
Proof.
  intros H. revert t. induction H as [|c calls Hc _ IH]; intros t; simpl.
  - exact I.
  - split; [congruence | apply IH].
Qed.

Lemma failed_last_app (t : Trace) (a b : list Call) (r : VkResult) :
  checks_passed drv t a ->
  failed_last drv (t ++ a)%list b r ->
  failed_last drv t (a ++ b) r.
Proof.
  intros Ha (before & c & -> & Hb & Hc & Hr).
  exists (a ++ before)%list, c. split; [now rewrite app_assoc|].
  split; [apply checks_passed_app; auto|].
  split; [assumption|]. now rewrite app_assoc.
Qed.

Lemma quiet_app (a b : list Call) : quiet a -> quiet b -> quiet (a ++ b).
Proof.
  unfold quiet. intros [Ha1 Ha2] [Hb1 Hb2].
  rewrite !filter_app, Ha1, Ha2, Hb1, Hb2. split; reflexivity.
Qed.

Lemma checked_is_no_report (c : Call) :
  returns_result c = true -> is_failure_report c = false.
Proof. destruct c; simpl; congruence. Qed.

Lemma filter_prefix_nil (f : Call -> bool) (l before after : list Call) (c : Call) :
  filter f l = [] -> l = (before ++ c :: after)%list -> filter f (before ++ [c]) = [].
Proof.
  intros Hall ->. rewrite filter_app in Hall. apply app_eq_nil in Hall as [Hb Hc].
  rewrite filter_app, Hb. simpl in *.
  destruct (f c); [discriminate | reflexivity].
Qed.

Lemma function_spec_ext {A} (res : A -> VkResult) (m m' : M A) :
  (forall t, m t = m' t) -> function_spec drv res m' -> function_spec drv res m.
Proof.
  intros Heq H t. rewrite Heq. apply H.
Qed.

Lemma fs_ret {A} (res : A -> VkResult) (a : A) : function_spec drv res (ret a).
Proof.
  intros t. exists (Ret a), []. rewrite app_nil_r.
  split; [reflexivity|]. split; [split; reflexivity|]. left. exact I.
Qed.

Lemma fs_crash {A} (res : A -> VkResult) (f : Fault) :
  function_spec drv res (@crash A f).
Proof.
  intros t. exists (Crash f), []. rewrite app_nil_r.
  split; [reflexivity|]. split; [split; reflexivity|]. exact I.
Qed.

(** One unchecked, quiet call in front of a computation. *)
Lemma fs_after_unchecked {A} (res : A -> VkResult) (c : Call) (m m' : M A) :
  (forall t, m t = m' (t ++ [c])%list) ->
  returns_result c = false -> is_caller_cleanup c = false ->
  is_failure_report c = false ->
  function_spec drv res m' -> function_spec drv res m.
Proof.
  intros Heq Hc Hcl Hrep H t. rewrite Heq.
  destruct (H (t ++ [c])%list) as (out & calls & Hrun & [Hq1 Hq2] & Hout).
  exists out, (c :: calls). rewrite Hrun, <- app_assoc.
  split; [reflexivity|]. split.
  - split; simpl; [rewrite Hcl | rewrite Hrep]; assumption.
  - assert (Hone : checks_passed drv t [c]) by (simpl; split; [congruence | exact I]).
    destruct out as [a | code | f]; [|exact Hout|].
    + destruct Hout as [Hall | [Hne Hlast]].
      * left. simpl. split; [congruence | exact Hall].
      * right. split; [exact Hne|]. now apply (failed_last_app t [c] calls).
    + simpl. split; [congruence | exact Hout].
Qed.

Lemma fs_bind_emit {A} (res : A -> VkResult) (c : Call) (k : unit -> M A) :
  returns_result c = false -> is_caller_cleanup c = false ->
  is_failure_report c = false ->
  function_spec drv res (k tt) -> function_spec drv res (bind (emit c) k).
Proof.
  intros Hc Hcl Hrep H.
  apply (fs_after_unchecked res c _ (k tt)); auto.
Qed.

(** A checked call whose failure is returned at once. *)
Lemma fs_bind_call_checked {A} (res : A -> VkResult) (c : Call)
    (k : VkResult * Handle -> M A) :
  returns_result c = true -> is_caller_cleanup c = false ->
  (forall h, function_spec drv res (k (VK_SUCCESS, h))) ->
  (forall r h, r <> VK_SUCCESS -> exists a, k (r, h) = ret a /\ res a = r) ->
  function_spec drv res (bind (call drv c) k).
Proof.
  intros Hc Hcl Hok Hbad t. rewrite bind_call.
  pose proof (checked_is_no_report c Hc) as Hrep.
  destruct (Z.eq_dec (drv_result drv t c) VK_SUCCESS) as [Hr | Hr].
  - rewrite Hr.
    destruct (Hok (drv_handle drv t c) (t ++ [c])%list)
      as (out & calls & Hrun & [Hq1 Hq2] & Hout).
    exists out, (c :: calls). rewrite Hrun, <- app_assoc.
    split; [reflexivity|]. split.
    + split; simpl; [rewrite Hcl | rewrite Hrep]; assumption.
    + assert (Hone : checks_passed drv t [c]) by (simpl; auto).
      destruct out as [a | code | f]; [|exact Hout|].
      * destruct Hout as [Hall | [Hne Hlast]].
        -- left. simpl. auto.
        -- right. split; [exact Hne|]. now apply (failed_last_app t [c] calls).
      * simpl. auto.
  - destruct (Hbad _ (drv_handle drv t c) Hr) as (a & -> & Ha).
    exists (Ret a), [c]. split; [reflexivity|]. split.
    + split; simpl; [rewrite Hcl | rewrite Hrep]; reflexivity.
    + right. rewrite Ha. split; [exact Hr|].
      exists [], c. rewrite app_nil_r. simpl. auto.
Qed.

Lemma fs_bind_call_unchecked {A} (res : A -> VkResult) (c : Call)
    (k : VkResult * Handle -> M A) :
  returns_result c = false -> is_caller_cleanup c = false ->
  is_failure_report c = false ->
  (forall x, function_spec drv res (k x)) ->
  function_spec drv res (bind (call drv c) k).
Proof.
  intros Hc Hcl Hrep H t. rewrite bind_call.
  destruct (H (drv_result drv t c, drv_handle drv t c) (t ++ [c])%list)
    as (out & calls & Hrun & [Hq1 Hq2] & Hout).
  exists out, (c :: calls). rewrite Hrun, <- app_assoc.
  split; [reflexivity|]. split.
  - split; simpl; [rewrite Hcl | rewrite Hrep]; assumption.
  - assert (Hone : checks_passed drv t [c]) by (simpl; split; [congruence | exact I]).
    destruct out as [a | code | f]; [|exact Hout|].
    + destruct Hout as [Hall | [Hne Hlast]].
      * left. simpl. split; [congruence | exact Hall].
      * right. split; [exact Hne|]. now apply (failed_last_app t [c] calls).
    + simpl. split; [congruence | exact Hout].
Qed.

(** A single checked call as the whole function. *)
Lemma fs_call_checked (c : Call) :
  returns_result c = true -> is_caller_cleanup c = false ->
  function_spec drv fst (call drv c).
Proof.
  intros Hc Hcl.
  apply (function_spec_ext fst _ (bind (call drv c) ret)); [reflexivity|].
  apply fs_bind_call_checked; auto.
  - intros h. apply fs_ret.
  - intros r h _. exists (r, h). split; reflexivity.
Qed.

Variable host : Host.

Lemma VerifyInstanceLayers_spec (required : list string) :
  function_spec drv (fun _ => VK_SUCCESS) (VerifyInstanceLayers drv required).
Proof.
  unfold VerifyInstanceLayers. destruct (List.length required =? 0)%nat.
  - apply fs_ret.
  - repeat (apply fs_bind_emit; try reflexivity). apply fs_ret.
Qed.

Lemma VerifyInstanceExtensions_spec (required : list string) :
  function_spec drv (fun _ => VK_SUCCESS) (VerifyInstanceExtensions drv required).
Proof.
  unfold VerifyInstanceExtensions. destruct (List.length required =? 0)%nat.
  - apply fs_ret.
  - repeat (apply fs_bind_emit; try reflexivity). apply fs_ret.
Qed.

Lemma CreateHeadlessVulkanInstance_spec (instance : Handle) :
  function_spec drv fst (CreateHeadlessVulkanInstance drv instance).
Proof.
  unfold CreateHeadlessVulkanInstance. apply fs_call_checked; reflexivity.
Qed.

Lemma CreateDevice_spec (physicalDevice : Handle) (queueFamilyIndex : Z)
    (device : Handle) :
  function_spec drv fst (CreateDevice drv physicalDevice queueFamilyIndex device).
Proof.
  unfold CreateDevice. apply fs_call_checked; reflexivity.
Qed.

Lemma CreateDebugMessenger_spec (instance : Handle) (debugMessenger : option Handle) :
  function_spec drv fst (CreateDebugMessenger drv instance debugMessenger).
Proof.
  unfold CreateDebugMessenger.
  destruct ((nullptr =? instance) || is_null debugMessenger); [apply fs_ret|].
  apply fs_bind_call_unchecked; try reflexivity.
  intros [r function]. cbv beta iota. unfold call_through.
  destruct (function =? nullptr); cbn [negb]; [apply fs_ret|].
  apply fs_bind_call_checked; try reflexivity.
  - intros h. apply fs_ret.
  - intros r' h _. eexists. split; reflexivity.
Qed.

Lemma CreateReportCallback_spec (instance : Handle) (reportCallback : option Handle) :
  function_spec drv fst (CreateReportCallback drv instance reportCallback).
Proof.
  unfold CreateReportCallback.
  apply fs_bind_call_unchecked; try reflexivity.
  intros [r function]. cbv beta iota. unfold call_through.
  destruct (function =? nullptr); cbn [negb]; [apply fs_ret|].
  apply fs_bind_call_checked; try reflexivity.
  - intros h. apply fs_ret.
  - intros r' h _. eexists. split; reflexivity.
Qed.

Lemma EnumerateDevices_spec (instance : Handle) (devices : option (list Handle))
    (device_count : Z) :
  function_spec drv (fun x => fst (fst x))
    (EnumerateDevices drv host instance devices device_count).
Proof.
  unfold EnumerateDevices.
  apply fs_bind_call_checked; try reflexivity.
  - intros h. cbv beta iota. rewrite Z.eqb_refl. cbn [negb].
    apply fs_bind_call_checked; try reflexivity.
    + intros h'. apply fs_ret.
    + intros r h' _. eexists. split; reflexivity.
  - intros r h Hr. cbv beta iota.
    destruct (Z.eqb_spec VK_SUCCESS r) as [Heq | _]; [congruence|].
    cbn [negb]. eexists. split; reflexivity.
Qed.

Lemma GetBestComputeQueue_spec (physicalDevice : Handle) (queueFamilyIndex : Z) :
  function_spec drv fst
    (GetBestComputeQueue drv host physicalDevice queueFamilyIndex).
Proof.
  unfold GetBestComputeQueue.
  apply fs_bind_emit; try reflexivity.
  destruct (host_malloca host _); cbn [negb]; [|apply fs_ret].
  apply fs_bind_emit; try reflexivity.
  destruct (scan_families compute_only 0 _); [apply fs_ret|].
  destruct (scan_families any_compute 0 _); apply fs_ret.
Qed.

Lemma readFile_spec (filename : string) :
  function_spec drv (fun _ => VK_SUCCESS) (readFile host filename).
Proof.
  unfold readFile. destruct (host_files host filename); [apply fs_ret | apply fs_crash].
Qed.

Lemma RunComputeShader_spec (device : Handle) (queueFamilyIndex : Z)
    (shaderCode : list Z) :
  function_spec drv (fun result => result)
    (RunComputeShader drv device queueFamilyIndex shaderCode).
Proof.
  intros t.
  destruct (RunComputeShader_runs drv device queueFamilyIndex shaderCode t)
    as (result & t' & m & l & p & cp & cb & qu & Hrun & Hshape).
  cbv zeta in Hshape.
  destruct Hshape as [(Hok & -> & Hall)
                     | (Hbad & before & c & after & Hsplit & -> & Hr & Hc & Hall)].
  - exists (Ret result). eexists. split; [exact Hrun|].
    split; [split; reflexivity|]. left. exact Hall.
  - exists (Ret result). eexists. split; [exact Hrun|]. split.
    + split; eapply filter_prefix_nil; try exact Hsplit; reflexivity.
    + right. split; [exact Hbad|]. exists before, c. auto.
Qed.

Lemma cs_ret {A} (a : A) : cleanup_spec (ret a).
Proof.
  intros t. exists (Ret a), []. rewrite app_nil_r. repeat split. constructor.
Qed.

Lemma cs_after {A} (c : Call) (m m' : M A) :
  (forall t, m t = m' (t ++ [c])%list) ->
  returns_result c = false -> is_failure_report c = false ->
  cleanup_spec m' -> cleanup_spec m.
Proof.
  intros Heq Hc Hrep H t. rewrite Heq.
  destruct (H (t ++ [c])%list) as (out & calls & Hrun & Hcalls & Hout).
  exists out, (c :: calls). rewrite Hrun, <- app_assoc.
  split; [reflexivity|]. split; [constructor; auto | exact Hout].
Qed.

Lemma cs_bind_emit {A} (c : Call) (k : unit -> M A) :
  returns_result c = false -> is_failure_report c = false ->
  cleanup_spec (k tt) -> cleanup_spec (bind (emit c) k).
Proof.
  intros Hc Hrep H. apply (cs_after c _ (k tt)); auto.
Qed.

Lemma cs_bind {A B} (m : M A) (k : A -> M B) :
  cleanup_spec m -> (forall a, cleanup_spec (k a)) -> cleanup_spec (bind m k).
Proof.
  intros Hm Hk t. unfold bind.
  destruct (Hm t) as (out & calls & -> & Hcalls & Hout).
  destruct out as [a | code | f]; [|contradiction|].
  - destruct (Hk a (t ++ calls)%list) as (out' & calls' & -> & Hcalls' & Hout').
    exists out', (calls ++ calls')%list. rewrite app_assoc.
    split; [reflexivity|]. split; [apply Forall_app; auto | exact Hout'].
  - exists (Crash f), calls. repeat split. exact Hcalls.
Qed.

Lemma DestroyDebugMessenger_cleanup (instance debugMessenger : Handle) :
  cleanup_spec (DestroyDebugMessenger drv instance debugMessenger).
Proof.
  unfold DestroyDebugMessenger.
  destruct ((nullptr =? instance) || (nullptr =? debugMessenger)); [apply cs_ret|].
  intros t. rewrite bind_call. cbv beta iota. unfold call_through.
  destruct (drv_handle drv t _ =? nullptr).
  - eexists (Crash NullFunctionCall), [_]. repeat split. repeat constructor.
  - rewrite bind_call. eexists (Ret tt), [_; _]. rewrite <- app_assoc.
    repeat split. repeat constructor.
Qed.

Lemma DestroyReportCallback_cleanup (instance reportCallback : Handle) :
  cleanup_spec (DestroyReportCallback drv instance reportCallback).
Proof.
  unfold DestroyReportCallback.
  destruct ((nullptr =? instance) || (nullptr =? reportCallback)); [apply cs_ret|].
  intros t. rewrite bind_call. cbv beta iota. unfold call_through.
  destruct (drv_handle drv t _ =? nullptr).
  - eexists (Crash NullFunctionCall), [_]. repeat split. repeat constructor.
  - rewrite bind_call. eexists (Ret tt), [_; _]. rewrite <- app_assoc.
    repeat split. repeat constructor.
Qed.

Lemma cleanup_harness (m : M Z) : cleanup_spec m -> harness_spec drv m.
Proof.
  intros H t. destruct (H t) as (out & calls & Hrun & Hcalls & Hout).
  exists out, calls. split; [exact Hrun|].
  assert (Hchecks : checks_passed drv t calls).
  { apply checks_passed_unchecked. eapply Forall_impl; [|exact Hcalls].
    simpl. tauto. }
  assert (Hrep : filter is_failure_report calls = []).
  { clear -Hcalls. induction Hcalls as [|c calls [_ Hc] _ IH]; simpl;
      [reflexivity | now rewrite Hc]. }
  destruct out; [auto | contradiction | auto].
Qed.

Lemma harness_crash (f : Fault) : harness_spec drv (crash f).
Proof.
  intros t. exists (Crash f), []. rewrite app_nil_r. repeat split.
Qed.

Lemma harness_ret (status : Z) : harness_spec drv (ret status).
Proof.
  intros t. exists (Ret status), []. rewrite app_nil_r. repeat split.
Qed.

(** A function of the program followed by the rest of [main]. *)
Lemma harness_bind {A} (res : A -> VkResult) (m : M A) (k : A -> M Z) :
  function_spec drv res m ->
  (forall a, after_check drv (res a) (k a)) ->
  harness_spec drv (bind m k).
Proof.
  intros Hm Hk t. unfold bind.
  destruct (Hm t) as (out & calls & -> & [Hq1 Hq2] & Hout).
  destruct out as [a | code | f]; [|contradiction|].
  - destruct (Hk a) as [Hgood Hbad].
    destruct (Z.eq_dec (res a) VK_SUCCESS) as [Hr | Hr].
    + assert (Hall : checks_passed drv t calls).
      { destruct Hout as [Hall | [Hne _]]; [exact Hall | contradiction]. }
      destruct (Hgood Hr (t ++ calls)%list) as (out' & calls' & -> & Hout').
      exists out', (calls ++ calls')%list. rewrite app_assoc.
      split; [reflexivity|].
      destruct out' as [status | code | f].
      * destruct Hout' as [Hall' Hrep']. split.
        -- apply checks_passed_app; auto.
        -- now rewrite filter_app, Hq2, Hrep'.
      * destruct Hout' as (Hcode & Hcl & before & line & -> & Hrep & Hfail).
        split; [exact Hcode|]. split; [now rewrite filter_app, Hq1, Hcl|].
        exists (calls ++ before)%list, line. split; [now rewrite app_assoc|].
        split; [now rewrite filter_app, Hq2, Hrep|].
        destruct Hfail as [Hall' | (r & Hne & Hlast)].
        -- left. apply checks_passed_app; auto.
        -- right. exists r. split; [exact Hne|]. now apply failed_last_app.
      * destruct Hout' as [Hall' Hrep']. split.
        -- apply checks_passed_app; auto.
        -- now rewrite filter_app, Hq2, Hrep'.
    + destruct (Hbad Hr (t ++ calls)%list) as (line & ->).
      exists (Exit EXIT_FAILURE), (calls ++ [fprintf_stderr_Failure_at line])%list.
      rewrite app_assoc. split; [reflexivity|]. split; [reflexivity|].
      split; [now rewrite filter_app, Hq1|].
      exists calls, line. split; [reflexivity|]. split; [exact Hq2|].
      destruct Hout as [Hall | [Hne Hlast]]; [left; exact Hall|].
      right. exists (res a). auto.
  - exists (Crash f), calls. split; [reflexivity|]. split; assumption.
Qed.

Lemma harness_bind_plain {A} (m : M A) (k : A -> M Z) :
  function_spec drv (fun _ => VK_SUCCESS) m ->
  (forall a, harness_spec drv (k a)) ->
  harness_spec drv (bind m k).
Proof.
  intros Hm Hk. apply (harness_bind (fun _ => VK_SUCCESS)); [exact Hm|].
  intros a. split; [intros _; apply Hk | congruence].
Qed.

Lemma after_check_EXIT (line : Z) (r : VkResult) (rest : M Z) :
  harness_spec drv rest ->
  after_check drv r (bind (EXIT_ON_BAD_RESULT line r) (fun _ => rest)).
Proof.
  intros Hrest. unfold EXIT_ON_BAD_RESULT. split.
  - intros ->. exact Hrest.
  - intros Hr t. exists line.
    destruct (Z.eqb_spec VK_SUCCESS r) as [Heq | _]; [congruence|]. reflexivity.
Qed.

Lemma main_cleanup (device instance debugMessenger reportCallback : Handle) :
  cleanup_spec
    (emit (vkDestroyDevice device) ;;;
     DestroyDebugMessenger drv instance debugMessenger ;;;
     DestroyReportCallback drv instance reportCallback ;;;
     emit (vkDestroyInstance instance) ;;;
     ret 0)%run.
Proof.
  apply cs_bind_emit; try reflexivity.
  apply cs_bind; [apply DestroyDebugMessenger_cleanup | intros _].
  apply cs_bind; [apply DestroyReportCallback_cleanup | intros _].
  apply cs_bind_emit; try reflexivity.
  apply cs_ret.
Qed.

Theorem main_harness : harness_spec drv (main drv host).
Proof.
  unfold main.
  apply harness_bind_plain; [apply VerifyInstanceLayers_spec | intros layersPresent].
  apply harness_bind_plain; [apply VerifyInstanceExtensions_spec | intros extensionsPresent].
  destruct (negb layersPresent || negb extensionsPresent); [apply harness_ret|].
  apply (harness_bind fst); [apply CreateHeadlessVulkanInstance_spec|].
  intros [result instance]. apply after_check_EXIT.
  apply (harness_bind fst); [apply CreateDebugMessenger_spec|].
  intros [result1 written1]. apply after_check_EXIT.
  apply (harness_bind fst); [apply CreateReportCallback_spec|].
  intros [result2 written2]. apply after_check_EXIT.
  apply (harness_bind (fun x => fst (fst x))); [apply EnumerateDevices_spec|].
  intros [[result3 physicalDevices] physicalDeviceCount]. apply after_check_EXIT.
  destruct physicalDevices as [physicalDevices|]; [|apply harness_crash].
  cbv zeta. generalize (element_0 host physicalDevices). intros physicalDevices_0.
  apply (harness_bind fst); [apply GetBestComputeQueue_spec|].
  intros [result4 queueFamilyIndex]. apply after_check_EXIT.
  apply (harness_bind fst); [apply CreateDevice_spec|].
  intros [result5 device]. apply after_check_EXIT.
  apply harness_bind_plain; [apply readFile_spec | intros glslShaderCode].
  apply (harness_bind (fun result => result)); [apply RunComputeShader_spec|].
  intros result6. apply after_check_EXIT.
  apply harness_bind_plain; [apply readFile_spec | intros hlslShaderCode].
  apply (harness_bind (fun result => result)); [apply RunComputeShader_spec|].
  intros result7. apply after_check_EXIT.
  apply cleanup_harness. apply main_cleanup.
Qed.

End Harness.

(** Where an element of a list stands with respect to another one. *)
Lemma app_cons_locate {A} (T rest pre post : list A) (c x : A) :
  (T ++ c :: rest)%list = (pre ++ x :: post)%list ->
  (exists mid, pre = (T ++ c :: mid)%list /\ rest = (mid ++ x :: post)%list)
  \/ (T = pre /\ c = x /\ rest = post)
  \/ (exists mid, post = (mid ++ c :: rest)%list /\ T = (pre ++ x :: mid)%list).
Proof.
  revert pre. induction T as [|a T IH]; intros [|y pre] H; simpl in H.
  - injection H as -> ->. right. left. auto.
  - injection H as -> ->. left. exists pre. auto.
  - injection H as -> <-. right. right. exists T. auto.
  - injection H as -> H.
    apply IH in H as [(mid & -> & ->) | [(-> & -> & ->) | (mid & -> & ->)]].
    + left. exists mid. auto.
    + right. left. auto.
    + right. right. exists mid. auto.
Qed.

(** C5, as the code has it.  When a step of [RunComputeShader] fails, the
    function returns the result code of that step right after the failing
    call, and makes no destroy or free call.  The caller does not clean up
    either: in a run of [main], a checked call that fails is followed by the
    failure report and by nothing else, the process exits with EXIT_FAILURE,
    and none of the cleanup calls of [main] was made. *)
Theorem failing_step_stops_everything (drv : Driver) (host : Host) :
  (forall device queueFamilyIndex shaderCode t,
     exists result calls,
       RunComputeShader drv device queueFamilyIndex shaderCode t
         = (Ret result, (t ++ calls)%list) /\
       (result <> VK_SUCCESS ->
        filter is_pipeline_teardown calls = [] /\
        exists before c,
          calls = (before ++ [c])%list /\
          returns_result c = true /\
          result = drv_result drv (t ++ before)%list c /\
          checks_passed drv t before)) /\
  (exists out trace,
     main drv host [] = (out, trace) /\
     (forall code, out = Exit code ->
        code = EXIT_FAILURE /\ filter is_caller_cleanup trace = []) /\
     (forall before c after,
        trace = (before ++ c :: after)%list ->
        returns_result c = true ->
        drv_result drv before c <> VK_SUCCESS ->
        out = Exit EXIT_FAILURE /\
        (exists line, after = [fprintf_stderr_Failure_at line]) /\
        filter is_caller_cleanup trace = [])).
Proof.
  split.
  - intros device queueFamilyIndex shaderCode t.
    destruct (RunComputeShader_runs drv device queueFamilyIndex shaderCode t)
      as (result & t' & m & l & p & cp & cb & qu & Hrun & Hshape).
    cbv zeta in Hshape.
    destruct Hshape as [(Hok & -> & _)
                       | (Hbad & before & c & after & Hsplit & -> & Hr & Hc & Hall)].
    + exists result. eexists. split; [exact Hrun | congruence].
    + exists result. eexists. split; [exact Hrun|]. intros _. split.
      * eapply pipeline_script_releases_nothing; eauto.
      * exists before, c. auto.
  - destruct (main_harness drv host []) as (out & trace & Hrun & Hout).
    simpl in Hrun. exists out, trace. split; [exact Hrun|]. split.
    + intros code ->. destruct Hout as (Hcode & Hcl & _). auto.
    + intros T c rest Htrace Hc Hfail.
      assert (Hno : forall calls, checks_passed drv [] calls ->
                forall mid, calls <> (T ++ c :: mid)%list).
      { intros calls Hall mid ->.
        apply checks_passed_split in Hall; auto. }
      destruct out as [status | code | f].
      * destruct Hout as [Hall _]. destruct (Hno _ Hall rest Htrace).
      * destruct Hout as (-> & Hcl & before & line & -> & Hrep & Hlast).
        split; [reflexivity|]. split; [|exact Hcl].
        symmetry in Htrace.
        apply app_cons_locate in Htrace
          as [(mid & -> & ->) | [(-> & -> & _) | (mid & Hmid & _)]].
        -- destruct Hlast as [Hall | (r & Hne & pre & c0 & Hpre & Hall & Hc0 & Hr)].
           ++ destruct (Hno _ Hall mid eq_refl).
           ++ destruct (app_cons_locate T mid pre [] c c0 Hpre)
                as [(mid' & -> & _) | [(_ & _ & ->) | (mid' & Hmid' & _)]].
              ** destruct (Hno _ Hall mid' eq_refl).
              ** exists line. reflexivity.
              ** destruct mid'; discriminate Hmid'.
        -- discriminate Hc.
        -- destruct mid; discriminate Hmid.
      * destruct Hout as [Hall _]. destruct (Hno _ Hall rest Htrace).
Qed.

(** The run in which the driver rejects the first shader: instance, sinks
    and device were created, the module creation failed, and the process
    exited without destroying any of them. *)
Lemma caller_cleanup_is_skipped :
  exists earlier,
    main driver_rejecting_shaders sample_host []
    = (Exit EXIT_FAILURE,
       (earlier ++ [ vkCreateDevice 4096 0;
                     vkCreateShaderModule 14 8 [ 119734787; 65536; 0; 0; 0; 0; 0; 0 ];
                     fprintf_stderr_Failure_at 569 ])%list) /\
    In (vkCreateInstance requiredInstanceLayers requiredInstanceExtensions [ 3 ]) earlier /\
    filter is_caller_cleanup
      (snd (main driver_rejecting_shaders sample_host [])) = [] /\
    fst (RunComputeShader driver_rejecting_shaders 14 0
           [ 119734787; 65536; 0; 0; 0; 0; 0; 0 ] earlier)
    = Ret VK_ERROR_INVALID_SHADER_NV.
Proof.
  eexists (firstn 13 (snd (main driver_rejecting_shaders sample_host []))).
  vm_compute. repeat split. do 4 right. left. reflexivity.
Qed.

(** A run in which everything succeeds, for comparison: both pipelines run
    and are torn down, then the caller cleans up and returns 0. *)
Example main_succeeds :
  exists trace,
    main (willing_driver [ family 2 ]) sample_host [] = (Ret 0, trace) /\
    filter is_caller_cleanup trace
    = [ vkDestroyDevice 14;
        PFN_vkDestroyDebugUtilsMessengerEXT 5 7;
        PFN_vkDestroyDebugReportCallbackEXT 5 9;
        vkDestroyInstance 5 ] /\
    released trace
    = [ CommandBuffer; CommandPool; Pipeline; PipelineLayout; ShaderModule;
        CommandBuffer; CommandPool; Pipeline; PipelineLayout; ShaderModule ].
Proof. eexists. vm_compute. repeat split. Qed.

(** * Further properties of the code *)

(** ** The sinks in both modes *)

Lemma string_app_assoc (a b c : string) : (a ++ b) ++ c = a ++ b ++ c.
Proof.
  induction a as [|x a IH]; simpl; [reflexivity | now rewrite IH].
Qed.

(** X1.  The filter of the severity-channel sink only removes: for every
    message and in both modes the sink returns VK_FALSE; what the filtered
    sink writes is either nothing or exactly the line the unfiltered sink
    writes for the same message; and the unfiltered sink always writes a
    line, which contains the message text verbatim. *)
Theorem VulkanDebugCallback_filter_only_removes
    (mode : bool) (messageSeverity messageType : Z) (pMessage : string) :
  let filtered := VulkanDebugCallback true messageSeverity messageType pMessage in
  let shown := VulkanDebugCallback false messageSeverity messageType pMessage in
  snd (VulkanDebugCallback mode messageSeverity messageType pMessage) = VK_FALSE /\
  (fst filtered = EmptyString \/ fst filtered = fst shown) /\
  logged (fst shown) /\
  contains (fst shown) pMessage.
Proof.
  cbv zeta. split; [|split; [|split]].
  - unfold VulkanDebugCallback. destruct mode; cbn [andb].
    + destruct (negb _); reflexivity.
    + reflexivity.
  - unfold VulkanDebugCallback. cbn [andb].
    destruct (negb _); [left | right]; reflexivity.
  - discriminate.
  - unfold VulkanDebugCallback. cbn [andb fst].
    exists ("[VULKAN DEBUG] : " ++ severity_label messageSeverity
            ++ " : [FLAGS]: " ++ print_unsigned messageType ++ tab), endl.
    now rewrite !string_app_assoc.
Qed.

(** X2.  The filter of the flag-channel sink only removes: for every message
    and in both modes the sink returns VK_FALSE; what the filtered sink
    writes is either nothing or exactly the line the unfiltered sink writes;
    and the unfiltered sink always writes a line, which contains the layer
    prefix and the message text verbatim. *)
Theorem VulkanReportCallback_filter_only_removes
    (mode : bool) (flags objectType object location messageCode : Z)
    (pLayerPrefix pMessage : string) :
  let filtered :=
    VulkanReportCallback true flags objectType object location messageCode
      pLayerPrefix pMessage in
  let shown :=
    VulkanReportCallback false flags objectType object location messageCode
      pLayerPrefix pMessage in
  snd (VulkanReportCallback mode flags objectType object location messageCode
         pLayerPrefix pMessage) = VK_FALSE /\
  (fst filtered = EmptyString \/ fst filtered = fst shown) /\
  logged (fst shown) /\
  contains (fst shown) pLayerPrefix /\
  contains (fst shown) pMessage.
Proof.
  cbv zeta. split; [|split; [|split; [|split]]].
  - unfold VulkanReportCallback. destruct mode; cbn [andb].
    + destruct (negb _); [reflexivity|]. destruct (find _ _); reflexivity.
    + reflexivity.
  - unfold VulkanReportCallback. cbn [andb].
    destruct (negb _); [left; reflexivity|].
    destruct (find _ _); [right | left]; reflexivity.
  - discriminate.
  - unfold VulkanReportCallback. cbn [andb fst].
    exists ("[VULKAN REPORT]: [FLAGS]: " ++ print_unsigned flags ++ " [LAYER]: "),
           (" [MESSAGE]: " ++ pMessage ++ endl).
    now rewrite !string_app_assoc.
  - unfold VulkanReportCallback. cbn [andb fst].
    exists ("[VULKAN REPORT]: [FLAGS]: " ++ print_unsigned flags ++ " [LAYER]: "
            ++ pLayerPrefix ++ " [MESSAGE]: "), endl.
    now rewrite !string_app_assoc.
Qed.

(** ** The words of a program binary *)

Lemma words_of_bytes_app (e : Endianness) (k : nat) (a b : list byte) :
  List.length a = (4 * k)%nat ->
  words_of_bytes e (a ++ b) = (words_of_bytes e a ++ words_of_bytes e b)%list.
Proof.
  revert a. induction k as [|k IH]; intros a Hlen.
  - destruct a; [reflexivity | discriminate].
  - destruct a as [|b0 [|b1 [|b2 [|b3 rest]]]]; simpl in Hlen; try lia.
    cbn [app words_of_bytes]. rewrite IH by lia. reflexivity.
Qed.

Lemma words_of_zero_bytes (e : Endianness) (k : nat) :
  words_of_bytes e (repeat x00 (4 * k)) = repeat 0 k.
Proof.
  induction k as [|k IH]; [reflexivity|].
  replace (4 * S k)%nat with (4 + 4 * k)%nat by lia.
  cbn [repeat Nat.add words_of_bytes]. rewrite IH.
  destruct e; reflexivity.
Qed.

(** X3.  For a file whose length is a multiple of four, 4k bytes, the buffer
    that [readFile] returns begins with the k words of the file, in the byte
    order of the host, and all its other elements, 3k of them, are zero; the
    storage of those first k words is the file. *)
Theorem readFile_words (host : Host) (filename : string) (contents : list byte)
    (k : nat) (t : Trace) :
  host_files host filename = Some contents ->
  List.length contents = (4 * k)%nat ->
  exists buffer,
    readFile host filename t = (Ret buffer, t) /\
    firstn k buffer = words_of_bytes (host_endianness host) contents /\
    skipn k buffer = repeat 0 (3 * k) /\
    storage_bytes (host_endianness host) (firstn k buffer) = contents.
Proof.
  intros Hopen Hlen. eexists. split; [exact (readFile_opened _ _ _ _ Hopen)|].
  destruct (words_of_bytes_storage (host_endianness host) k contents Hlen)
    as [Hwords Hbytes].
  rewrite (words_of_bytes_app _ k) by exact Hlen.
  replace (3 * List.length contents)%nat with (4 * (3 * k))%nat by lia.
  rewrite words_of_zero_bytes.
  rewrite firstn_app, skipn_app, Hwords, Nat.sub_diag.
  rewrite firstn_all2, skipn_all2 by lia.
  cbn [firstn skipn]. rewrite app_nil_r. auto.
Qed.

Lemma readFile_words_witness :
  exists buffer,
    readFile sample_host "HLSLComputeShader.comp.spv" [] = (Ret buffer, []) /\
    firstn 2 buffer = words_of_bytes (host_endianness sample_host) sample_file /\
    skipn 2 buffer = repeat 0 (3 * 2) /\
    storage_bytes (host_endianness sample_host) (firstn 2 buffer) = sample_file.
Proof.
  apply (readFile_words sample_host "HLSLComputeShader.comp.spv" sample_file 2 []);
    reflexivity.
Defined.

(** ** What the selection looks at *)

Lemma scan_families_low_bits (test : Z -> bool)
    (families families' : list VkQueueFamilyProperties) (i : Z) :
  (forall p q, same_low_bits p q ->
     test (maskedFlags (queueFlags p)) = test (maskedFlags (queueFlags q))) ->
  Forall2 same_low_bits families families' ->
  scan_families test i families = scan_families test i families'.
Proof.
  intros Htest H. revert i. induction H as [|p q ps qs Hpq _ IH]; intros i; simpl.
  - reflexivity.
  - rewrite (Htest p q Hpq), IH. reflexivity.
Qed.

Lemma compute_only_low_bits (p q : VkQueueFamilyProperties) :
  same_low_bits p q ->
  compute_only (maskedFlags (queueFlags p)) = compute_only (maskedFlags (queueFlags q)).
Proof.
  intros [H0 H1]. apply eq_true_iff_eq. rewrite !compute_only_spec.
  unfold tier1, exposes_compute, exposes_graphics. rewrite H0, H1. tauto.
Qed.

Lemma any_compute_low_bits (p q : VkQueueFamilyProperties) :
  same_low_bits p q ->
  any_compute (maskedFlags (queueFlags p)) = any_compute (maskedFlags (queueFlags q)).
Proof.
  intros [H0 H1]. apply eq_true_iff_eq. rewrite !any_compute_spec.
  unfold tier2, exposes_compute. rewrite H1. tauto.
Qed.

(** X4.  The selection reads nothing but the GRAPHICS and COMPUTE bits: two
    devices whose families agree, index by index, on these two bits get the
    same result and the same index, whatever their other flag bits and
    their queue counts are. *)
Theorem GetBestComputeQueue_reads_two_bits (drv drv' : Driver) (host : Host)
    (physicalDevice physicalDevice' : Handle) (queueFamilyIndex : Z) (t t' : Trace) :
  Forall2 same_low_bits (drv_queue_families drv physicalDevice)
                        (drv_queue_families drv' physicalDevice') ->
  fst (GetBestComputeQueue drv host physicalDevice queueFamilyIndex t)
  = fst (GetBestComputeQueue drv' host physicalDevice' queueFamilyIndex t').
Proof.
  intros H. unfold GetBestComputeQueue, bind, emit, ret.
  rewrite <- (Forall2_length H).
  destruct (host_malloca host _); cbn [negb fst]; [|reflexivity].
  rewrite <- (scan_families_low_bits compute_only _ _ 0 compute_only_low_bits H).
  rewrite <- (scan_families_low_bits any_compute _ _ 0 any_compute_low_bits H).
  destruct (scan_families compute_only 0 _); [reflexivity|].
  destruct (scan_families any_compute 0 _); reflexivity.
Qed.

Lemma GetBestComputeQueue_reads_two_bits_witness :
  fst (GetBestComputeQueue (willing_driver [ family 1; family 3; family 2 ])
         sample_host 4096 0 [])
  = fst (GetBestComputeQueue
           (willing_driver [ {| queueFlags := 13; queueCount := 16 |};
                             {| queueFlags := 47; queueCount := 0 |};
                             {| queueFlags := 14; queueCount := 0 |} ])
           sample_host 7 0 [ vkDestroyDevice 1 ]).
Proof.
  apply (GetBestComputeQueue_reads_two_bits
           (willing_driver [ family 1; family 3; family 2 ])
           (willing_driver [ {| queueFlags := 13; queueCount := 16 |};
                             {| queueFlags := 47; queueCount := 0 |};
                             {| queueFlags := 14; queueCount := 0 |} ])
           sample_host 4096 7 0 [] [ vkDestroyDevice 1 ]).
  repeat constructor.
Defined.

(** ** Verification and larger installations *)

Lemma layerFound_in_member (name x : string) (available : list string) :
  In x available -> strcmp name x = 0 -> layerFound_in name available = true.
Proof.
  intros Hin Hx. induction available as [|a available IH]; simpl.
  - destruct Hin.
  - destruct (strcmp name a =? 0) eqn:Ha; [reflexivity|].
    destruct Hin as [-> | Hin]; [|auto].
    rewrite Hx in Ha. discriminate.
Qed.

Lemma layerFound_in_incl (name : string) (available available' : list string) :
  incl available available' ->
  layerFound_in name available = true -> layerFound_in name available' = true.
Proof.
  intros Hincl. induction available as [|a available IH]; simpl; [discriminate|].
  destruct (Z.eqb_spec (strcmp name a) 0) as [Ha | _].
  - intros _. apply (layerFound_in_member name a); [apply Hincl; now left | exact Ha].
  - apply IH. intros x Hx. apply Hincl. now right.
Qed.

Lemma all_required_found_incl (required available available' : list string) :
  incl available available' ->
  all_required_found required available = true ->
  all_required_found required available' = true.
Proof.
  intros Hincl. induction required as [|name required IH]; simpl; [reflexivity|].
  destruct (layerFound_in name available) eqn:Hf; [|discriminate].
  rewrite (layerFound_in_incl _ _ _ Hincl Hf). exact IH.
Qed.

(** X5.  Verification is monotone in what is installed: when a driver
    offers every layer and every extension that another one offers (and
    maybe more, in any order, with repetitions), every request that the
    smaller installation passes is passed by the larger one as well. *)
Theorem verification_is_monotone (drv drv' : Driver)
    (layers extensions : list string) (t t' : Trace) :
  incl (drv_layers drv) (drv_layers drv') ->
  incl (drv_extensions drv) (drv_extensions drv') ->
  (verdict (VerifyInstanceLayers drv layers t) = Some true ->
   verdict (VerifyInstanceLayers drv' layers t') = Some true) /\
  (verdict (VerifyInstanceExtensions drv extensions t) = Some true ->
   verdict (VerifyInstanceExtensions drv' extensions t') = Some true).
Proof.
  intros Hl He.
  rewrite !VerifyInstanceLayers_verdict, !VerifyInstanceExtensions_verdict.
  split; intros H; injection H as H; f_equal;
    eapply all_required_found_incl; eauto.
Qed.

Lemma verification_is_monotone_witness :
  (verdict (VerifyInstanceLayers loader_without_destroy requiredInstanceLayers [])
     = Some true ->
   verdict (VerifyInstanceLayers (willing_driver []) requiredInstanceLayers [])
     = Some true) /\
  (verdict (VerifyInstanceExtensions loader_without_destroy requiredInstanceExtensions [])
     = Some true ->
   verdict (VerifyInstanceExtensions (willing_driver []) requiredInstanceExtensions [])
     = Some true).
Proof.
  apply (verification_is_monotone loader_without_destroy (willing_driver [])
           requiredInstanceLayers requiredInstanceExtensions [] []).
  - intros x Hx. exact Hx.
  - intros x [<- | [<- | []]]; simpl; auto.
Defined.

(** ** The order of a pipeline run *)

Lemma cons_eq_inv {A} (a b : A) (l l' : list A) :
  a :: l = b :: l' -> a = b /\ l = l'.
Proof. intros H. injection H as -> ->. auto. Qed.

(** Case analysis on the place of an element in an explicit list: [H] is
    [l = before ++ c :: after] with [l] written out; [tac] runs once for
    each place, with [before] and [after] written out. *)
Ltac locate H tac :=
  lazymatch type of H with
  | [] = (?b ++ _ :: _)%list => destruct b; discriminate H
  | (_ :: _) = (?b ++ _ :: _)%list =>
      let x := fresh "x" in
      let Hx := fresh "Hx" in
      let Hrest := fresh "Hrest" in
      destruct b as [|x b]; cbn [app] in H;
      apply cons_eq_inv in H; destruct H as [Hx Hrest];
      [ tac Hx | subst x; locate Hrest tac ]
  end.

Ltac run_call E r h :=
  rewrite bind_call in E;
  try set (r := drv_result _ _ _) in E; try set (h := drv_handle _ _ _) in E;
  cbv beta iota in E.

Ltac run_pass E r :=
  let Hr := fresh "Hr" in
  destruct (Z.eqb_spec r VK_SUCCESS) as [Hr | Hr]; cbn [negb] in E;
  [ | unfold ret in E; injection E as E _; contradiction ].

(** A run that succeeds, with the handles it used: every checked call
    succeeded, and each handle is the one the driver handed back at the call
    that created or fetched it. *)
Lemma RunComputeShader_success_trace (drv : Driver) (device : Handle)
    (queueFamilyIndex : Z) (shaderCode : list Z) (t t' : Trace) :
  RunComputeShader drv device queueFamilyIndex shaderCode t = (Ret VK_SUCCESS, t') ->
  exists m l p cp cb qu,
    let calls :=
      (pipeline_script device queueFamilyIndex shaderCode m l p cp cb qu
       ++ pipeline_teardown device m l p cp cb)%list in
    t' = (t ++ calls)%list /\
    checks_passed drv t calls /\
    m = handed_back drv t calls 0 /\
    l = handed_back drv t calls 1 /\
    p = handed_back drv t calls 2 /\
    cp = handed_back drv t calls 3 /\
    cb = handed_back drv t calls 4 /\
    qu = handed_back drv t calls 9.
Proof.
  intros E. unfold RunComputeShader in E.
  run_call E r1 m. run_pass E r1.
  run_call E r2 l. run_pass E r2.
  run_call E r3 p. run_pass E r3.
  run_call E r4 cp. run_pass E r4.
  run_call E r5 cb. run_pass E r5.
  run_call E r6 h6. run_pass E r6.
  rewrite !bind_emit in E.
  run_call E r7 h7. run_pass E r7.
  run_call E r8 qu.
  run_call E r9 h9. run_pass E r9.
  run_call E r10 h10. run_pass E r10.
  rewrite !bind_emit in E. unfold ret in E. injection E as _ <-.
  exists m, l, p, cp, cb, qu. cbv zeta.
  cbv [pipeline_script pipeline_teardown]. cbn [app].
  split; [rewrite <- ?app_assoc; reflexivity|].
  split.
  - cbn [checks_passed returns_result].
    repeat split; intros Hc; first [discriminate Hc | assumption].
  - unfold handed_back. cbn [firstn nth]. rewrite ?app_nil_r.
    repeat split;
      subst m l p cp cb qu; rewrite <- ?app_assoc; reflexivity.
Qed.

(** X6.  A pipeline run releases nothing and submits nothing too early.
    Every release call comes after these three consecutive calls:
    vkGetDeviceQueue for the run's device and queue family with queue index
    0, vkQueueSubmit on the queue that this call handed back, and
    vkQueueWaitIdle on that same queue, the last two having returned
    VK_SUCCESS.  And the submission comes after a vkEndCommandBuffer, on the
    submitted command buffer, that returned VK_SUCCESS and was itself
    preceded by the dispatch recorded into that buffer. *)
Theorem RunComputeShader_waits_before_release (drv : Driver) (device : Handle)
    (queueFamilyIndex : Z) (shaderCode : list Z) (t : Trace) :
  exists result calls,
    RunComputeShader drv device queueFamilyIndex shaderCode t
      = (Ret result, (t ++ calls)%list) /\
    (forall before c after,
       calls = (before ++ c :: after)%list ->
       is_pipeline_teardown c = true ->
       exists earlier queue commandBuffer later,
         let fetch := vkGetDeviceQueue device queueFamilyIndex 0 in
         let submit := vkQueueSubmit queue commandBuffer in
         let wait := vkQueueWaitIdle queue in
         before = (earlier ++ fetch :: submit :: wait :: later)%list /\
         queue = drv_handle drv (t ++ earlier)%list fetch /\
         drv_result drv (t ++ earlier ++ [fetch])%list submit = VK_SUCCESS /\
         drv_result drv (t ++ earlier ++ [fetch; submit])%list wait = VK_SUCCESS) /\
    (forall before queue commandBuffer after,
       calls = (before ++ vkQueueSubmit queue commandBuffer :: after)%list ->
       exists earlier later,
         before = (earlier ++ vkEndCommandBuffer commandBuffer :: later)%list /\
         drv_result drv (t ++ earlier)%list (vkEndCommandBuffer commandBuffer)
           = VK_SUCCESS /\
         In (vkCmdDispatch commandBuffer 512 1 1) earlier).
Proof.
  destruct (RunComputeShader_runs drv device queueFamilyIndex shaderCode t)
    as (result & t' & m' & l' & p' & cp' & cb' & qu' & Hrun & Hshape).
  cbv zeta in Hshape.
  destruct (Z.eq_dec result VK_SUCCESS) as [-> | Hbad].
  - clear Hshape m' l' p' cp' cb' qu'.
    destruct (RunComputeShader_success_trace _ _ _ _ _ _ Hrun)
      as (m & l & p & cp & cb & qu & Ht' & Hall & _ & _ & _ & _ & _ & Hqu).
    cbv zeta in Ht', Hall, Hqu. subst t'.
    exists VK_SUCCESS. eexists. split; [exact Hrun|].
    unfold handed_back in Hqu.
    cbv [pipeline_script pipeline_teardown] in Hall, Hqu |- *.
    cbn [app firstn nth] in Hall, Hqu |- *.
    cbn [checks_passed returns_result] in Hall.
    rewrite <- ?app_assoc in Hall. cbn [app] in Hall. split.
    + intros before c after H Hc.
      locate H ltac:(fun Hx => subst c; try discriminate Hc);
        match goal with
        | |- exists _ _ _ _, ?b = _ /\ _ =>
            exists (firstn 9 b), qu, cb, (skipn 12 b)
        end; cbv zeta; cbn [firstn skipn app];
        (split; [reflexivity|]); (split; [exact Hqu|]);
        decompose [and] Hall; auto.
    + intros before queue commandBuffer after H.
      locate H ltac:(fun Hx => try discriminate Hx; injection Hx as <- <-);
        match goal with
        | |- exists _ _, ?b = _ /\ _ =>
            exists (firstn 8 b), (skipn 9 b)
        end; (split; [reflexivity|]);
        (split; [cbn [firstn]; decompose [and] Hall; auto | simpl; tauto]).
  - destruct Hshape as [(Hok & _)
                       | (_ & before' & c' & after' & Hsplit & -> & Hr & Hc' & Hall)];
      [contradiction|].
    rename m' into m, l' into l, p' into p, cp' into cp, cb' into cb, qu' into qu.
    exists result. eexists. split; [exact Hrun|]. split.
    + intros before c after H Hc. exfalso.
      pose proof (pipeline_script_releases_nothing _ _ _ _ _ _ _ _ _ _ _ _ Hsplit) as Hnone.
      rewrite H, filter_app in Hnone. simpl in Hnone. rewrite Hc in Hnone.
      apply app_eq_nil in Hnone as [_ Hnone]. discriminate Hnone.
    + intros before queue commandBuffer after H.
      cbv [pipeline_script] in Hsplit.
      locate Hsplit ltac:(fun Hx => subst c'; try discriminate Hc');
        cbn [app] in H;
        cbn [checks_passed returns_result] in Hall;
        rewrite <- ?app_assoc in Hall; cbn [app] in Hall;
        locate H ltac:(fun Hx => try discriminate Hx; injection Hx as <- <-);
        match goal with
        | |- exists _ _, ?b = _ /\ _ =>
            exists (firstn 8 b), (skipn 9 b)
        end; (split; [reflexivity|]);
        (split; [cbn [firstn]; decompose [and] Hall; auto | simpl; tauto]).
Qed.

(** ** Where the handles of a pipeline run come from *)

Ltac run_check E r Hsuccess :=
  let Hr := fresh "Hr" in
  destruct (Z.eqb_spec r VK_SUCCESS) as [Hr | Hr]; cbn [negb] in E;
  [ | unfold ret in E; injection E as <- <-; simpl in Hsuccess;
      injection Hsuccess as Hsuccess; contradiction ].

(** X7.  In a run that succeeds no handle is invented or mixed up: the
    shader module, the layout, the pipeline, the command pool and the
    command buffer that the later calls and the release calls use are the
    handles the driver handed back at calls number 0, 1, 2, 3 and 4 of the
    run, and the queue is the one handed back by vkGetDeviceQueue, call
    number 9, for the given family and queue index 0. *)
Theorem RunComputeShader_handle_flow (drv : Driver) (device : Handle)
    (queueFamilyIndex : Z) (shaderCode : list Z) (t : Trace) :
  fst (RunComputeShader drv device queueFamilyIndex shaderCode t) = Ret VK_SUCCESS ->
  exists calls,
    snd (RunComputeShader drv device queueFamilyIndex shaderCode t) = (t ++ calls)%list /\
    calls
    = (pipeline_script device queueFamilyIndex shaderCode
         (handed_back drv t calls 0) (handed_back drv t calls 1)
         (handed_back drv t calls 2) (handed_back drv t calls 3)
         (handed_back drv t calls 4) (handed_back drv t calls 9)
       ++ pipeline_teardown device
            (handed_back drv t calls 0) (handed_back drv t calls 1)
            (handed_back drv t calls 2) (handed_back drv t calls 3)
            (handed_back drv t calls 4))%list.
Proof.
  intros Hsuccess.
  destruct (RunComputeShader drv device queueFamilyIndex shaderCode t) as [out t'] eqn:E.
  unfold RunComputeShader in E.
  run_call E r1 m. run_check E r1 Hsuccess.
  run_call E r2 l. run_check E r2 Hsuccess.
  run_call E r3 p. run_check E r3 Hsuccess.
  run_call E r4 cp. run_check E r4 Hsuccess.
  run_call E r5 cb. run_check E r5 Hsuccess.
  run_call E r6 h6. run_check E r6 Hsuccess.
  rewrite !bind_emit in E.
  run_call E r7 h7. run_check E r7 Hsuccess.
  run_call E r8 qu.
  run_call E r9 h9. run_check E r9 Hsuccess.
  run_call E r10 h10. run_check E r10 Hsuccess.
  rewrite !bind_emit in E. unfold ret in E. injection E as <- <-.
  exists (pipeline_script device queueFamilyIndex shaderCode m l p cp cb qu
          ++ pipeline_teardown device m l p cp cb)%list.
  cbv [pipeline_script pipeline_teardown snd]. cbn [app]. split.
  - rewrite <- ?app_assoc. reflexivity.
  - unfold handed_back. cbn [firstn nth]. rewrite ?app_nil_r.
    subst m l p cp cb qu. rewrite <- ?app_assoc. reflexivity.
Qed.

Lemma RunComputeShader_handle_flow_witness :
  exists calls,
    snd (RunComputeShader (willing_driver []) 14 0 [ 119734787; 65536 ] [ vkCreateDevice 4096 0 ])
    = ([ vkCreateDevice 4096 0 ] ++ calls)%list /\
    calls
    = (pipeline_script 14 0 [ 119734787; 65536 ]
         (handed_back (willing_driver []) [ vkCreateDevice 4096 0 ] calls 0)
         (handed_back (willing_driver []) [ vkCreateDevice 4096 0 ] calls 1)
         (handed_back (willing_driver []) [ vkCreateDevice 4096 0 ] calls 2)
         (handed_back (willing_driver []) [ vkCreateDevice 4096 0 ] calls 3)
         (handed_back (willing_driver []) [ vkCreateDevice 4096 0 ] calls 4)
         (handed_back (willing_driver []) [ vkCreateDevice 4096 0 ] calls 9)
       ++ pipeline_teardown 14
            (handed_back (willing_driver []) [ vkCreateDevice 4096 0 ] calls 0)
            (handed_back (willing_driver []) [ vkCreateDevice 4096 0 ] calls 1)
            (handed_back (willing_driver []) [ vkCreateDevice 4096 0 ] calls 2)
            (handed_back (willing_driver []) [ vkCreateDevice 4096 0 ] calls 3)
            (handed_back (willing_driver []) [ vkCreateDevice 4096 0 ] calls 4))%list.
Proof.
  apply (RunComputeShader_handle_flow (willing_driver []) 14 0
           [ 119734787; 65536 ] [ vkCreateDevice 4096 0 ]).
  reflexivity.
Defined.

(** ** Registering a sink and unregistering it again *)

(** X8.  The messenger round trip.  With a non-null instance and both entry
    points resolved, creating the messenger and then destroying what was
    written into the messenger variable makes four calls: the two lookups by
    name, the creation, which subscribes to all four severities and all
    three message types, and the destruction of exactly the handle that the
    creation handed back. *)
Theorem messenger_round_trip (drv : Driver) (instance : Handle) (t : Trace) :
  let resolveCreate := vkGetInstanceProcAddr instance "vkCreateDebugUtilsMessengerEXT" in
  let create := PFN_vkCreateDebugUtilsMessengerEXT instance 4369 7 false in
  let messenger := drv_handle drv (t ++ [resolveCreate])%list create in
  let resolveDestroy := vkGetInstanceProcAddr instance "vkDestroyDebugUtilsMessengerEXT" in
  instance <> nullptr ->
  drv_handle drv t resolveCreate <> nullptr ->
  messenger <> nullptr ->
  drv_handle drv (t ++ [resolveCreate; create])%list resolveDestroy <> nullptr ->
  bind (CreateDebugMessenger drv instance (Some nullptr))
       (fun created => DestroyDebugMessenger drv instance (pointee (snd created) nullptr)) t
  = (Ret tt,
     (t ++ [ resolveCreate; create; resolveDestroy;
             PFN_vkDestroyDebugUtilsMessengerEXT instance messenger ])%list) /\
  Forall (fun bit => Z.land 4369 bit = bit)
    [ VK_DEBUG_UTILS_MESSAGE_SEVERITY_VERBOSE_BIT_EXT;
      VK_DEBUG_UTILS_MESSAGE_SEVERITY_INFO_BIT_EXT;
      VK_DEBUG_UTILS_MESSAGE_SEVERITY_WARNING_BIT_EXT;
      VK_DEBUG_UTILS_MESSAGE_SEVERITY_ERROR_BIT_EXT ] /\
  Forall (fun bit => Z.land 7 bit = bit)
    [ VK_DEBUG_UTILS_MESSAGE_TYPE_GENERAL_BIT_EXT;
      VK_DEBUG_UTILS_MESSAGE_TYPE_VALIDATION_BIT_EXT;
      VK_DEBUG_UTILS_MESSAGE_TYPE_PERFORMANCE_BIT_EXT ].
Proof.
  intros resolveCreate create messenger resolveDestroy Hi Hc Hm Hd.
  split; [|split; repeat constructor].
  unfold bind at 1. unfold CreateDebugMessenger.
  destruct (Z.eqb_spec nullptr instance) as [Heq | _]; [congruence|].
  cbn [orb is_null]. rewrite bind_call. fold resolveCreate. cbv beta iota.
  unfold call_through.
  destruct (Z.eqb_spec (drv_handle drv t resolveCreate) nullptr) as [Heq | _];
    [contradiction|].
  cbn [negb]. rewrite bind_call. cbv beta iota. unfold ret.
  change (PFN_vkCreateDebugUtilsMessengerEXT instance _ _ _) with create.
  change (drv_handle drv (t ++ [resolveCreate])%list create) with messenger.
  cbn [snd store pointee]. unfold DestroyDebugMessenger.
  destruct (Z.eqb_spec nullptr instance) as [Heq | _]; [congruence|].
  destruct (Z.eqb_spec nullptr messenger) as [Heq | _]; [congruence|].
  cbn [orb]. rewrite bind_call. cbv beta iota. unfold call_through.
  rewrite <- app_assoc in *. cbn [app] in *. fold resolveDestroy.
  destruct (Z.eqb_spec (drv_handle drv (t ++ [resolveCreate; create])%list
                          resolveDestroy) nullptr) as [Heq | _];
    [contradiction|].
  rewrite bind_call. unfold ret. rewrite <- !app_assoc. reflexivity.
Qed.

Lemma messenger_round_trip_witness :
  bind (CreateDebugMessenger (willing_driver []) 5 (Some nullptr))
       (fun created =>
          DestroyDebugMessenger (willing_driver []) 5 (pointee (snd created) nullptr)) []
  = (Ret tt,
     [ vkGetInstanceProcAddr 5 "vkCreateDebugUtilsMessengerEXT";
       PFN_vkCreateDebugUtilsMessengerEXT 5 4369 7 false;
       vkGetInstanceProcAddr 5 "vkDestroyDebugUtilsMessengerEXT";
       PFN_vkDestroyDebugUtilsMessengerEXT 5 2 ]).
Proof.
  apply (messenger_round_trip (willing_driver []) 5 []); discriminate.
Defined.

(** X9.  The report-callback round trip.  With a non-null instance and both
    entry points resolved, creating the callback and then destroying what
    was written into the callback variable makes four calls: the two lookups
    by name, the creation, which subscribes to all five report flags, and
    the destruction of exactly the handle that the creation handed back. *)
Theorem report_callback_round_trip (drv : Driver) (instance : Handle) (t : Trace) :
  let resolveCreate := vkGetInstanceProcAddr instance "vkCreateDebugReportCallbackEXT" in
  let create := PFN_vkCreateDebugReportCallbackEXT instance 31 false in
  let callback := drv_handle drv (t ++ [resolveCreate])%list create in
  let resolveDestroy := vkGetInstanceProcAddr instance "vkDestroyDebugReportCallbackEXT" in
  instance <> nullptr ->
  drv_handle drv t resolveCreate <> nullptr ->
  callback <> nullptr ->
  drv_handle drv (t ++ [resolveCreate; create])%list resolveDestroy <> nullptr ->
  bind (CreateReportCallback drv instance (Some nullptr))
       (fun created => DestroyReportCallback drv instance (pointee (snd created) nullptr)) t
  = (Ret tt,
     (t ++ [ resolveCreate; create; resolveDestroy;
             PFN_vkDestroyDebugReportCallbackEXT instance callback ])%list) /\
  Forall (fun bit => Z.land 31 bit = bit)
    [ VK_DEBUG_REPORT_INFORMATION_BIT_EXT;
      VK_DEBUG_REPORT_WARNING_BIT_EXT;
      VK_DEBUG_REPORT_PERFORMANCE_WARNING_BIT_EXT;
      VK_DEBUG_REPORT_ERROR_BIT_EXT;
      VK_DEBUG_REPORT_DEBUG_BIT_EXT ].
Proof.
  intros resolveCreate create callback resolveDestroy Hi Hc Hm Hd.
  split; [|repeat constructor].
  unfold bind at 1. unfold CreateReportCallback.
  rewrite bind_call. fold resolveCreate. cbv beta iota.
  unfold call_through.
  destruct (Z.eqb_spec (drv_handle drv t resolveCreate) nullptr) as [Heq | _];
    [contradiction|].
  cbn [negb]. rewrite bind_call. cbv beta iota. unfold ret.
  change (PFN_vkCreateDebugReportCallbackEXT instance _ _) with create.
  change (drv_handle drv (t ++ [resolveCreate])%list create) with callback.
  cbn [snd store pointee]. unfold DestroyReportCallback.
  destruct (Z.eqb_spec nullptr instance) as [Heq | _]; [congruence|].
  destruct (Z.eqb_spec nullptr callback) as [Heq | _]; [congruence|].
  cbn [orb]. rewrite bind_call. cbv beta iota. unfold call_through.
  rewrite <- app_assoc in *. cbn [app] in *. fold resolveDestroy.
  destruct (Z.eqb_spec (drv_handle drv (t ++ [resolveCreate; create])%list
                          resolveDestroy) nullptr) as [Heq | _];
    [contradiction|].
  rewrite bind_call. unfold ret. rewrite <- !app_assoc. reflexivity.
Qed.

Lemma report_callback_round_trip_witness :
  bind (CreateReportCallback (willing_driver []) 5 (Some nullptr))
       (fun created =>
          DestroyReportCallback (willing_driver []) 5 (pointee (snd created) nullptr)) []
  = (Ret tt,
     [ vkGetInstanceProcAddr 5 "vkCreateDebugReportCallbackEXT";
       PFN_vkCreateDebugReportCallbackEXT 5 31 false;
       vkGetInstanceProcAddr 5 "vkDestroyDebugReportCallbackEXT";
       PFN_vkDestroyDebugReportCallbackEXT 5 2 ]).
Proof.
  apply (report_callback_round_trip (willing_driver []) 5 []); discriminate.
Defined.

(** ** Rules for postconditions *)

Lemma returns_at_of {A} (m : M A) (R : A -> list Call -> Prop) (t : Trace) :
  returns m R -> returns_at m t R.
Proof. intros H. exact (H t). Qed.

Lemma post_at_of {A} (m : M A) (Q : Outcome A -> list Call -> Prop) (t : Trace) :
  run_post m Q -> post_at m t Q.
Proof. intros H. exact (H t). Qed.

Lemma pa_ret {A} (a : A) (t : Trace) (Q : Outcome A -> list Call -> Prop) :
  Q (Ret a) [] -> post_at (ret a) t Q.
Proof.
  intros H. exists (Ret a), []. rewrite app_nil_r. split; [reflexivity | exact H].
Qed.

Lemma pa_crash {A} (f : Fault) (t : Trace) (Q : Outcome A -> list Call -> Prop) :
  Q (Crash f) [] -> post_at (crash f) t Q.
Proof.
  intros H. exists (Crash f), []. rewrite app_nil_r. split; [reflexivity | exact H].
Qed.

Lemma pa_bind {A B} (m : M A) (k : A -> M B) (t : Trace)
    (Q1 : Outcome A -> list Call -> Prop) (Q : Outcome B -> list Call -> Prop) :
  post_at m t Q1 ->
  (forall a calls1, Q1 (Ret a) calls1 ->
     post_at (k a) (t ++ calls1)%list
       (fun out calls2 => Q out (calls1 ++ calls2)%list)) ->
  (forall code calls1, Q1 (Exit code) calls1 -> Q (Exit code) calls1) ->
  (forall f calls1, Q1 (Crash f) calls1 -> Q (Crash f) calls1) ->
  post_at (bind m k) t Q.
Proof.
  intros Hm Hk Hexit Hcrash. unfold post_at, bind.
  destruct Hm as (out & calls1 & -> & H1).
  destruct out as [a | code | f].
  - destruct (Hk a calls1 H1) as (out' & calls2 & -> & H2).
    exists out', (calls1 ++ calls2)%list. rewrite app_assoc. auto.
  - exists (Exit code), calls1. auto.
  - exists (Crash f), calls1. auto.
Qed.

Lemma pa_bind_returns {A B} (m : M A) (k : A -> M B) (t : Trace)
    (R : A -> list Call -> Prop) (Q : Outcome B -> list Call -> Prop) :
  returns_at m t R ->
  (forall a calls1, R a calls1 ->
     post_at (k a) (t ++ calls1)%list
       (fun out calls2 => Q out (calls1 ++ calls2)%list)) ->
  post_at (bind m k) t Q.
Proof.
  intros Hm Hk. eapply pa_bind; [exact Hm | | |].
  - intros a calls1 (a' & Ha & HR). injection Ha as <-. auto.
  - intros code calls1 (a' & Ha & _). discriminate Ha.
  - intros f calls1 (a' & Ha & _). discriminate Ha.
Qed.

Lemma pa_bind_emit {B} (c : Call) (k : unit -> M B) (t : Trace)
    (Q : Outcome B -> list Call -> Prop) :
  post_at (k tt) (t ++ [c])%list (fun out calls => Q out (c :: calls)) ->
  post_at (bind (emit c) k) t Q.
Proof.
  intros H. unfold post_at. rewrite bind_emit.
  destruct H as (out & calls & -> & HQ).
  exists out, (c :: calls). rewrite <- app_assoc. auto.
Qed.

Lemma pa_EXIT {B} (line : Z) (r : VkResult) (rest : M B) (t : Trace)
    (Q : Outcome B -> list Call -> Prop) :
  (r = VK_SUCCESS -> post_at rest t Q) ->
  (r <> VK_SUCCESS -> Q (Exit EXIT_FAILURE) [fprintf_stderr_Failure_at line]) ->
  post_at (bind (EXIT_ON_BAD_RESULT line r) (fun _ => rest)) t Q.
Proof.
  intros Hgood Hbad. unfold EXIT_ON_BAD_RESULT.
  destruct (Z.eqb_spec VK_SUCCESS r) as [Heq | Hne]; cbn [negb].
  - exact (Hgood (eq_sym Heq)).
  - unfold post_at. exists (Exit EXIT_FAILURE), [fprintf_stderr_Failure_at line].
    split; [reflexivity|]. apply Hbad. congruence.
Qed.

Lemma pa_readFile {B} (host : Host) (filename : string) (k : list Z -> M B)
    (t : Trace) (Q : Outcome B -> list Call -> Prop) :
  (host_files host filename = None ->
   Q (Crash (UncaughtException "Failed to open file!")) []) ->
  (forall code, readFile host filename [] = (Ret code, []) -> post_at (k code) t Q) ->
  post_at (bind (readFile host filename) k) t Q.
Proof.
  intros Hnone Hsome. unfold post_at, bind.
  destruct (host_files host filename) as [contents|] eqn:Hopen.
  - rewrite (readFile_opened _ _ _ t Hopen).
    apply Hsome. exact (readFile_opened _ _ _ [] Hopen).
  - unfold readFile. rewrite Hopen.
    exists (Crash (UncaughtException "Failed to open file!")), [].
    rewrite app_nil_r. split; [reflexivity | auto].
Qed.

Lemma pa_readFile_missing {B} (host : Host) (filename : string) (k : list Z -> M B)
    (t : Trace) (Q : Outcome B -> list Call -> Prop) :
  host_files host filename = None ->
  Q (Crash (UncaughtException "Failed to open file!")) [] ->
  post_at (bind (readFile host filename) k) t Q.
Proof.
  intros Hnone HQ. apply pa_readFile; [auto|].
  intros code Hread. unfold readFile in Hread. rewrite Hnone in Hread.
  discriminate Hread.
Qed.

(** ** What each function of the harness calls *)

Section Returns.

Variable drv : Driver.
Variable host : Host.

(** A call hands back what the driver answers after the trace so far. *)
Lemma call_at (c : Call) (t : Trace) :
  returns_at (call drv c) t
    (fun answer calls =>
       answer = (drv_result drv t c, drv_handle drv t c) /\ calls = [c]).
Proof.
  exists (Ret (drv_result drv t c, drv_handle drv t c)), [c].
  split; [reflexivity|]. eexists. split; [reflexivity|]. auto.
Qed.

Lemma VerifyInstanceLayers_returns (required : list string) :
  returns (VerifyInstanceLayers drv required)
    (fun present calls =>
       present = all_required_found required (drv_layers drv) /\
       calls = if (List.length required =? 0)%nat then []
               else [ vkEnumerateInstanceLayerProperties true;
                      vkEnumerateInstanceLayerProperties false ]).
Proof.
  intros t. unfold VerifyInstanceLayers.
  destruct required as [|name required].
  - exists (Ret true), []. rewrite app_nil_r. split; [reflexivity|]. eauto.
  - eexists _, [_; _]. unfold bind, emit, ret. cbn [Nat.eqb List.length].
    rewrite <- app_assoc. split; [reflexivity|]. eauto.
Qed.

Lemma VerifyInstanceExtensions_returns (required : list string) :
  returns (VerifyInstanceExtensions drv required)
    (fun present calls =>
       present = all_required_found required (drv_extensions drv) /\
       calls = if (List.length required =? 0)%nat then []
               else [ vkEnumerateInstanceExtensionProperties true;
                      vkEnumerateInstanceExtensionProperties false ]).
Proof.
  intros t. unfold VerifyInstanceExtensions.
  destruct required as [|name required].
  - exists (Ret true), []. rewrite app_nil_r. split; [reflexivity|]. eauto.
  - eexists _, [_; _]. unfold bind, emit, ret. cbn [Nat.eqb List.length].
    rewrite <- app_assoc. split; [reflexivity|]. eauto.
Qed.

(** The messenger variable holds what the creation entry point wrote. *)
Lemma CreateDebugMessenger_at (instance old : Handle) (t : Trace) :
  returns_at (CreateDebugMessenger drv instance (Some old)) t
    (fun created calls =>
       let resolve := vkGetInstanceProcAddr instance "vkCreateDebugUtilsMessengerEXT" in
       let create := PFN_vkCreateDebugUtilsMessengerEXT instance 4369 7 false in
       (fst created = VK_ERROR_UNKNOWN /\ calls = [])
       \/ (fst created = VK_ERROR_EXTENSION_NOT_PRESENT /\ calls = [resolve])
       \/ (instance <> nullptr /\
           calls = [resolve; create] /\
           exists messenger,
             snd created = Some messenger /\
             messenger = drv_handle drv (t ++ [resolve])%list create)).
Proof.
  unfold returns_at, post_at, CreateDebugMessenger.
  destruct (Z.eqb_spec nullptr instance) as [Heq | Hne]; cbn [orb is_null].
  - eexists _, []. rewrite app_nil_r. unfold ret. split; [reflexivity|].
    eexists. split; [reflexivity|]. left. auto.
  - rewrite bind_call. cbv beta iota. unfold call_through.
    destruct (drv_handle drv t _ =? nullptr); cbn [negb].
    + eexists _, [_]. unfold ret. split; [reflexivity|].
      eexists. split; [reflexivity|]. right. left. auto.
    + rewrite bind_call. unfold ret. eexists _, [_; _]. rewrite <- app_assoc.
      split; [reflexivity|]. eexists. split; [reflexivity|].
      right. right. split; [congruence|]. split; [reflexivity|].
      eexists. split; reflexivity.
Qed.

Lemma CreateReportCallback_at (instance old : Handle) (t : Trace) :
  returns_at (CreateReportCallback drv instance (Some old)) t
    (fun created calls =>
       let resolve := vkGetInstanceProcAddr instance "vkCreateDebugReportCallbackEXT" in
       let create := PFN_vkCreateDebugReportCallbackEXT instance 31 false in
       (fst created = VK_ERROR_EXTENSION_NOT_PRESENT /\ calls = [resolve])
       \/ (calls = [resolve; create] /\
           exists callback,
             snd created = Some callback /\
             callback = drv_handle drv (t ++ [resolve])%list create)).
Proof.
  unfold returns_at, post_at, CreateReportCallback.
  rewrite bind_call. cbv beta iota. unfold call_through.
  destruct (drv_handle drv t _ =? nullptr); cbn [negb].
  - eexists _, [_]. unfold ret. split; [reflexivity|].
    eexists. split; [reflexivity|]. left. auto.
  - rewrite bind_call. unfold ret. eexists _, [_; _]. rewrite <- app_assoc.
    split; [reflexivity|]. eexists. split; [reflexivity|]. right.
    split; [reflexivity|]. eexists. split; reflexivity.
Qed.

Lemma EnumerateDevices_returns (instance : Handle) (devices : option (list Handle))
    (device_count : Z) :
  returns (EnumerateDevices drv host instance devices device_count)
    (fun enumerated calls =>
       let found := drv_physical_devices drv instance in
       let allocated :=
         host_malloc host (sizeof_VkPhysicalDevice * Z.of_nat (List.length found)) in
       (fst (fst enumerated) <> VK_SUCCESS /\
        calls = [vkEnumeratePhysicalDevices instance true])
       \/ (snd (fst enumerated) = (if allocated then Some found else None) /\
           snd enumerated = Z.of_nat (List.length found) /\
           calls = [ vkEnumeratePhysicalDevices instance true;
                     vkEnumeratePhysicalDevices instance (negb allocated) ])).
Proof.
  intros t. unfold EnumerateDevices. rewrite bind_call. cbv beta iota.
  destruct (Z.eqb_spec VK_SUCCESS (drv_result drv t (vkEnumeratePhysicalDevices instance true)))
    as [Heq | Hne]; cbn [negb].
  - rewrite bind_call. cbv beta iota. unfold ret.
    destruct (host_malloc host _) eqn:Halloc; cbn [is_null store negb];
      (eexists _, [_; _]; rewrite <- app_assoc; split; [reflexivity|];
       eexists; split; [reflexivity|]; right; cbn [fst snd]; auto).
  - eexists _, [_]. unfold ret. split; [reflexivity|].
    eexists. split; [reflexivity|]. left. cbn [fst]. split; [congruence | reflexivity].
Qed.

(** The selection does not depend on the calls made before it. *)
Lemma GetBestComputeQueue_returns (physicalDevice : Handle) (queueFamilyIndex : Z) :
  returns (GetBestComputeQueue drv host physicalDevice queueFamilyIndex)
    (fun selected calls =>
       fst (GetBestComputeQueue drv host physicalDevice queueFamilyIndex [])
       = Ret selected /\
       ((fst selected = VK_ERROR_OUT_OF_DEVICE_MEMORY /\
         calls = [vkGetPhysicalDeviceQueueFamilyProperties physicalDevice true])
        \/ calls = [ vkGetPhysicalDeviceQueueFamilyProperties physicalDevice true;
                     vkGetPhysicalDeviceQueueFamilyProperties physicalDevice false ])).
Proof.
  intros t. unfold GetBestComputeQueue. rewrite !bind_emit.
  destruct (host_malloca host _); cbn [negb].
  - rewrite !bind_emit. unfold ret.
    destruct (scan_families compute_only 0 _);
      [|destruct (scan_families any_compute 0 _)];
      (eexists _, [_; _]; rewrite <- app_assoc; split; [reflexivity|];
       eexists; split; [reflexivity|]; split; [reflexivity|]; right; reflexivity).
  - unfold ret. eexists _, [_]. split; [reflexivity|].
    eexists. split; [reflexivity|]. split; [reflexivity|]. left. auto.
Qed.

Lemma RunComputeShader_returns (device : Handle) (queueFamilyIndex : Z)
    (shaderCode : list Z) :
  returns (RunComputeShader drv device queueFamilyIndex shaderCode)
    (fun result calls =>
       exists m l p cp cb qu,
         let script := pipeline_script device queueFamilyIndex shaderCode m l p cp cb qu in
         (result = VK_SUCCESS /\
          calls = (script ++ pipeline_teardown device m l p cp cb)%list)
         \/ (result <> VK_SUCCESS /\
             exists before c after,
               script = (before ++ c :: after)%list /\
               calls = (before ++ [c])%list)).
Proof.
  intros t.
  destruct (RunComputeShader_runs drv device queueFamilyIndex shaderCode t)
    as (result & t' & m & l & p & cp & cb & qu & Hrun & Hshape).
  cbv zeta in Hshape.
  destruct Hshape as [(Hok & -> & _)
                     | (Hbad & before & c & after & Hsplit & -> & _ & _ & _)].
  - eexists _, _. split; [exact Hrun|]. eexists. split; [reflexivity|].
    exists m, l, p, cp, cb, qu. left. auto.
  - eexists _, _. split; [exact Hrun|]. eexists. split; [reflexivity|].
    exists m, l, p, cp, cb, qu. right. split; [exact Hbad|].
    exists before, c, after. auto.
Qed.

(** A run that succeeds, with the handles the driver handed back. *)
Lemma RunComputeShader_at (device : Handle) (queueFamilyIndex : Z)
    (shaderCode : list Z) (t : Trace) :
  returns_at (RunComputeShader drv device queueFamilyIndex shaderCode) t
    (fun result calls =>
       result = VK_SUCCESS ->
       exists m l p cp cb qu,
         calls = (pipeline_script device queueFamilyIndex shaderCode m l p cp cb qu
                  ++ pipeline_teardown device m l p cp cb)%list /\
         m = handed_back drv t calls 0 /\
         l = handed_back drv t calls 1 /\
         p = handed_back drv t calls 2 /\
         cp = handed_back drv t calls 3 /\
         cb = handed_back drv t calls 4 /\
         qu = handed_back drv t calls 9).
Proof.
  destruct (RunComputeShader_returns device queueFamilyIndex shaderCode t)
    as (out & calls & Hrun & result & -> & _).
  exists (Ret result), calls. split; [exact Hrun|].
  exists result. split; [reflexivity|]. intros ->.
  destruct (RunComputeShader_success_trace _ _ _ _ _ _ Hrun)
    as (m & l & p & cp & cb & qu & Ht' & _ & Hhandles).
  cbv zeta in Ht', Hhandles. apply app_inv_head in Ht'. subst calls.
  exists m, l, p, cp, cb, qu. split; [reflexivity | exact Hhandles].
Qed.

Lemma DestroyDebugMessenger_post (instance debugMessenger : Handle) :
  run_post (DestroyDebugMessenger drv instance debugMessenger)
    (fun out calls =>
       (out = Ret tt /\ calls = messenger_release instance debugMessenger)
       \/ (out = Crash NullFunctionCall /\
           calls = [vkGetInstanceProcAddr instance "vkDestroyDebugUtilsMessengerEXT"])).
Proof.
  intros t. unfold DestroyDebugMessenger, messenger_release.
  destruct ((nullptr =? instance) || (nullptr =? debugMessenger)).
  - exists (Ret tt), []. rewrite app_nil_r. split; [reflexivity | auto].
  - rewrite bind_call. cbv beta iota. unfold call_through.
    destruct (drv_handle drv t _ =? nullptr).
    + eexists _, [_]. split; [reflexivity | auto].
    + rewrite bind_call. unfold ret. eexists _, [_; _]. rewrite <- app_assoc.
      split; [reflexivity | auto].
Qed.

Lemma DestroyReportCallback_post (instance reportCallback : Handle) :
  run_post (DestroyReportCallback drv instance reportCallback)
    (fun out calls =>
       (out = Ret tt /\ calls = report_release instance reportCallback)
       \/ (out = Crash NullFunctionCall /\
           calls = [vkGetInstanceProcAddr instance "vkDestroyDebugReportCallbackEXT"])).
Proof.
  intros t. unfold DestroyReportCallback, report_release.
  destruct ((nullptr =? instance) || (nullptr =? reportCallback)).
  - exists (Ret tt), []. rewrite app_nil_r. split; [reflexivity | auto].
  - rewrite bind_call. cbv beta iota. unfold call_through.
    destruct (drv_handle drv t _ =? nullptr).
    + eexists _, [_]. split; [reflexivity | auto].
    + rewrite bind_call. unfold ret. eexists _, [_; _]. rewrite <- app_assoc.
      split; [reflexivity | auto].
Qed.

End Returns.

(** ** The harness as a whole *)

Lemma main_success_post (drv : Driver) (host : Host) :
  post_at (main drv host) []
    (fun out calls =>
       out = Ret 0 ->
       forall trace, trace = calls ->
       let handle := handed_back drv [] trace in
       let instance := handle 4%nat in
       let messenger := handle 6%nat in
       let callback := handle 8%nat in
       let physicalDevice := element_0 host (drv_physical_devices drv instance) in
       let device := handle 13%nat in
       exists queueFamilyIndex glsl hlsl,
         fst (GetBestComputeQueue drv host physicalDevice 0 [])
         = Ret (VK_SUCCESS, queueFamilyIndex) /\
         readFile host "GLSLComputeShader.comp.spv" [] = (Ret glsl, []) /\
         readFile host "HLSLComputeShader.comp.spv" [] = (Ret hlsl, []) /\
         trace
         = (preflight_calls
            ++ setup_calls instance physicalDevice queueFamilyIndex
            ++ pipeline_script device queueFamilyIndex glsl
                 (handle 14%nat) (handle 15%nat) (handle 16%nat) (handle 17%nat)
                 (handle 18%nat) (handle 23%nat)
            ++ pipeline_teardown device
                 (handle 14%nat) (handle 15%nat) (handle 16%nat) (handle 17%nat)
                 (handle 18%nat)
            ++ pipeline_script device queueFamilyIndex hlsl
                 (handle 31%nat) (handle 32%nat) (handle 33%nat) (handle 34%nat)
                 (handle 35%nat) (handle 40%nat)
            ++ pipeline_teardown device
                 (handle 31%nat) (handle 32%nat) (handle 33%nat) (handle 34%nat)
                 (handle 35%nat)
            ++ [vkDestroyDevice device]
            ++ messenger_release instance messenger
            ++ report_release instance callback
            ++ [vkDestroyInstance instance])%list).
Proof.
  unfold main.
  eapply pa_bind_returns; [apply returns_at_of, VerifyInstanceLayers_returns|].
  intros layersPresent calls1 [_ ->].
  eapply pa_bind_returns; [apply returns_at_of, VerifyInstanceExtensions_returns|].
  intros extensionsPresent calls2 [_ ->].
  destruct (negb layersPresent || negb extensionsPresent).
  { apply pa_ret. discriminate 1. }
  unfold CreateHeadlessVulkanInstance, CreateDevice.
  eapply pa_bind_returns; [apply call_at|].
  intros [result instance] calls3 [Hinstance ->]. cbv beta iota zeta.
  injection Hinstance as _ Hinstance.
  apply pa_EXIT; [intros _ | discriminate 2].
  eapply pa_bind_returns; [apply CreateDebugMessenger_at|].
  intros [result1 written1] calls4 Hmessenger. cbv beta iota zeta.
  cbv zeta in Hmessenger. cbn [fst snd] in Hmessenger.
  apply pa_EXIT; [intros Hok1 | discriminate 2].
  destruct Hmessenger
    as [[Hbad _] | [[Hbad _] | (_ & -> & messenger & -> & Hmessenger)]];
    try (rewrite Hok1 in Hbad; discriminate Hbad).
  eapply pa_bind_returns; [apply CreateReportCallback_at|].
  intros [result2 written2] calls5 Hcallback. cbv beta iota zeta.
  cbv zeta in Hcallback. cbn [fst snd] in Hcallback.
  apply pa_EXIT; [intros Hok2 | discriminate 2].
  destruct Hcallback as [[Hbad _] | (-> & callback & -> & Hcallback)];
    try (rewrite Hok2 in Hbad; discriminate Hbad).
  eapply pa_bind_returns; [apply returns_at_of, EnumerateDevices_returns|].
  intros [[result3 physicalDevices] physicalDeviceCount] calls6 Henumerated.
  cbv beta iota zeta. cbv zeta in Henumerated. cbn [fst snd] in Henumerated.
  apply pa_EXIT; [intros Hok3 | discriminate 2].
  destruct Henumerated as [[Hbad _] | (Hdevices & _ & ->)]; [contradiction|].
  destruct physicalDevices as [array|]; [|apply pa_crash; discriminate 1].
  destruct (host_malloc host _); [|discriminate Hdevices].
  injection Hdevices as ->. cbn [negb].
  eapply pa_bind_returns; [apply returns_at_of, GetBestComputeQueue_returns|].
  intros [result4 queueFamilyIndex] calls7 [Hselected Hcalls7]. cbv beta iota zeta.
  apply pa_EXIT; [intros -> | discriminate 2].
  destruct Hcalls7 as [[Hbad _] | ->]; [discriminate Hbad|].
  eapply pa_bind_returns; [apply call_at|].
  intros [result5 device] calls8 [Hdevice ->]. cbv beta iota zeta.
  injection Hdevice as _ Hdevice.
  apply pa_EXIT; [intros _ | discriminate 2].
  apply pa_readFile; [discriminate 2 | intros glsl Hglsl].
  eapply pa_bind_returns; [apply RunComputeShader_at|].
  intros result6 calls9 Hrun1.
  apply pa_EXIT; [intros Hok6 | discriminate 2].
  destruct (Hrun1 Hok6)
    as (m1 & l1 & p1 & cp1 & cb1 & qu1 & Hcalls9 & Hm1 & Hl1 & Hp1 & Hcp1 & Hcb1 & Hqu1).
  clear Hrun1. subst calls9.
  apply pa_readFile; [discriminate 2 | intros hlsl Hhlsl].
  eapply pa_bind_returns; [apply RunComputeShader_at|].
  intros result7 calls10 Hrun2.
  apply pa_EXIT; [intros Hok7 | discriminate 2].
  destruct (Hrun2 Hok7)
    as (m2 & l2 & p2 & cp2 & cb2 & qu2 & Hcalls10 & Hm2 & Hl2 & Hp2 & Hcp2 & Hcb2 & Hqu2).
  clear Hrun2. subst calls10.
  apply pa_bind_emit.
  eapply pa_bind; [apply post_at_of, DestroyDebugMessenger_post | | |].
  2: intros code calls11 [[Hout _] | [Hout _]]; discriminate Hout.
  2: discriminate 2.
  intros [] calls11 [[_ ->] | [Hout _]]; [|discriminate Hout].
  eapply pa_bind; [apply post_at_of, DestroyReportCallback_post | | |].
  2: intros code calls12 [[Hout _] | [Hout _]]; discriminate Hout.
  2: discriminate 2.
  intros [] calls12 [[_ ->] | [Hout _]]; [|discriminate Hout].
  apply pa_bind_emit. apply pa_ret. intros _ trace Htrace. cbv zeta.
  cbn [pointee] in Htrace.
  assert (H4 : handed_back drv [] trace 4 = instance)
    by (rewrite Htrace; symmetry; exact Hinstance).
  assert (H6 : handed_back drv [] trace 6 = messenger)
    by (rewrite Htrace; symmetry; exact Hmessenger).
  assert (H8 : handed_back drv [] trace 8 = callback)
    by (rewrite Htrace; symmetry; exact Hcallback).
  assert (H13 : handed_back drv [] trace 13 = device)
    by (rewrite Htrace; symmetry; exact Hdevice).
  assert (H14 : handed_back drv [] trace 14 = m1)
    by (rewrite Htrace; symmetry; exact Hm1).
  assert (H15 : handed_back drv [] trace 15 = l1)
    by (rewrite Htrace; symmetry; exact Hl1).
  assert (H16 : handed_back drv [] trace 16 = p1)
    by (rewrite Htrace; symmetry; exact Hp1).
  assert (H17 : handed_back drv [] trace 17 = cp1)
    by (rewrite Htrace; symmetry; exact Hcp1).
  assert (H18 : handed_back drv [] trace 18 = cb1)
    by (rewrite Htrace; symmetry; exact Hcb1).
  assert (H23 : handed_back drv [] trace 23 = qu1)
    by (rewrite Htrace; symmetry; exact Hqu1).
  assert (H31 : handed_back drv [] trace 31 = m2)
    by (rewrite Htrace; symmetry; exact Hm2).
  assert (H32 : handed_back drv [] trace 32 = l2)
    by (rewrite Htrace; symmetry; exact Hl2).
  assert (H33 : handed_back drv [] trace 33 = p2)
    by (rewrite Htrace; symmetry; exact Hp2).
  assert (H34 : handed_back drv [] trace 34 = cp2)
    by (rewrite Htrace; symmetry; exact Hcp2).
  assert (H35 : handed_back drv [] trace 35 = cb2)
    by (rewrite Htrace; symmetry; exact Hcb2).
  assert (H40 : handed_back drv [] trace 40 = qu2)
    by (rewrite Htrace; symmetry; exact Hqu2).
  rewrite H4, H6, H8, H13, H14, H15, H16, H17, H18, H23,
    H31, H32, H33, H34, H35, H40.
  exists queueFamilyIndex, glsl, hlsl.
  split; [exact Hselected|]. split; [exact Hglsl|]. split; [exact Hhlsl|].
  rewrite Htrace. reflexivity.
Qed.

(** X10.  The shape of a successful run of the harness.  When [main]
    returns 0, its calls are exactly: the four enumerations of the capability
    check; the creation of the instance, the lookup and registration of both
    sinks, the two device enumerations, the two queue-family queries and the
    creation of the device, on element 0 of the device array and on the
    queue family that the selection returns for it; one complete pipeline
    run with its teardown on the words read from the GLSL binary, then one
    on the words read from the HLSL binary, both on the same device and
    queue family; and then the release of the device, of the messenger, of
    the report callback and of the instance, in this order.  No handle is
    invented: the instance, the messenger, the report callback, the device
    and the handles of both pipeline runs are the ones the driver handed
    back at calls number 4, 6, 8, 13, 14 to 18 and 23, 31 to 35 and 40 of
    this very run. *)
Theorem main_success_shape (drv : Driver) (host : Host) (trace : Trace) :
  main drv host [] = (Ret 0, trace) ->
  let handle := handed_back drv [] trace in
  let instance := handle 4%nat in
  let messenger := handle 6%nat in
  let callback := handle 8%nat in
  let physicalDevice := element_0 host (drv_physical_devices drv instance) in
  let device := handle 13%nat in
  exists queueFamilyIndex glsl hlsl,
    fst (GetBestComputeQueue drv host physicalDevice 0 [])
    = Ret (VK_SUCCESS, queueFamilyIndex) /\
    readFile host "GLSLComputeShader.comp.spv" [] = (Ret glsl, []) /\
    readFile host "HLSLComputeShader.comp.spv" [] = (Ret hlsl, []) /\
    trace
    = (preflight_calls
       ++ setup_calls instance physicalDevice queueFamilyIndex
       ++ pipeline_script device queueFamilyIndex glsl
            (handle 14%nat) (handle 15%nat) (handle 16%nat) (handle 17%nat)
            (handle 18%nat) (handle 23%nat)
       ++ pipeline_teardown device
            (handle 14%nat) (handle 15%nat) (handle 16%nat) (handle 17%nat)
            (handle 18%nat)
       ++ pipeline_script device queueFamilyIndex hlsl
            (handle 31%nat) (handle 32%nat) (handle 33%nat) (handle 34%nat)
            (handle 35%nat) (handle 40%nat)
       ++ pipeline_teardown device
            (handle 31%nat) (handle 32%nat) (handle 33%nat) (handle 34%nat)
            (handle 35%nat)
       ++ [vkDestroyDevice device]
       ++ messenger_release instance messenger
       ++ report_release instance callback
       ++ [vkDestroyInstance instance])%list.
Proof.
  intros Hmain.
  destruct (main_success_post drv host) as (out & calls & Hrun & Hpost).
  rewrite Hrun in Hmain. injection Hmain as -> <-.
  exact (Hpost eq_refl calls eq_refl).
Qed.

Lemma main_success_shape_witness :
  let drv := willing_driver [ family 2 ] in
  let trace := snd (main drv sample_host []) in
  let handle := handed_back drv [] trace in
  let instance := handle 4%nat in
  let messenger := handle 6%nat in
  let callback := handle 8%nat in
  let physicalDevice := element_0 sample_host (drv_physical_devices drv instance) in
  let device := handle 13%nat in
  exists queueFamilyIndex glsl hlsl,
    fst (GetBestComputeQueue drv sample_host physicalDevice 0 [])
    = Ret (VK_SUCCESS, queueFamilyIndex) /\
    readFile sample_host "GLSLComputeShader.comp.spv" [] = (Ret glsl, []) /\
    readFile sample_host "HLSLComputeShader.comp.spv" [] = (Ret hlsl, []) /\
    trace
    = (preflight_calls
       ++ setup_calls instance physicalDevice queueFamilyIndex
       ++ pipeline_script device queueFamilyIndex glsl
            (handle 14%nat) (handle 15%nat) (handle 16%nat) (handle 17%nat)
            (handle 18%nat) (handle 23%nat)
       ++ pipeline_teardown device
            (handle 14%nat) (handle 15%nat) (handle 16%nat) (handle 17%nat)
            (handle 18%nat)
       ++ pipeline_script device queueFamilyIndex hlsl
            (handle 31%nat) (handle 32%nat) (handle 33%nat) (handle 34%nat)
            (handle 35%nat) (handle 40%nat)
       ++ pipeline_teardown device
            (handle 31%nat) (handle 32%nat) (handle 33%nat) (handle 34%nat)
            (handle 35%nat)
       ++ [vkDestroyDevice device]
       ++ messenger_release instance messenger
       ++ report_release instance callback
       ++ [vkDestroyInstance instance])%list.
Proof.
  apply (main_success_shape (willing_driver [ family 2 ]) sample_host).
  vm_compute. reflexivity.
Defined.

(** On the driver of the example the handles are non-null, so that both
    sinks are released through their destroy entry points. *)
Example main_success_releases_sinks :
  let drv := willing_driver [ family 2 ] in
  let trace := snd (main drv sample_host []) in
  messenger_release (handed_back drv [] trace 4) (handed_back drv [] trace 6)
  = [ vkGetInstanceProcAddr 5 "vkDestroyDebugUtilsMessengerEXT";
      PFN_vkDestroyDebugUtilsMessengerEXT 5 7 ] /\
  report_release (handed_back drv [] trace 4) (handed_back drv [] trace 8)
  = [ vkGetInstanceProcAddr 5 "vkDestroyDebugReportCallbackEXT";
      PFN_vkDestroyDebugReportCallbackEXT 5 9 ].
Proof. vm_compute. split; reflexivity. Qed.

Ltac absurd_result :=
  match goal with
  | H : _ = _ |- _ => discriminate H
  | H : ?x <> ?x |- _ => elim H; reflexivity
  end.

Ltac open_posts :=
  repeat match goal with
         | H : _ \/ _ |- _ => destruct H
         | H : _ /\ _ |- _ => destruct H
         | H : exists _, _ |- _ => destruct H
         end;
  subst.

(** Walking through [main], one rule per statement.  After a check that
    passed, the outcomes of the checked call that fail it are dropped.
    [simp] rewrites with the assumptions of the theorem, [leaf] proves the
    postcondition where [main] stops. *)
Ltac walk simp leaf :=
  cbv beta iota zeta; simp;
  lazymatch goal with
  | |- post_at (ret _) _ _ => apply pa_ret; leaf
  | |- post_at (crash _) _ _ => apply pa_crash; leaf
  | |- post_at (bind (EXIT_ON_BAD_RESULT _ _) _) _ _ =>
      let H := fresh "Hcheck" in
      apply pa_EXIT;
      [ intros H; open_posts; try absurd_result; walk simp leaf | intros H; leaf ]
  | |- post_at (bind (emit _) _) _ _ => apply pa_bind_emit; walk simp leaf
  | |- post_at (bind (readFile _ _) _) _ _ =>
      let H := fresh "Hfile" in
      apply pa_readFile; [intros H; leaf | intros ? H; walk simp leaf]
  | |- post_at (bind (call _ _) _) _ _ =>
      let H := fresh "Hpost" in
      eapply pa_bind_returns;
      [apply call_at | intros [? ?] ? [_ H]; walk simp leaf]
  | |- post_at (bind (VerifyInstanceLayers _ _) _) _ _ =>
      let H := fresh "Hpost" in
      eapply pa_bind_returns;
      [ apply returns_at_of, VerifyInstanceLayers_returns
      | intros ? ? H; cbv beta in H; walk simp leaf ]
  | |- post_at (bind (VerifyInstanceExtensions _ _) _) _ _ =>
      let H := fresh "Hpost" in
      eapply pa_bind_returns;
      [ apply returns_at_of, VerifyInstanceExtensions_returns
      | intros ? ? H; cbv beta in H; walk simp leaf ]
  | |- post_at (bind (CreateDebugMessenger _ _ _) _) _ _ =>
      let H := fresh "Hpost" in
      eapply pa_bind_returns;
      [ apply CreateDebugMessenger_at
      | intros [? ?] ? H; cbv beta zeta in H; cbn [fst snd] in H; walk simp leaf ]
  | |- post_at (bind (CreateReportCallback _ _ _) _) _ _ =>
      let H := fresh "Hpost" in
      eapply pa_bind_returns;
      [ apply CreateReportCallback_at
      | intros [? ?] ? H; cbv beta zeta in H; cbn [fst snd] in H; walk simp leaf ]
  | |- post_at (bind (EnumerateDevices _ _ _ _ _) _) _ _ =>
      let H := fresh "Hpost" in
      eapply pa_bind_returns;
      [ apply returns_at_of, EnumerateDevices_returns
      | intros [[? ?] ?] ? H; cbv beta zeta in H; cbn [fst snd] in H;
        walk simp leaf ]
  | |- post_at (bind (GetBestComputeQueue _ _ _ _) _) _ _ =>
      let H := fresh "Hpost" in
      eapply pa_bind_returns;
      [ apply returns_at_of, GetBestComputeQueue_returns
      | intros [? ?] ? [_ H]; cbn [fst snd] in H; walk simp leaf ]
  | |- post_at (bind (RunComputeShader _ _ _ _) _) _ _ =>
      let H := fresh "Hpost" in
      eapply pa_bind_returns;
      [ apply returns_at_of, RunComputeShader_returns
      | intros ? ? H; cbv beta zeta in H; walk simp leaf ]
  | |- post_at (bind (DestroyDebugMessenger _ _ _) _) _ _ =>
      let H := fresh "Hpost" in
      eapply pa_bind;
      [ apply post_at_of, DestroyDebugMessenger_post
      | intros [] ? H; cbv beta in H; walk simp leaf
      | intros ? ? H; cbv beta in H; leaf
      | intros ? ? H; cbv beta in H; leaf ]
  | |- post_at (bind (DestroyReportCallback _ _ _) _) _ _ =>
      let H := fresh "Hpost" in
      eapply pa_bind;
      [ apply post_at_of, DestroyReportCallback_post
      | intros [] ? H; cbv beta in H; walk simp leaf
      | intros ? ? H; cbv beta in H; leaf
      | intros ? ? H; cbv beta in H; leaf ]
  | |- post_at (match (if ?b then _ else _) with Some _ => _ | None => _ end) _ _ =>
      destruct b; walk simp leaf
  | |- post_at (match ?d with Some _ => _ | None => _ end) _ _ =>
      destruct d; walk simp leaf
  | |- post_at (if ?b then _ else _) _ _ => destruct b; walk simp leaf
  | |- _ => idtac
  end.

Lemma main_preflight_post (drv : Driver) (host : Host) :
  post_at (main drv host) []
    (fun out calls =>
       if all_required_found requiredInstanceLayers (drv_layers drv)
          && all_required_found requiredInstanceExtensions (drv_extensions drv)
       then exists rest,
              calls
              = (preflight_calls
                 ++ vkCreateInstance requiredInstanceLayers requiredInstanceExtensions
                      [ VK_VALIDATION_FEATURE_ENABLE_DEBUG_PRINTF_EXT ] :: rest)%list
       else out = Ret 1 /\ calls = preflight_calls).
Proof.
  unfold main.
  eapply pa_bind_returns; [apply returns_at_of, VerifyInstanceLayers_returns|].
  intros layersPresent calls1 [-> ->].
  eapply pa_bind_returns; [apply returns_at_of, VerifyInstanceExtensions_returns|].
  intros extensionsPresent calls2 [-> ->].
  destruct (all_required_found requiredInstanceLayers (drv_layers drv));
    destruct (all_required_found requiredInstanceExtensions (drv_extensions drv));
    cbn [negb orb andb];
    try (apply pa_ret; split; reflexivity).
  unfold CreateHeadlessVulkanInstance, CreateDevice.
  walk idtac ltac:(open_posts; eexists; reflexivity).
Qed.

(** X11.  The capability check gates everything.  On a driver whose names
    are C strings, [main] makes the four enumeration calls first; when a
    required layer or extension is missing it returns 1 having made no other
    call (nothing is created, nothing is written to the error stream); when
    all are present its next call is the creation of the instance with the
    required layers, the required extensions and the debug-printf
    validation feature. *)
Theorem main_preflight (drv : Driver) (host : Host) :
  c_strings (drv_layers drv) ->
  c_strings (drv_extensions drv) ->
  exists out calls,
    main drv host [] = (out, calls) /\
    (incl requiredInstanceLayers (drv_layers drv) ->
     incl requiredInstanceExtensions (drv_extensions drv) ->
     exists rest,
       calls
       = (preflight_calls
          ++ vkCreateInstance requiredInstanceLayers requiredInstanceExtensions
               [ VK_VALIDATION_FEATURE_ENABLE_DEBUG_PRINTF_EXT ] :: rest)%list) /\
    (~ (incl requiredInstanceLayers (drv_layers drv) /\
        incl requiredInstanceExtensions (drv_extensions drv)) ->
     out = Ret 1 /\ calls = preflight_calls).
Proof.
  intros Hlayers Hextensions.
  assert (Hrequired : c_strings requiredInstanceLayers) by (repeat constructor).
  assert (Hrequired' : c_strings requiredInstanceExtensions) by (repeat constructor).
  pose proof (all_required_found_spec _ _ Hrequired Hlayers) as Hl.
  pose proof (all_required_found_spec _ _ Hrequired' Hextensions) as He.
  destruct (main_preflight_post drv host) as (out & calls & Hrun & Hpost).
  exists out, calls. split; [exact Hrun|].
  destruct (all_required_found requiredInstanceLayers (drv_layers drv));
    destruct (all_required_found requiredInstanceExtensions (drv_extensions drv));
    cbn [andb] in Hpost.
  - split; [intros _ _; exact Hpost|]. intros Hmissing. exfalso. apply Hmissing.
    split; [now apply Hl | now apply He].
  - split; [|intros _; exact Hpost]. intros _ Hin. apply He in Hin. discriminate Hin.
  - split; [|intros _; exact Hpost]. intros Hin _. apply Hl in Hin. discriminate Hin.
  - split; [|intros _; exact Hpost]. intros Hin _. apply Hl in Hin. discriminate Hin.
Qed.

Lemma main_preflight_witness :
  exists out calls,
    main (willing_driver []) sample_host [] = (out, calls) /\
    (incl requiredInstanceLayers (drv_layers (willing_driver [])) ->
     incl requiredInstanceExtensions (drv_extensions (willing_driver [])) ->
     exists rest,
       calls
       = (preflight_calls
          ++ vkCreateInstance requiredInstanceLayers requiredInstanceExtensions
               [ VK_VALIDATION_FEATURE_ENABLE_DEBUG_PRINTF_EXT ] :: rest)%list) /\
    (~ (incl requiredInstanceLayers (drv_layers (willing_driver [])) /\
        incl requiredInstanceExtensions (drv_extensions (willing_driver []))) ->
     out = Ret 1 /\ calls = preflight_calls).
Proof.
  apply (main_preflight (willing_driver []) sample_host); repeat constructor.
Defined.

(** The value of the enabled feature in the Vulkan headers. *)
Example debug_printf_feature : VK_VALIDATION_FEATURE_ENABLE_DEBUG_PRINTF_EXT = 3.
Proof. reflexivity. Qed.



(** With an array that [malloc] returned and a driver that lists no device,
    nothing was written into the array, and [main] goes on with what the
    memory holds: here the run ends at line 562 because the driver reports no
    queue family for that handle. *)
Example main_without_devices :
  main driver_without_devices sample_host []
  = (Exit EXIT_FAILURE,
     (preflight_calls
      ++ firstn 7 (setup_calls 5 0 0)
      ++ [ vkGetPhysicalDeviceQueueFamilyProperties (host_uninitialized sample_host) true;
           vkGetPhysicalDeviceQueueFamilyProperties (host_uninitialized sample_host) false;
           fprintf_stderr_Failure_at 562 ])%list).
Proof. vm_compute. reflexivity. Qed.

Ltac stopped_without_file :=
  open_posts;
  (split; [discriminate|]; split; reflexivity).

(** X13.  When the GLSL binary cannot be opened, [main] never returns 0,
    creates no resource of a pipeline run, and makes none of its release
    calls. *)
Theorem main_missing_shader_file (drv : Driver) (host : Host) :
  host_files host "GLSLComputeShader.comp.spv" = None ->
  exists out calls,
    main drv host [] = (out, calls) /\
    out <> Ret 0 /\
    created calls = [] /\
    filter is_caller_cleanup calls = [].
Proof.
  intros Hnone.
  cut (post_at (main drv host) []
         (fun out calls =>
            out <> Ret 0 /\
            created calls = [] /\
            filter is_caller_cleanup calls = [])).
  { intros (out & calls & Hrun & HQ). eauto. }
  unfold main, CreateHeadlessVulkanInstance, CreateDevice.
  walk
    ltac:(try (apply (pa_readFile_missing _ _ _ _ _ Hnone); stopped_without_file))
    ltac:(stopped_without_file).
Qed.

Lemma main_missing_shader_file_witness :
  exists out calls,
    main (willing_driver [ family 2 ]) host_without_files [] = (out, calls) /\
    out <> Ret 0 /\
    created calls = [] /\
    filter is_caller_cleanup calls = [].
Proof.
  apply (main_missing_shader_file (willing_driver [ family 2 ]) host_without_files).
  reflexivity.
Defined.

Ltac stopped_by_exception :=
  open_posts; try absurd_result;
  try match goal with
      | H : Crash ?f = Crash _ |- _ => is_var f; injection H as ->
      end;
  let w := fresh "w" in
  let Hout := fresh "Hout" in
  intros w Hout; try discriminate Hout;
  injection Hout as <-;
  (split; [reflexivity|]); (split; [reflexivity|]);
  lazymatch goal with
  | Hread : readFile _ _ [] = (Ret _, []) |- _ =>
      right;
      split;
      [ let Hn := fresh "Hn" in
        intros Hn; unfold readFile in Hread; rewrite Hn in Hread; discriminate Hread |];
      split; [assumption|];
      rewrite app_nil_r, !app_assoc, <- app_assoc;
      do 10 eexists; reflexivity
  | _ =>
      left; split; [assumption|]; split; [reflexivity|];
      rewrite app_nil_r, !app_assoc; eexists _, _, _; reflexivity
  end.

Lemma main_exception_post (drv : Driver) (host : Host) :
  post_at (main drv host) []
    (fun out calls =>
       forall what,
         out = Crash (UncaughtException what) ->
         what = "Failed to open file!" /\
         filter is_caller_cleanup calls = [] /\
         ((host_files host "GLSLComputeShader.comp.spv" = None /\
           created calls = [] /\
           exists earlier physicalDevice queueFamilyIndex,
             calls = (earlier ++ [vkCreateDevice physicalDevice queueFamilyIndex])%list)
          \/ (host_files host "GLSLComputeShader.comp.spv" <> None /\
              host_files host "HLSLComputeShader.comp.spv" = None /\
              exists earlier device queueFamilyIndex glsl m l p cp cb qu,
                calls
                = (earlier
                   ++ pipeline_script device queueFamilyIndex glsl m l p cp cb qu
                   ++ pipeline_teardown device m l p cp cb)%list))).
Proof.
  unfold main, CreateHeadlessVulkanInstance, CreateDevice.
  walk idtac ltac:(stopped_by_exception).
Qed.

(** X14.  The only exception that leaves [main] is the one of [readFile].
    When [main] ends by an uncaught exception, its text is
    "Failed to open file!", and [main] has made none of its release calls:
    either the GLSL binary could not be opened, no pipeline resource was
    created and the last call is the creation of the device; or the GLSL
    binary was opened, the HLSL binary could not be, and the last calls are
    one complete pipeline run followed by its teardown. *)
Theorem main_uncaught_exception (drv : Driver) (host : Host) (what : string)
    (calls : list Call) :
  main drv host [] = (Crash (UncaughtException what), calls) ->
  what = "Failed to open file!" /\
  filter is_caller_cleanup calls = [] /\
  ((host_files host "GLSLComputeShader.comp.spv" = None /\
    created calls = [] /\
    exists earlier physicalDevice queueFamilyIndex,
      calls = (earlier ++ [vkCreateDevice physicalDevice queueFamilyIndex])%list)
   \/ (host_files host "GLSLComputeShader.comp.spv" <> None /\
       host_files host "HLSLComputeShader.comp.spv" = None /\
       exists earlier device queueFamilyIndex glsl m l p cp cb qu,
         calls
         = (earlier
            ++ pipeline_script device queueFamilyIndex glsl m l p cp cb qu
            ++ pipeline_teardown device m l p cp cb)%list)).
Proof.
  intros Hmain.
  destruct (main_exception_post drv host) as (out & calls' & Hrun & Hpost).
  rewrite Hrun in Hmain. injection Hmain as -> <-.
  exact (Hpost what eq_refl).
Qed.

Lemma main_uncaught_exception_witness :
  let calls := snd (main (willing_driver [ family 2 ]) host_with_one_file []) in
  "Failed to open file!" = "Failed to open file!" /\
  filter is_caller_cleanup calls = [] /\
  ((host_files host_with_one_file "GLSLComputeShader.comp.spv" = None /\
    created calls = [] /\
    exists earlier physicalDevice queueFamilyIndex,
      calls = (earlier ++ [vkCreateDevice physicalDevice queueFamilyIndex])%list)
   \/ (host_files host_with_one_file "GLSLComputeShader.comp.spv" <> None /\
       host_files host_with_one_file "HLSLComputeShader.comp.spv" = None /\
       exists earlier device queueFamilyIndex glsl m l p cp cb qu,
         calls
         = (earlier
            ++ pipeline_script device queueFamilyIndex glsl m l p cp cb qu
            ++ pipeline_teardown device m l p cp cb)%list)).
Proof.
  apply (main_uncaught_exception (willing_driver [ family 2 ]) host_with_one_file).
  vm_compute. reflexivity.
Defined.
